(** * Shallow embedding of the dynamic hedge strategy (pkg/strategy)

    Quantities that the Go code keeps in [float64] are modelled as exact
    rationals [Q]; the comparisons and arithmetic are written as in the
    source.  Go pointers are modelled as locations of an explicit heap so
    that aliasing between a returned pointer and the manager's own state is
    visible.  A [time.Time] is modelled by its instant and the UTC offset of its
    location, from which [Date()] computes the civil date. *)

From Stdlib Require Import QArith Qabs Qminmax ZArith.
From stdpp Require Import base gmap strings list fin_maps pretty.

Local Open Scope Q_scope.
Local Open Scope string_scope.

(** ** Time *)

(** A [time.Time]: an instant (nanoseconds since the Unix epoch) with the
    UTC offset of its location, in seconds. *)
Record GoTime := mkGoTime {
  unix_nano : Z;
  utc_offset : Z
}.

(** The zero [time.Time] (January 1, year 1, 00:00:00 UTC). *)
Definition zeroTime : GoTime := mkGoTime (-62135596800000000000)%Z 0%Z.

(** ** Ledger: [Position], [ExchangePositions], [PositionManager] *)

Record Position := mkPosition {
  pos_Symbol : string;
  Size : Q;     (* positive long, negative short *)
  Value : Q;    (* USDT/USDC value, signed like Size *)
  pos_Leverage : Q
}.

Record ExchangePositions := mkExchangePositions {
  Exchange : string;
  Positions : gmap string Position;
  ep_Leverage : Q;
  UpdatedAt : GoTime
}.

(** The two [*ExchangePositions] fields are pointers into a heap of
    [ExchangePositions] objects. *)
Abbreviation loc := positive.
Abbreviation pheap := (gmap loc ExchangePositions).

Record PositionManager := mkPositionManager {
  lighterPositions : loc;
  binancePositions : loc
}.

(** [GetLighterPositions] returns [pm.lighterPositions], the pointer itself. *)
Definition GetLighterPositions (pm : PositionManager) : loc := lighterPositions pm.

Definition GetBinancePositions (pm : PositionManager) : loc := binancePositions pm.

(** Dereferencing a pointer; [None] is a nil-pointer panic. *)
Definition deref (h : pheap) (p : loc) : option ExchangePositions := h !! p.

Definition set_positions (ep : ExchangePositions) (m : gmap string Position)
    (now : GoTime) : ExchangePositions :=
  {| Exchange := Exchange ep; Positions := m; ep_Leverage := ep_Leverage ep;
     UpdatedAt := now |}.

(** [UpdateLighterPosition]: [pm.lighterPositions.Positions[symbol] = position]
    and [UpdatedAt = time.Now()], in place. (A nil Go map reads like an
    empty one, so the [make] branch is the empty [gmap].) *)
Definition UpdateLighterPosition (now : GoTime) (pm : PositionManager)
    (symbol : string) (position : Position) (h : pheap) : option pheap :=
  match h !! lighterPositions pm with
  | None => None
  | Some ep =>
      Some (<[lighterPositions pm :=
               set_positions ep (<[symbol := position]> (Positions ep)) now]> h)
  end.

Definition UpdateBinancePosition (now : GoTime) (pm : PositionManager)
    (symbol : string) (position : Position) (h : pheap) : option pheap :=
  match h !! binancePositions pm with
  | None => None
  | Some ep =>
      Some (<[binancePositions pm :=
               set_positions ep (<[symbol := position]> (Positions ep)) now]> h)
  end.

(** ** Risk manager *)

Record DynamicHedgeConfig := mkDynamicHedgeConfig {
  OrderSize : Q;
  MaxLeverage : Q;
  EmergencyLeverage : Q;
  StopDuration : Z;
  SpreadPercent : Q
}.

Inductive RiskAction :=
  | RiskActionContinueOpening
  | RiskActionStopOpening
  | RiskActionStartClosing
  | RiskActionEmergencyClose.

Definition RiskAction_String (ra : RiskAction) : string :=
  match ra with
  | RiskActionContinueOpening => "CONTINUE_OPENING"
  | RiskActionStopOpening => "STOP_OPENING"
  | RiskActionStartClosing => "START_CLOSING"
  | RiskActionEmergencyClose => "EMERGENCY_CLOSE"
  end.

Record RiskStatus := mkRiskStatus {
  Action : RiskAction;
  LighterLeverage : Q;
  BinanceLeverage : Q;
  rs_MaxLeverage : Q;
  Reason : string;
  Timestamp : GoTime
}.

Record RiskManager := mkRiskManager { rm_config : DynamicHedgeConfig }.

(** Go's [a < b] on floats. *)
Definition Qlt_bool (a b : Q) : bool := negb (Qle_bool b a).

(** [max] of risk_manager.go: [if a > b { return a }; return b]. *)
Definition go_max (a b : Q) : Q := if Qlt_bool b a then a else b.

(** [shouldStartClosing] as in the source: a placeholder returning false. *)
Definition shouldStartClosing (rm : RiskManager) (now : GoTime) : bool := false.

(** The [for _, pos := range m { if pos.Size != 0 { return false } }] loop. *)
Definition sizes_all_zero (m : gmap string Position) : bool :=
  forallb (fun kv : string * Position => Qeq_bool (Size kv.2) 0) (map_to_list m).

Definition RiskManager_allPositionsZero (pm : PositionManager) (h : pheap)
    : option bool :=
  match deref h (GetLighterPositions pm), deref h (GetBinancePositions pm) with
  | Some l, Some b => Some (sizes_all_zero (Positions l) && sizes_all_zero (Positions b))
  | _, _ => None
  end.

Definition CheckRisk (rm : RiskManager) (pm : PositionManager) (h : pheap)
    (now : GoTime) : option RiskStatus :=
  match deref h (GetLighterPositions pm), deref h (GetBinancePositions pm) with
  | Some lp, Some bp =>
      let lighterLeverage := ep_Leverage lp in
      let binanceLeverage := ep_Leverage bp in
      let maxLeverage := go_max lighterLeverage binanceLeverage in
      let status a r := mkRiskStatus a lighterLeverage binanceLeverage maxLeverage r now in
      if Qle_bool (EmergencyLeverage (rm_config rm)) maxLeverage then
        Some (status RiskActionEmergencyClose "Leverage exceeded emergency threshold")
      else if Qle_bool (MaxLeverage (rm_config rm)) maxLeverage then
        if shouldStartClosing rm now then
          Some (status RiskActionStartClosing
                  "Stop duration exceeded, starting to close positions")
        else
          Some (status RiskActionStopOpening "Leverage exceeded max threshold")
      else
        match RiskManager_allPositionsZero pm h with
        | None => None
        | Some true =>
            Some (status RiskActionContinueOpening
                    "All positions are zero, ready to open new positions")
        | Some false =>
            Some (status RiskActionContinueOpening "Normal trading conditions")
        end
  | _, _ => None
  end.

Definition action_of (o : option RiskStatus) : option RiskAction :=
  option_map Action o.

(** ** Hedge balancer *)

Record HedgeBalancer := mkHedgeBalancer {
  tolerancePercent : Q;
  minAdjustAmount : Q
}.

Definition NewHedgeBalancer : HedgeBalancer :=
  {| tolerancePercent := 5.0; minAdjustAmount := 50.0 |}.

Definition SetBalanceTolerance (hb : HedgeBalancer) (t : Q) : HedgeBalancer :=
  {| tolerancePercent := t; minAdjustAmount := minAdjustAmount hb |}.

Definition SetMinAdjustAmount (hb : HedgeBalancer) (a : Q) : HedgeBalancer :=
  {| tolerancePercent := tolerancePercent hb; minAdjustAmount := a |}.

(** [checkAndAdjustHedgeBalance] only forwards positive configured values. *)
Definition configureBalancer (hb : HedgeBalancer) (balanceTolerance minBalanceAdjust : Q)
    : HedgeBalancer :=
  let hb1 := if Qlt_bool 0 balanceTolerance then SetBalanceTolerance hb balanceTolerance else hb in
  if Qlt_bool 0 minBalanceAdjust then SetMinAdjustAmount hb1 minBalanceAdjust else hb1.

Record PositionImbalance := mkPositionImbalance {
  pi_Symbol : string;
  LighterPosition : Q;
  BinancePosition : Q;
  ExpectedBalance : Q;
  ActualImbalance : Q;
  ImbalancePercent : Q;
  NeedsAdjustment : bool;
  AdjustmentSide : string;
  AdjustmentAmount : Q
}.

Definition getPositionValue (positions : ExchangePositions) (symbol : string) : Q :=
  match Positions positions !! symbol with
  | Some pos => Value pos
  | None => 0
  end.

Definition checkSymbolBalance (hb : HedgeBalancer) (symbol : string)
    (lighterPositions binancePositions : ExchangePositions) : PositionImbalance :=
  let lighterPos := getPositionValue lighterPositions symbol in
  let binancePos := getPositionValue binancePositions symbol in
  let expectedBalance := (Qabs lighterPos + Qabs binancePos) / 2 in
  let actualImbalance := Qabs lighterPos - Qabs binancePos in
  let imbalancePercent :=
    if Qlt_bool 0 expectedBalance then Qabs actualImbalance / expectedBalance * 100 else 0 in
  let needsAdjustment :=
    Qlt_bool (tolerancePercent hb) imbalancePercent &&
    Qlt_bool (minAdjustAmount hb) (Qabs actualImbalance) in
  let '(side, amount) :=
    if needsAdjustment then
      let side :=
        if Qlt_bool (Qabs binancePos) (Qabs lighterPos) then
          (if String.eqb symbol "BTC" then "BINANCE_INCREASE_SHORT" else "BINANCE_INCREASE_LONG")
        else
          (if String.eqb symbol "BTC" then "LIGHTER_INCREASE_LONG" else "LIGHTER_INCREASE_SHORT") in
      (side, Qabs actualImbalance / 2)
    else ("", 0) in
  {| pi_Symbol := symbol;
     LighterPosition := lighterPos;
     BinancePosition := binancePos;
     ExpectedBalance := expectedBalance;
     ActualImbalance := actualImbalance;
     ImbalancePercent := imbalancePercent;
     NeedsAdjustment := needsAdjustment;
     AdjustmentSide := side;
     AdjustmentAmount := amount |}.

(** [HedgeBalanceStatus]; [Imbalances] holds the [*PositionImbalance]
    values, which nothing mutates after [CheckHedgeBalance]. *)
Record HedgeBalanceStatus := mkHedgeBalanceStatus {
  IsBalanced : bool;
  Imbalances : list PositionImbalance;
  TotalImbalanceValue : Q;
  CheckedAt : GoTime;
  Recommendation : string
}.

(** The [if imbalance.NeedsAdjustment { ... }] block of [CheckHedgeBalance]. *)
Definition add_imbalance (status : HedgeBalanceStatus) (imbalance : PositionImbalance)
    : HedgeBalanceStatus :=
  if NeedsAdjustment imbalance then
    {| IsBalanced := false;
       Imbalances := Imbalances status ++ [imbalance];
       TotalImbalanceValue := TotalImbalanceValue status + Qabs (AdjustmentAmount imbalance);
       CheckedAt := CheckedAt status;
       Recommendation := Recommendation status |}
  else status.

(** ** Calendar: [time.Time.Date()]

    [Date] is the proleptic Gregorian
    civil date of the local day, as Go computes it. *)


Definition civil_from_days (z0 : Z) : Z * Z * Z :=
  (let z := z0 + 719468 in
  let era := z / 146097 in
  let doe := z - era * 146097 in
  let yoe := (doe - doe / 1460 + doe / 36524 - doe / 146096) / 365 in
  let doy := doe - (365 * yoe + yoe / 4 - yoe / 100) in
  let mp := (5 * doy + 2) / 153 in
  let d := doy - (153 * mp + 2) / 5 + 1 in
  let m := if mp <? 10 then mp + 3 else mp - 9 in
  let y := yoe + era * 400 + (if m <=? 2 then 1 else 0) in
  (y, m, d))%Z.

Definition Date (t : GoTime) : Z * Z * Z :=
  civil_from_days (Z.div (Z.div (unix_nano t) 1000000000 + utc_offset t) 86400)%Z.

Definition day_number (t : GoTime) : Z :=
  (Z.div (Z.div (unix_nano t) 1000000000 + utc_offset t) 86400)%Z.

(** Go [int] is 64 bits wide; [x++] wraps. *)
Definition wrap64 (x : Z) : Z := (Z.modulo (x + 2 ^ 63) (2 ^ 64) - 2 ^ 63)%Z.

(** ** Trading statistics *)

Record TradingStats := mkTradingStats {
  DailyVolume : Q;
  DailyTrades : Z;
  DailyStartTime : GoTime;
  TotalVolume : Q;
  TotalTrades : Z;
  StartTime : GoTime;
  LastTradeTime : GoTime;
  CurrentPhase : string;
  ts_ActiveOrders : Z;
  AvgTradeSize : Q;
  TradeFrequency : Q;
  VolumeProgress : Q
}.

(** The statistics [NewTradingStatsManager] creates, [now] being its
    [time.Now()]; the fields it does not set keep their zero values. *)
Definition NewTradingStats (now : GoTime) : TradingStats :=
  {| DailyVolume := 0; DailyTrades := 0%Z; DailyStartTime := now;
     TotalVolume := 0; TotalTrades := 0%Z; StartTime := now; LastTradeTime := zeroTime;
     CurrentPhase := "INITIALIZING"; ts_ActiveOrders := 0%Z; AvgTradeSize := 0;
     TradeFrequency := 0; VolumeProgress := 0 |}.

Definition isSameDay (t1 t2 : GoTime) : bool :=
  let '(y1, m1, d1) := Date t1 in
  let '(y2, m2, d2) := Date t2 in
  ((y1 =? y2) && (m1 =? m2) && (d1 =? d2))%Z.

Definition resetDailyStats (st : TradingStats) (newStartTime : GoTime) : TradingStats :=
  {| DailyVolume := 0; DailyTrades := 0%Z; DailyStartTime := newStartTime;
     TotalVolume := TotalVolume st; TotalTrades := TotalTrades st;
     StartTime := StartTime st; LastTradeTime := LastTradeTime st;
     CurrentPhase := CurrentPhase st; ts_ActiveOrders := ts_ActiveOrders st;
     AvgTradeSize := AvgTradeSize st; TradeFrequency := TradeFrequency st;
     VolumeProgress := 0 |}.

Definition RecordTrade (now : GoTime) (volume : Q) (tradeType : string)
    (st0 : TradingStats) : TradingStats :=
  let st := if negb (isSameDay now (DailyStartTime st0)) then resetDailyStats st0 now else st0 in
  let totalTrades := wrap64 (TotalTrades st + 1)%Z in
  let totalVolume := TotalVolume st + volume in
  let avg := if (0 <? totalTrades)%Z then totalVolume / inject_Z totalTrades else AvgTradeSize st in
  let duration := (unix_nano now - unix_nano (StartTime st))%Z in
  let hours := inject_Z duration / inject_Z 3600000000000 in
  let freq :=
    if (0 <? duration)%Z && Qlt_bool 0 hours then inject_Z totalTrades / hours
    else TradeFrequency st in
  {| DailyVolume := DailyVolume st + volume;
     DailyTrades := wrap64 (DailyTrades st + 1)%Z;
     DailyStartTime := DailyStartTime st;
     TotalVolume := totalVolume; TotalTrades := totalTrades;
     StartTime := StartTime st; LastTradeTime := now;
     CurrentPhase := CurrentPhase st; ts_ActiveOrders := ts_ActiveOrders st;
     AvgTradeSize := avg; TradeFrequency := freq;
     VolumeProgress := VolumeProgress st |}.

Definition ShouldPauseTradingForDay (st : TradingStats) (maxTrades : Z) : bool :=
  (maxTrades <=? DailyTrades st)%Z.

(** ** Exchange clients

    Calls are recorded in order in the world's logs; the venue's answer is
    an oracle: the Binance client returns [Some orderID] or an error, the
    Lighter client returns [Some price] or an error. *)

Inductive BinanceCall :=
  | PlaceBTCShort (usdcAmount spreadPercent : Q)   (* sell BTCUSDC, limit *)
  | PlaceETHLong (usdcAmount spreadPercent : Q).   (* buy ETHUSDC, limit *)

Inductive LighterCall :=
  | PlaceBTCLong (usdtAmount leverage : Z)
  | PlaceETHShort (usdtAmount leverage : Z).

(** The symbol and side of the limit order a Binance client call sends. *)
Definition binance_call_symbol (c : BinanceCall) : string :=
  match c with PlaceBTCShort _ _ => "BTC" | PlaceETHLong _ _ => "ETH" end.

Definition binance_call_side (c : BinanceCall) : string :=
  match c with PlaceBTCShort _ _ => "SELL" | PlaceETHLong _ _ => "BUY" end.

Definition binance_call_amount (c : BinanceCall) : Q :=
  match c with PlaceBTCShort a _ => a | PlaceETHLong a _ => a end.

(** A hedge trade of [OrderMonitor.executeLighterHedge] /
    [executeBinanceHedge] (market-order placeholders that only log). *)
Record HedgeCall := mkHedgeCall {
  hc_exchange : string;
  hc_symbol : string;
  hc_side : string;
  hc_size : Q
}.

(** ** Orders *)

Record ActiveOrder := mkActiveOrder {
  ID : string;
  ao_Exchange : string;
  ao_Symbol : string;
  Side : string;
  ao_Size : Q;
  Price : Q;
  Status : string;
  FilledSize : Q;
  CreatedAt : GoTime;
  ao_UpdatedAt : GoTime
}.

(** ** The world: ledger heap, order heap and registry, venue logs *)

Record World := mkWorld {
  ledger : pheap;
  orderHeap : gmap loc ActiveOrder;
  activeOrders : gmap string loc;      (* OrderManager.activeOrders *)
  nextLoc : loc;                       (* allocator *)
  binanceLog : list BinanceCall;
  lighterLog : list LighterCall;
  hedgeLog : list HedgeCall
}.

Definition set_ledger (w : World) (l : pheap) : World :=
  mkWorld l (orderHeap w) (activeOrders w) (nextLoc w) (binanceLog w) (lighterLog w) (hedgeLog w).
Definition set_orders (w : World) (oh : gmap loc ActiveOrder) (ao : gmap string loc) (n : loc) : World :=
  mkWorld (ledger w) oh ao n (binanceLog w) (lighterLog w) (hedgeLog w).
Definition log_binance (w : World) (c : BinanceCall) : World :=
  mkWorld (ledger w) (orderHeap w) (activeOrders w) (nextLoc w) (binanceLog w ++ [c]) (lighterLog w) (hedgeLog w).
Definition log_lighter (w : World) (c : LighterCall) : World :=
  mkWorld (ledger w) (orderHeap w) (activeOrders w) (nextLoc w) (binanceLog w) (lighterLog w ++ [c]) (hedgeLog w).
Definition log_hedge (w : World) (c : HedgeCall) : World :=
  mkWorld (ledger w) (orderHeap w) (activeOrders w) (nextLoc w) (binanceLog w) (lighterLog w) (hedgeLog w ++ [c]).

(** ** A state and error monad for Go functions returning [error]

    [Fail] is a non-nil [error] returned by the function; [Panic] is a
    run-time panic (a nil dereference). *)

Inductive Outcome (A : Type) :=
  | Ret (a : A)
  | Fail (err : string)
  | Panic.
Arguments Ret {A} _.
Arguments Fail {A} _.
Arguments Panic {A}.

Definition M (A : Type) : Type := World -> Outcome A * World.

#[global] Instance M_ret : MRet M := fun A a w => (Ret a, w).
#[global] Instance M_bind : MBind M := fun A B k m w =>
  match m w with
  | (Ret a, w') => k a w'
  | (Fail e, w') => (Fail e, w')
  | (Panic, w') => (Panic, w')
  end.

Definition throw {A} (e : string) : M A := fun w => (Fail e, w).
Definition panic {A} : M A := fun w => (Panic, w).
Definition gets {A} (f : World -> A) : M A := fun w => (Ret (f w), w).
Definition modify (f : World -> World) : M unit := fun w => (Ret tt, f w).

(** [if err := m; err != nil { h(err) }] : handle an error in place. *)
Definition catch {A} (m : M A) (h : string -> M A) : M A := fun w =>
  match m w with
  | (Fail e, w') => h e w'
  | r => r
  end.

(** Go's [fmt.Errorf("...: %w", err)]. *)
Definition wrap_err {A} (prefix : string) (m : M A) : M A :=
  catch m (fun e => throw (prefix +:+ ": " +:+ e)).

Definition load_positions (p : loc) : M ExchangePositions := fun w =>
  match ledger w !! p with
  | Some ep => (Ret ep, w)
  | None => (Panic, w)
  end.

Definition store_positions (p : loc) (ep : ExchangePositions) : M unit :=
  modify (fun w => set_ledger w (<[p := ep]> (ledger w))).

Definition load_order (p : loc) : M ActiveOrder := fun w =>
  match orderHeap w !! p with
  | Some o => (Ret o, w)
  | None => (Panic, w)
  end.

Section Clients.

Variable binance_client : BinanceCall -> option Z.
Variable lighter_client : LighterCall -> option Z.
(** The context's cancellation as the back-off waits of the retry loop see
    it, see [retry_loop]. *)
Variable ctx_done : Z -> option string.

(** A Binance client call; the error text stands for the client's error. *)
Definition call_binance (c : BinanceCall) : M Z := fun w =>
  let w' := log_binance w c in
  match binance_client c with
  | Some id => (Ret id, w')
  | None => (Fail "binance client error", w')
  end.

Definition call_lighter (c : LighterCall) : M Z := fun w =>
  let w' := log_lighter w c in
  match lighter_client c with
  | Some price => (Ret price, w')
  | None => (Fail "lighter client error", w')
  end.

(** *** Fast execution manager (fast_execution.go) *)

Record FastExecutionConfig := mkFastExecutionConfig {
  EnablePriceProtection : bool;
  MaxSlippagePercent : Q;
  MaxRetryAttempts : Z
}.

(** [NewDefaultFastExecutionConfig] (the fields the hedge path reads). *)
Definition NewDefaultFastExecutionConfig : FastExecutionConfig :=
  {| EnablePriceProtection := true; MaxSlippagePercent := 0.1; MaxRetryAttempts := 3%Z |}.

(** The timing fields of [ExecutionContext] only feed the statistics, which
    are not modelled. *)
Record ExecutionContext := mkExecutionContext {
  OrderID : string;
  ec_Symbol : string;
  OriginalSide : string;
  HedgeSide : string;
  ec_Size : Q;
  OriginalPrice : Q;
  ExecutionPrice : Q;
  Success : bool;
  ErrorMessage : string
}.

Definition determineHedgeSide (symbol originalSide : string) : string :=
  if String.eqb symbol "BTC" && String.eqb originalSide "SELL" then "BUY"
  else if String.eqb symbol "ETH" && String.eqb originalSide "BUY" then "SELL"
  else originalSide.

(** [validatePrice] is a placeholder that always passes. *)
Definition validatePrice (symbol : string) (price : Q) : M unit := mret tt.

(** Go's [int64(x)] on a float truncates toward zero. *)
Definition go_int64 (x : Q) : Z := Z.quot (Qnum x) (Zpos (Qden x)).

Definition fem_executeLighterHedge (execCtx : ExecutionContext) : M Q :=
  let usdtAmount := go_int64 (ec_Size execCtx) in
  let leverage := 3%Z in
  if String.eqb (ec_Symbol execCtx) "BTC" && String.eqb (HedgeSide execCtx) "BUY" then
    (price ← wrap_err "failed to place BTC long on Lighter"
               (call_lighter (PlaceBTCLong usdtAmount leverage));
     mret (inject_Z price))
  else if String.eqb (ec_Symbol execCtx) "ETH" && String.eqb (HedgeSide execCtx) "SELL" then
    (price ← wrap_err "failed to place ETH short on Lighter"
               (call_lighter (PlaceETHShort usdtAmount leverage));
     mret (inject_Z price))
  else
    throw ("unsupported Lighter hedge trading pair: " +:+ ec_Symbol execCtx +:+ " " +:+
           HedgeSide execCtx).

(** The retry loop, [attempt] from 1 to [MaxRetryAttempts].  After a failed
    attempt that is not the last one, the back-off [select] either receives
    from [ctx.Done()] and returns [ctx.Err()], or waits out the back-off timer:
    [ctx_done attempt] is [Some err] when it takes [ctx.Done()] ([err] being
    the text of [ctx.Err()]) and [None] when the timer fires. *)
Fixpoint retry_loop (maxAttempts attempt : Z) (fuel : nat) (execCtx : ExecutionContext)
    (lastErr : string) : M Q :=
  match fuel with
  | O => throw ("hedge execution failed after " +:+ pretty maxAttempts +:+
                " attempts: " +:+ lastErr)
  | S fuel' =>
      catch (fem_executeLighterHedge execCtx)
        (fun err =>
           if (attempt <? maxAttempts)%Z then
             match ctx_done attempt with
             | Some ctxErr => throw ctxErr
             | None => retry_loop maxAttempts (attempt + 1) fuel' execCtx err
             end
           else retry_loop maxAttempts (attempt + 1) fuel' execCtx err)
  end.

Definition executeHedgeWithRetry (cfg : FastExecutionConfig) (execCtx : ExecutionContext) : M Q :=
  retry_loop (MaxRetryAttempts cfg) 1 (Z.to_nat (MaxRetryAttempts cfg)) execCtx "%!w(<nil>)".

(** [ExecuteFastHedge]; on error the context it also returns is unused by
    its caller, so only the error is kept. *)
Definition ExecuteFastHedge (cfg : FastExecutionConfig)
    (orderID symbol originalSide : string) (size originalPrice : Q) : M ExecutionContext :=
  let hedgeSide := determineHedgeSide symbol originalSide in
  let execCtx := mkExecutionContext orderID symbol originalSide hedgeSide size
                   originalPrice 0 false "" in
  (if EnablePriceProtection cfg then validatePrice symbol originalPrice else mret tt);;
  executionPrice ← executeHedgeWithRetry cfg execCtx;
  mret (mkExecutionContext orderID symbol originalSide hedgeSide size
          originalPrice executionPrice true "").

(** *** Order manager and order monitor (order_monitor.go) *)

(** [AddOrder]: [om.activeOrders[order.ID] = order] for a freshly
    allocated [*ActiveOrder]; returns its address. *)
Definition AddOrder (order : ActiveOrder) : M loc := fun w =>
  let p := nextLoc w in
  (Ret p, set_orders w (<[p := order]> (orderHeap w))
                       (<[ID order := p]> (activeOrders w)) (Pos.succ p)).

Definition RemoveOrder (orderID : string) : M unit :=
  modify (fun w => set_orders w (orderHeap w) (delete orderID (activeOrders w)) (nextLoc w)).

(** [UpdateOrderStatus] mutates the registered [*ActiveOrder] in place. *)
Definition UpdateOrderStatus (now : GoTime) (orderID status : string) (filledSize : Q)
    : M unit := fun w =>
  match activeOrders w !! orderID with
  | None => (Ret tt, w)
  | Some p =>
      match orderHeap w !! p with
      | None => (Panic, w)
      | Some o =>
          let o' := {| ID := ID o; ao_Exchange := ao_Exchange o; ao_Symbol := ao_Symbol o;
                       Side := Side o; ao_Size := ao_Size o; Price := Price o;
                       Status := status; FilledSize := filledSize;
                       CreatedAt := CreatedAt o; ao_UpdatedAt := now |} in
          let ao := if String.eqb status "FILLED" || String.eqb status "CANCELLED"
                    then delete orderID (activeOrders w) else activeOrders w in
          (Ret tt, set_orders w (<[p := o']> (orderHeap w)) ao (nextLoc w))
      end
  end.

Definition om_executeLighterHedge (symbol side : string) (size : Q) : M unit :=
  modify (fun w => log_hedge w (mkHedgeCall "lighter" symbol side size)).

Definition om_executeBinanceHedge (symbol side : string) (size : Q) : M unit :=
  modify (fun w => log_hedge w (mkHedgeCall "binance" symbol side size)).

Definition executeHedgeTrade (order : ActiveOrder) : M unit :=
  let '(hedgeExchange, hedgeSide) :=
    if String.eqb (ao_Exchange order) "binance" then
      ("lighter",
       if String.eqb (ao_Symbol order) "BTC" && String.eqb (Side order) "SELL" then "BUY"
       else if String.eqb (ao_Symbol order) "ETH" && String.eqb (Side order) "BUY" then "SELL"
       else "")
    else
      ("binance",
       if String.eqb (ao_Symbol order) "BTC" && String.eqb (Side order) "BUY" then "SELL"
       else if String.eqb (ao_Symbol order) "ETH" && String.eqb (Side order) "SELL" then "BUY"
       else "") in
  if String.eqb hedgeExchange "lighter" then
    om_executeLighterHedge (ao_Symbol order) hedgeSide (ao_Size order)
  else if String.eqb hedgeExchange "binance" then
    om_executeBinanceHedge (ao_Symbol order) hedgeSide (ao_Size order)
  else throw ("unknown hedge exchange: " +:+ hedgeExchange).

(** [updatePositionsAfterTrade] is a placeholder returning nil. *)
Definition updatePositionsAfterTrade (order : ActiveOrder) : M unit := mret tt.

Record OrderMonitor := mkOrderMonitor {
  fastExecutionManager : option FastExecutionConfig
}.

(** The handlers receive the [*ActiveOrder] pointer and read its fields
    when they run. *)
Definition handleOrderFilled (om : OrderMonitor) (p : loc) : M unit :=
  order ← load_order p;
  match fastExecutionManager om with
  | Some cfg =>
      _ ← ExecuteFastHedge cfg (ID order) (ao_Symbol order) (Side order)
            (ao_Size order) (Price order);
      updatePositionsAfterTrade order
  | None =>
      executeHedgeTrade order;;
      updatePositionsAfterTrade order
  end.

Definition handleOrderPartialFilled (p : loc) : M unit :=
  order ← load_order p;
  let newFilledSize := FilledSize order in
  let hedgeOrder := {| ID := ""; ao_Exchange := ao_Exchange order;
                       ao_Symbol := ao_Symbol order; Side := Side order;
                       ao_Size := newFilledSize; Price := 0; Status := "";
                       FilledSize := 0; CreatedAt := zeroTime;
                       ao_UpdatedAt := zeroTime |} in
  executeHedgeTrade hedgeOrder;;
  updatePositionsAfterTrade hedgeOrder.

Definition handleOrderCancelled (p : loc) : M unit :=
  order ← load_order p;
  RemoveOrder (ID order).

Definition handleOrderStatusChange (om : OrderMonitor) (p : loc)
    (oldStatus newStatus : string) : M unit :=
  if String.eqb newStatus "FILLED" then handleOrderFilled om p
  else if String.eqb newStatus "PARTIAL" then handleOrderPartialFilled p
  else if String.eqb newStatus "CANCELLED" then handleOrderCancelled p
  else mret tt.

(** The venue's answer to an order-status query: [Some (status, filled)] or
    an error.  In the source both queries are placeholders answering
    [("PENDING", 0)], see [stubOrderStatus]. *)
Definition stubOrderStatus (o : ActiveOrder) : option (string * Q) := Some ("PENDING", 0).

Definition checkOrderStatus (om : OrderMonitor)
    (query : ActiveOrder -> option (string * Q)) (now : GoTime) (p : loc) : M unit :=
  order ← load_order p;
  if String.eqb (ao_Exchange order) "binance" || String.eqb (ao_Exchange order) "lighter" then
    match query order with
    | None => throw "failed to get order status: query error"
    | Some (newStatus, filledSize) =>
        if negb (String.eqb newStatus (Status order)) || negb (Qeq_bool filledSize (FilledSize order))
        then
          let oldStatus := Status order in
          UpdateOrderStatus now (ID order) newStatus filledSize;;
          wrap_err "failed to handle order status change"
            (handleOrderStatusChange om p oldStatus newStatus)
        else mret tt
    end
  else throw ("unknown exchange: " +:+ ao_Exchange order).

(** *** Closing manager (closing_logic.go) *)

Definition go_abs (x : Q) : Q := Qabs x.

(** [math.Min] on ordinary (finite, non-NaN) values. *)
Definition go_min (a b : Q) : Q := if Qlt_bool a b then a else b.

Definition with_positions (ep : ExchangePositions) (m : gmap string Position)
    : ExchangePositions :=
  {| Exchange := Exchange ep; Positions := m; ep_Leverage := ep_Leverage ep;
     UpdatedAt := UpdatedAt ep |}.

(** [ensurePosition] inserts an empty position into the shared map when the
    symbol is missing. *)
Definition ensurePosition (positions : loc) (symbol : string) : M Position :=
  ep ← load_positions positions;
  match Positions ep !! symbol with
  | Some pos => mret pos
  | None =>
      let newPos := mkPosition symbol 0 0 0 in
      store_positions positions (with_positions ep (<[symbol := newPos]> (Positions ep)));;
      mret newPos
  end.

Definition closing_allPositionsZero (binancePos lighterPos : ExchangePositions) : bool :=
  sizes_all_zero (Positions binancePos) && sizes_all_zero (Positions lighterPos).

Definition placeBinanceClosingOrder (cfg : DynamicHedgeConfig) (symbol side : string)
    (size : Q) : M string :=
  if String.eqb symbol "BTC" && String.eqb side "BUY" then
    (id ← call_binance (PlaceETHLong size (SpreadPercent cfg)); mret (pretty id))
  else if String.eqb symbol "BTC" && String.eqb side "SELL" then
    (id ← call_binance (PlaceBTCShort size (SpreadPercent cfg)); mret (pretty id))
  else if String.eqb symbol "ETH" && String.eqb side "BUY" then
    (id ← call_binance (PlaceETHLong size (SpreadPercent cfg)); mret (pretty id))
  else if String.eqb symbol "ETH" && String.eqb side "SELL" then
    (id ← call_binance (PlaceBTCShort size (SpreadPercent cfg)); mret (pretty id))
  else throw ("unsupported closing pair: " +:+ symbol +:+ " " +:+ side).

Definition executeClosingSequence (cfg : DynamicHedgeConfig) (now : GoTime)
    (symbol binanceSide lighterSide : string) (closeSize : Q) : M unit :=
  binanceOrderID ← wrap_err "failed to place Binance closing order"
                     (placeBinanceClosingOrder cfg symbol binanceSide closeSize);
  _ ← AddOrder {| ID := binanceOrderID; ao_Exchange := "binance"; ao_Symbol := symbol;
                  Side := binanceSide; ao_Size := closeSize; Price := 0;
                  Status := "PENDING"; FilledSize := 0; CreatedAt := now;
                  ao_UpdatedAt := now |};
  mret tt.

Definition ExecuteClosingLogic (cfg : DynamicHedgeConfig) (pm : PositionManager)
    (now : GoTime) : M unit :=
  binancePositions ← load_positions (GetBinancePositions pm);
  lighterPositions ← load_positions (GetLighterPositions pm);
  if closing_allPositionsZero binancePositions lighterPositions then mret tt
  else
    btcPos ← ensurePosition (GetBinancePositions pm) "BTC";
    ethPos ← ensurePosition (GetBinancePositions pm) "ETH";
    let btcAbsSize := go_abs (Size btcPos) in
    let ethAbsSize := go_abs (Size ethPos) in
    let '(targetSymbol, binanceSide, lighterSide) :=
      if Qle_bool ethAbsSize btcAbsSize then
        (if Qlt_bool (Size btcPos) 0 then ("BTC", "BUY", "SELL") else ("BTC", "SELL", "BUY"))
      else
        (if Qlt_bool 0 (Size ethPos) then ("ETH", "SELL", "BUY") else ("ETH", "BUY", "SELL")) in
    let currentSize :=
      if String.eqb targetSymbol "ETH" then go_abs ethAbsSize else go_abs btcAbsSize in
    let closeSize := go_min currentSize (OrderSize cfg) in
    executeClosingSequence cfg now targetSymbol binanceSide lighterSide closeSize.


(** [PlaceLighterClosingOrder] (closing_logic.go); the client's error is
    returned as is. *)
Definition PlaceLighterClosingOrder (symbol side : string) (size : Q) : M unit :=
  let usdtAmount := go_int64 size in
  let leverage := 3%Z in
  if String.eqb symbol "BTC" && String.eqb side "SELL" then
    (_ ← call_lighter (PlaceETHShort usdtAmount leverage); mret tt)
  else if String.eqb symbol "BTC" && String.eqb side "BUY" then
    (_ ← call_lighter (PlaceBTCLong usdtAmount leverage); mret tt)
  else if String.eqb symbol "ETH" && String.eqb side "BUY" then
    (_ ← call_lighter (PlaceBTCLong usdtAmount leverage); mret tt)
  else if String.eqb symbol "ETH" && String.eqb side "SELL" then
    (_ ← call_lighter (PlaceETHShort usdtAmount leverage); mret tt)
  else throw ("unsupported Lighter closing pair: " +:+ symbol +:+ " " +:+ side).

(** *** Balance adjustment (hedge_balancer.go) *)

Definition increaseBinanceShort (symbol : string) (amount : Q) (config : DynamicHedgeConfig)
    : M unit :=
  if String.eqb symbol "BTC" then
    (_ ← call_binance (PlaceBTCShort amount (SpreadPercent config)); mret tt)
  else if String.eqb symbol "ETH" then
    throw "ETH short not supported in this adjustment - ETH should be long on Binance"
  else throw ("unsupported symbol for Binance short: " +:+ symbol).

Definition increaseBinanceLong (symbol : string) (amount : Q) (config : DynamicHedgeConfig)
    : M unit :=
  if String.eqb symbol "ETH" then
    (_ ← call_binance (PlaceETHLong amount (SpreadPercent config)); mret tt)
  else if String.eqb symbol "BTC" then
    throw "BTC long not supported in this adjustment - BTC should be short on Binance"
  else throw ("unsupported symbol for Binance long: " +:+ symbol).

Definition increaseLighterLong (symbol : string) (amount : Q) (config : DynamicHedgeConfig)
    : M unit :=
  let usdtAmount := go_int64 amount in
  let leverage := 3%Z in
  if String.eqb symbol "BTC" then
    (_ ← call_lighter (PlaceBTCLong usdtAmount leverage); mret tt)
  else if String.eqb symbol "ETH" then
    throw "ETH long not supported in this adjustment - ETH should be short on Lighter"
  else throw ("unsupported symbol for Lighter long: " +:+ symbol).

Definition increaseLighterShort (symbol : string) (amount : Q) (config : DynamicHedgeConfig)
    : M unit :=
  let usdtAmount := go_int64 amount in
  let leverage := 3%Z in
  if String.eqb symbol "ETH" then
    (_ ← call_lighter (PlaceETHShort usdtAmount leverage); mret tt)
  else if String.eqb symbol "BTC" then
    throw "BTC short not supported in this adjustment - BTC should be long on Lighter"
  else throw ("unsupported symbol for Lighter short: " +:+ symbol).

Definition adjustSymbolBalance (config : DynamicHedgeConfig) (imbalance : PositionImbalance)
    : M unit :=
  let side := AdjustmentSide imbalance in
  if String.eqb side "BINANCE_INCREASE_SHORT" then
    increaseBinanceShort (pi_Symbol imbalance) (AdjustmentAmount imbalance) config
  else if String.eqb side "BINANCE_INCREASE_LONG" then
    increaseBinanceLong (pi_Symbol imbalance) (AdjustmentAmount imbalance) config
  else if String.eqb side "LIGHTER_INCREASE_LONG" then
    increaseLighterLong (pi_Symbol imbalance) (AdjustmentAmount imbalance) config
  else if String.eqb side "LIGHTER_INCREASE_SHORT" then
    increaseLighterShort (pi_Symbol imbalance) (AdjustmentAmount imbalance) config
  else throw ("unknown adjustment side: " +:+ side).

(** The [for _, imbalance := range status.Imbalances] loop; the first error
    stops it. *)
Fixpoint adjust_each (config : DynamicHedgeConfig) (imbalances : list PositionImbalance)
    : M unit :=
  match imbalances with
  | [] => mret tt
  | imbalance :: rest =>
      wrap_err ("failed to adjust " +:+ pi_Symbol imbalance +:+ " balance")
        (adjustSymbolBalance config imbalance);;
      adjust_each config rest
  end.

Definition ExecuteBalanceAdjustment (config : DynamicHedgeConfig) (status : HedgeBalanceStatus)
    : M unit :=
  if IsBalanced status then mret tt else adjust_each config (Imbalances status).

(** *** Order monitor loop body *)

(** The [for _, order := range activeOrders] loop of [checkActiveOrders]: an
    error is logged and the loop goes on. *)
Fixpoint check_each (om : OrderMonitor) (query : ActiveOrder -> option (string * Q))
    (now : GoTime) (orders : list loc) : M unit :=
  match orders with
  | [] => mret tt
  | p :: rest =>
      catch (checkOrderStatus om query now p) (fun _ => mret tt);;
      check_each om query now rest
  end.

(** [checkActiveOrders] walks [GetActiveOrders()], a copy of the registry
    taken before the loop (the [*ActiveOrder] pointers are shared). *)
Definition checkActiveOrders (om : OrderMonitor) (query : ActiveOrder -> option (string * Q))
    (now : GoTime) : M unit :=
  orders ← gets activeOrders;
  check_each om query now (map snd (map_to_list orders)).

End Clients.

(** *** Hedge balance check (hedge_balancer.go) *)

(** [CheckHedgeBalance]: BTC first, then ETH; its error is always nil.  The
    two pointers are dereferenced by [getPositionValue]. *)
Definition CheckHedgeBalance (hb : HedgeBalancer) (pm : PositionManager) (now : GoTime)
    : M HedgeBalanceStatus :=
  lighterPositions ← load_positions (GetLighterPositions pm);
  binancePositions ← load_positions (GetBinancePositions pm);
  let status := mkHedgeBalanceStatus true [] 0 now "" in
  let btcImbalance := checkSymbolBalance hb "BTC" lighterPositions binancePositions in
  let status := add_imbalance status btcImbalance in
  let ethImbalance := checkSymbolBalance hb "ETH" lighterPositions binancePositions in
  let status := add_imbalance status ethImbalance in
  mret status.

(** *** Leverage and position totals *)

(** The [for _, pos := range positions { total += math.Abs(pos.Value) }] loop. *)
Definition sum_abs_values (m : gmap string Position) : Q :=
  map_fold (fun _ pos acc => acc + Qabs (Value pos)) 0 m.

Definition with_leverage (ep : ExchangePositions) (lev : Q) : ExchangePositions :=
  {| Exchange := Exchange ep; Positions := Positions ep; ep_Leverage := lev;
     UpdatedAt := UpdatedAt ep |}.

(** [CalculateTotalLeverage] (risk_manager.go) writes both leverages in
    place; [None] is a nil dereference. *)
Definition CalculateTotalLeverage (pm : PositionManager) (h : pheap) : option pheap :=
  match h !! lighterPositions pm with
  | None => None
  | Some lp =>
      let h1 := <[lighterPositions pm :=
                    with_leverage lp (sum_abs_values (Positions lp) / 1000)]> h in
      match h1 !! binancePositions pm with
      | None => None
      | Some bp =>
          Some (<[binancePositions pm :=
                    with_leverage bp (sum_abs_values (Positions bp) / 1000)]> h1)
      end
  end.

(** [GetTotalPositionValue] (closing_logic.go): (Binance total, Lighter total). *)
Definition GetTotalPositionValue (pm : PositionManager) (h : pheap) : option (Q * Q) :=
  match deref h (GetBinancePositions pm), deref h (GetLighterPositions pm) with
  | Some bp, Some lp => Some (sum_abs_values (Positions bp), sum_abs_values (Positions lp))
  | _, _ => None
  end.

(** [CheckClosingConditions] (closing_logic.go): [rm] is the strategy's
    risk manager, [config] the argument. *)
Definition CheckClosingConditions (rm : RiskManager) (pm : PositionManager) (h : pheap)
    (now : GoTime) (config : DynamicHedgeConfig) : option (bool * string) :=
  match CheckRisk rm pm h now with
  | None => None
  | Some riskStatus =>
      if Qle_bool (MaxLeverage config) (rs_MaxLeverage riskStatus) then
        Some (true, "leverage limit reached and wait time exceeded")
      else if Qle_bool (EmergencyLeverage config) (rs_MaxLeverage riskStatus) then
        Some (true, "emergency leverage threshold exceeded")
      else Some (false, "closing conditions not met")
  end.

(** *** Trading statistics, continued (trading_stats.go, interface.go) *)

Definition with_volume_progress (st : TradingStats) (p : Q) : TradingStats :=
  {| DailyVolume := DailyVolume st; DailyTrades := DailyTrades st;
     DailyStartTime := DailyStartTime st; TotalVolume := TotalVolume st;
     TotalTrades := TotalTrades st; StartTime := StartTime st;
     LastTradeTime := LastTradeTime st; CurrentPhase := CurrentPhase st;
     ts_ActiveOrders := ts_ActiveOrders st; AvgTradeSize := AvgTradeSize st;
     TradeFrequency := TradeFrequency st; VolumeProgress := p |}.

Definition UpdateVolumeProgress (target : Q) (st : TradingStats) : TradingStats :=
  if Qlt_bool 0 target then
    let p := DailyVolume st / target * 100 in
    with_volume_progress st (if Qlt_bool 100 p then 100 else p)
  else st.

Definition CheckDailyTargets (st : TradingStats) (volumeTarget : Q) (tradesTarget : Z)
    : bool * bool :=
  (Qle_bool volumeTarget (DailyVolume st), (tradesTarget <=? DailyTrades st)%Z).

(** [time.Time.Sub]: the difference in nanoseconds, saturated to the
    [time.Duration] range. *)
Definition time_Sub (t u : GoTime) : Z :=
  let d := (unix_nano t - unix_nano u)%Z in
  if (9223372036854775807 <? d)%Z then 9223372036854775807%Z
  else if (d <? -9223372036854775808)%Z then (-9223372036854775808)%Z
  else d.

Definition IsZero (t : GoTime) : bool := (unix_nano t =? unix_nano zeroTime)%Z.

(** [canStartNewTrade] (interface.go): [now] is the clock read by
    [time.Since], [activeOrders] the registry [GetActiveOrders] copies. *)
Definition canStartNewTrade (tradingInterval : Z) (maxDailyTrades : Z)
    (lastTradeTime now : GoTime) (activeOrders : gmap string loc) (st : TradingStats) : bool :=
  if negb (IsZero lastTradeTime) && (time_Sub now lastTradeTime <? tradingInterval)%Z then false
  else if (0 <? Z.of_nat (size activeOrders))%Z then false
  else if (0 <? maxDailyTrades)%Z && ShouldPauseTradingForDay st maxDailyTrades then false
  else true.

(** *** The strategy's execution cycle (interface.go)

    [executeCycle] as it reads and updates the strategy's own fields and
    its [TradingStatsManager].  The other components it drives (position
    refresh, hedge balancing, the opening and closing managers) enter as
    their observable results in a [CycleEnv]. *)

(** [TradingStatsManager.UpdatePhase] and [UpdateActiveOrders]. *)
Definition UpdatePhase (phase : string) (st : TradingStats) : TradingStats :=
  {| DailyVolume := DailyVolume st; DailyTrades := DailyTrades st;
     DailyStartTime := DailyStartTime st; TotalVolume := TotalVolume st;
     TotalTrades := TotalTrades st; StartTime := StartTime st;
     LastTradeTime := LastTradeTime st; CurrentPhase := phase;
     ts_ActiveOrders := ts_ActiveOrders st; AvgTradeSize := AvgTradeSize st;
     TradeFrequency := TradeFrequency st; VolumeProgress := VolumeProgress st |}.

Definition UpdateActiveOrders (count : Z) (st : TradingStats) : TradingStats :=
  {| DailyVolume := DailyVolume st; DailyTrades := DailyTrades st;
     DailyStartTime := DailyStartTime st; TotalVolume := TotalVolume st;
     TotalTrades := TotalTrades st; StartTime := StartTime st;
     LastTradeTime := LastTradeTime st; CurrentPhase := CurrentPhase st;
     ts_ActiveOrders := count; AvgTradeSize := AvgTradeSize st;
     TradeFrequency := TradeFrequency st; VolumeProgress := VolumeProgress st |}.

(** The fields of [DynamicHedgeConfig] the cycle reads besides those of
    [DynamicHedgeConfig] above ([OrderSize] is read from [sc_hedge]). *)
Record StrategyConfig := mkStrategyConfig {
  ContinuousMode : bool;
  MaxDailyTrades : Z;
  VolumeTarget : Q;
  TradingInterval : Z;
  sc_hedge : DynamicHedgeConfig
}.

(** The fields of [DynamicHedgeStrategy] the cycle uses, with the state of
    its [statsManager]. *)
Record StrategyState := mkStrategyState {
  stats : TradingStats;
  lastTradeTime : GoTime;
  lastStopTime : GoTime;
  currentPhase : string
}.

(** What one cycle observes of the rest of the program: the registry as
    [GetActiveOrders] returns it in [updateStats] and in [canStartNewTrade],
    the ledger [CheckRisk] reads, the clock at each [time.Now()] or
    [time.Since], whether [ExecuteOpeningLogic] and [ExecuteClosingLogic]
    return nil, and whether all positions are zero after a closing. *)
Record CycleEnv := mkCycleEnv {
  env_orders_stats : gmap string loc;
  env_orders_check : gmap string loc;
  env_ledger : pheap;
  env_risk_time : GoTime;
  env_check_time : GoTime;
  env_trade_time : GoTime;
  env_now : GoTime;
  env_opening_ok : bool;
  env_closing_ok : bool;
  env_flat_after_closing : bool
}.

Definition set_stats (s : StrategyState) (st : TradingStats) : StrategyState :=
  mkStrategyState st (lastTradeTime s) (lastStopTime s) (currentPhase s).

Definition setPhase (phase : string) (s : StrategyState) : StrategyState :=
  mkStrategyState (UpdatePhase phase (stats s)) (lastTradeTime s) (lastStopTime s) phase.

(** [DynamicHedgeStrategy.updateStats] (the periodic [LogStats] only logs). *)
Definition strategy_updateStats (cfg : StrategyConfig) (orders : gmap string loc)
    (s : StrategyState) : StrategyState :=
  let st := UpdateActiveOrders (Z.of_nat (size orders)) (stats s) in
  let st := if Qlt_bool 0 (VolumeTarget cfg) then UpdateVolumeProgress (VolumeTarget cfg) st
            else st in
  set_stats s st.

Definition shouldPauseForDay (cfg : StrategyConfig) (st : TradingStats) : bool :=
  if negb (ContinuousMode cfg) then false
  else
    let '(volumeReached, tradesReached) :=
      CheckDailyTargets st (VolumeTarget cfg) (MaxDailyTrades cfg) in
    volumeReached && tradesReached.

(** [recordTrade] and the [s.lastTradeTime = time.Now()] that follows it. *)
Definition recordTrade (env : CycleEnv) (volume : Q) (tradeType : string)
    (s : StrategyState) : StrategyState :=
  mkStrategyState (RecordTrade (env_trade_time env) volume tradeType (stats s))
    (env_now env) (lastStopTime s) (currentPhase s).

Definition executeContinuousOpening (cfg : StrategyConfig) (env : CycleEnv)
    (s : StrategyState) : StrategyState :=
  if negb (canStartNewTrade (TradingInterval cfg) (MaxDailyTrades cfg) (lastTradeTime s)
             (env_check_time env) (env_orders_check env) (stats s)) then s
  else
    let s := setPhase "OPENING" s in
    if env_opening_ok env then recordTrade env (OrderSize (sc_hedge cfg)) "OPENING" s
    else s.

Definition executeContinuousClosing (cfg : StrategyConfig) (env : CycleEnv)
    (s : StrategyState) : StrategyState :=
  let s := setPhase "CLOSING" s in
  if env_closing_ok env then
    let s := recordTrade env (OrderSize (sc_hedge cfg)) "CLOSING" s in
    if env_flat_after_closing env then setPhase "READY_FOR_OPENING" s else s
  else s.

(** One [executeCycle]; [None] is the nil-pointer panic of [CheckRisk]. *)
Definition executeCycle (cfg : StrategyConfig) (rm : RiskManager) (pm : PositionManager)
    (env : CycleEnv) (s : StrategyState) : option StrategyState :=
  let s := strategy_updateStats cfg (env_orders_stats env) s in
  if ContinuousMode cfg && shouldPauseForDay cfg (stats s) then
    Some (setPhase "DAILY_LIMIT_REACHED" s)
  else
    match CheckRisk rm pm (env_ledger env) (env_risk_time env) with
    | None => None
    | Some riskStatus =>
        match Action riskStatus with
        | RiskActionContinueOpening => Some (executeContinuousOpening cfg env s)
        | RiskActionStopOpening =>
            Some (setPhase "LEVERAGE_LIMIT"
                    (mkStrategyState (stats s) (lastTradeTime s) (env_now env) (currentPhase s)))
        | RiskActionStartClosing => Some (executeContinuousClosing cfg env s)
        | RiskActionEmergencyClose => Some (setPhase "EMERGENCY_CLOSING" s)
        end
    end.

(** The monitoring loop: one cycle per tick; a cycle's error is only logged. *)
Fixpoint run_cycles (cfg : StrategyConfig) (rm : RiskManager) (pm : PositionManager)
    (envs : list CycleEnv) (s : StrategyState) : option StrategyState :=
  match envs with
  | [] => Some s
  | env :: rest =>
      match executeCycle cfg rm pm env s with
      | None => None
      | Some s' => run_cycles cfg rm pm rest s'
      end
  end.

(** *** Execution statistics (fast_execution.go) *)

Definition time_Millisecond : Z := 1000000.
Definition time_Hour : Z := 3600000000000.

(** Durations are [int64] nanoseconds. *)
Record ExecutionStats := mkExecutionStats {
  TotalExecutions : Z;
  SuccessfulExecutions : Z;
  FailedExecutions : Z;
  AverageDelay : Z;
  MinDelay : Z;
  MaxDelay : Z;
  LastExecutionTime : GoTime;
  DelayBuckets : gmap string Z
}.

Definition NewExecutionStats : ExecutionStats :=
  {| TotalExecutions := 0; SuccessfulExecutions := 0; FailedExecutions := 0;
     AverageDelay := 0; MinDelay := time_Hour; MaxDelay := 0;
     LastExecutionTime := zeroTime;
     DelayBuckets := <["<100ms" := 0%Z]> (<["100-200ms" := 0%Z]>
                       (<["200-500ms" := 0%Z]> {[">500ms" := 0%Z]})) |}.

(** [m[k]++] on a [map[string]int64]. *)
Definition map_incr (m : gmap string Z) (k : string) : gmap string Z :=
  <[k := wrap64 (default 0%Z (m !! k) + 1)]> m.

(** The [switch] choosing the delay bucket. *)
Definition delay_bucket (delay : Z) : string :=
  if (delay <? 100 * time_Millisecond)%Z then "<100ms"
  else if (delay <? 200 * time_Millisecond)%Z then "100-200ms"
  else if (delay <? 500 * time_Millisecond)%Z then "200-500ms"
  else ">500ms".

(** [updateStats] reads [Success], [TotalDelay] and [CompletionTime] of the
    context.  [None] is the integer division by zero panic, reachable only
    once [SuccessfulExecutions] has wrapped around to 0. *)
Definition updateStats (success : bool) (totalDelay : Z) (completionTime : GoTime)
    (stats : ExecutionStats) : option ExecutionStats :=
  let total := wrap64 (TotalExecutions stats + 1) in
  if success then
    let successful := wrap64 (SuccessfulExecutions stats + 1) in
    let delay := totalDelay in
    let minDelay := if (delay <? MinDelay stats)%Z then delay else MinDelay stats in
    let maxDelay := if (MaxDelay stats <? delay)%Z then delay else MaxDelay stats in
    let avg :=
      if (successful =? 1)%Z then Some delay
      else if (successful =? 0)%Z then None
      else Some (wrap64 (Z.quot (wrap64 (wrap64 (AverageDelay stats *
                                                 wrap64 (successful - 1)) + delay))
                                successful)) in
    match avg with
    | None => None
    | Some averageDelay =>
        Some {| TotalExecutions := total; SuccessfulExecutions := successful;
                FailedExecutions := FailedExecutions stats; AverageDelay := averageDelay;
                MinDelay := minDelay; MaxDelay := maxDelay;
                LastExecutionTime := completionTime;
                DelayBuckets := map_incr (DelayBuckets stats) (delay_bucket delay) |}
    end
  else
    Some {| TotalExecutions := total; SuccessfulExecutions := SuccessfulExecutions stats;
            FailedExecutions := wrap64 (FailedExecutions stats + 1);
            AverageDelay := AverageDelay stats; MinDelay := MinDelay stats;
            MaxDelay := MaxDelay stats; LastExecutionTime := completionTime;
            DelayBuckets := DelayBuckets stats |}.

(** The statistics after a sequence of executions (success, total delay,
    completion time), each passed to [updateStats]. *)
Fixpoint run_updates (evs : list (bool * Z * GoTime)) (stats : ExecutionStats)
    : option ExecutionStats :=
  match evs with
  | [] => Some stats
  | (success, delay, t) :: rest =>
      match updateStats success delay t stats with
      | None => None
      | Some stats' => run_updates rest stats'
      end
  end.

Definition bucket_total (stats : ExecutionStats) : Z :=
  (default 0 (DelayBuckets stats !! "<100ms") + default 0 (DelayBuckets stats !! "100-200ms") +
   default 0 (DelayBuckets stats !! "200-500ms") + default 0 (DelayBuckets stats !! ">500ms"))%Z.

(** *** Order registry well-formedness *)

(** Allocated orders lie below the allocator; every registered id points to
    an allocated order. *)
Definition orders_wf (w : World) : Prop :=
  (forall p, is_Some (orderHeap w !! p) -> (p < nextLoc w)%positive) /\
  (forall id p, activeOrders w !! id = Some p -> is_Some (orderHeap w !! p)).

(** The Lighter market a Lighter client call trades. *)
Definition lighter_call_symbol (c : LighterCall) : string :=
  match c with PlaceBTCLong _ _ => "BTC" | PlaceETHShort _ _ => "ETH" end.

(** The size of a symbol's position in a venue's map, 0 when absent. *)
Definition size_of (ep : ExchangePositions) (symbol : string) : Q :=
  match Positions ep !! symbol with Some pos => Size pos | None => 0 end.

(** The balancers the strategy can hold: the constructor's, then any number
    of [checkAndAdjustHedgeBalance] reconfigurations. *)
Inductive balancer_reachable : HedgeBalancer -> Prop :=
  | reach_new : balancer_reachable NewHedgeBalancer
  | reach_configure hb t a :
      balancer_reachable hb -> balancer_reachable (configureBalancer hb t a).

(** *** Helpers for stating properties *)

(** The two counters that [updateStats] keeps in step: every execution is
    counted once, as a success or a failure, and every success falls in one
    delay bucket. *)
Definition stats_inv (st : ExecutionStats) : Prop :=
  TotalExecutions st = wrap64 (SuccessfulExecutions st + FailedExecutions st) /\
  wrap64 (bucket_total st) = SuccessfulExecutions st.

(** Two worlds that differ at most in the contents of allocated orders. *)
Definition same_but_order_fields (w w' : World) : Prop :=
  ledger w' = ledger w /\ activeOrders w' = activeOrders w /\ nextLoc w' = nextLoc w /\
  binanceLog w' = binanceLog w /\ lighterLog w' = lighterLog w /\ hedgeLog w' = hedgeLog w /\
  (forall q, is_Some (orderHeap w' !! q) <-> is_Some (orderHeap w !! q)).

(** The venue [executeHedgeTrade] hedges an order of [exchange] on. *)
Definition hedge_venue (exchange : string) : string :=
  if String.eqb exchange "binance" then "lighter" else "binance".

(** The test [math.Abs(binancePos) < math.Abs(lighterPos)] of
    [checkSymbolBalance], read back from the imbalance it returns. *)
Definition binance_smaller (i : PositionImbalance) : bool :=
  Qlt_bool (Qabs (BinancePosition i)) (Qabs (LighterPosition i)).

(** An imbalance [CheckHedgeBalance] lists: the result of [checkSymbolBalance]
    for BTC or ETH that needs adjustment. *)
Definition checked_by (hb : HedgeBalancer) (lp bp : ExchangePositions)
    (i : PositionImbalance) : Prop :=
  exists s, (s = "BTC" \/ s = "ETH") /\ i = checkSymbolBalance hb s lp bp /\
            NeedsAdjustment i = true.

(** The Lighter call and the error text of [executeLighterHedge] for a
    supported pair (BTC BUY or ETH SELL). *)
Definition lighter_hedge_call (ctx : ExecutionContext) : LighterCall :=
  if String.eqb (ec_Symbol ctx) "BTC" then PlaceBTCLong (go_int64 (ec_Size ctx)) 3
  else PlaceETHShort (go_int64 (ec_Size ctx)) 3.

Definition lighter_hedge_error (ctx : ExecutionContext) : string :=
  if String.eqb (ec_Symbol ctx) "BTC" then "failed to place BTC long on Lighter: lighter client error"
  else "failed to place ETH short on Lighter: lighter client error".

(** * Concrete inputs *)

Definition epoch : GoTime := mkGoTime 0 0.

Definition riskCfg : DynamicHedgeConfig := mkDynamicHedgeConfig 1000 3.0 5.0 600 0.1.

Definition riskMgr : RiskManager := mkRiskManager riskCfg.

Definition pmFix : PositionManager := mkPositionManager 1 2.

Definition lighterEP (lev : Q) (m : gmap string Position) : ExchangePositions :=
  mkExchangePositions "lighter" m lev epoch.

Definition binanceEP (lev : Q) (m : gmap string Position) : ExchangePositions :=
  mkExchangePositions "binance" m lev epoch.

Definition ledgerOf (l b : ExchangePositions) : pheap := <[1%positive := l]> (<[2%positive := b]> ∅).

Definition posValued (symbol : string) (v : Q) : gmap string Position :=
  {[symbol := mkPosition symbol 0 v 0]}.

(** 1970-01-01 01:00 UTC and 1970-01-02 01:00 UTC. *)
Definition day1 : GoTime := mkGoTime (3600 * 1000000000) 0.
Definition day2 : GoTime := mkGoTime ((86400 + 3600) * 1000000000) 0.

(** Ten trades of 1000 recorded on day 1. *)
Definition tenTradesDay1 : TradingStats :=
  Nat.iter 10 (RecordTrade day1 1000 "OPENING") (NewTradingStats epoch).

Definition emptyWorld : World := mkWorld ∅ ∅ ∅ 1%positive [] [] [].

(** Binance short 0.5 BTC and long 0.1 ETH; Lighter flat. *)
Definition closingWorldBTC : World :=
  mkWorld (ledgerOf (lighterEP 0 ∅)
             (binanceEP 0 (<["BTC" := mkPosition "BTC" (-0.5) (-30000) 0]>
                             {["ETH" := mkPosition "ETH" 0.1 300 0]})))
          ∅ ∅ 1%positive [] [] [].

(** Binance short 0.1 BTC and long 2 ETH; Lighter flat. *)
Definition closingWorldETH : World :=
  mkWorld (ledgerOf (lighterEP 0 ∅)
             (binanceEP 0 (<["BTC" := mkPosition "BTC" (-0.1) (-6000) 0]>
                             {["ETH" := mkPosition "ETH" 2 6000 0]})))
          ∅ ∅ 1%positive [] [] [].

(** A Binance BTC sell of size 1, registered as order "7", 0.3 filled. *)
Definition partialOrder : ActiveOrder :=
  {| ID := "7"; ao_Exchange := "binance"; ao_Symbol := "BTC"; Side := "SELL";
     ao_Size := 1; Price := 60000; Status := "PARTIAL"; FilledSize := 0.3;
     CreatedAt := day1; ao_UpdatedAt := day1 |}.

Definition partialWorld : World :=
  mkWorld ∅ {[1%positive := partialOrder]} {["7" := 1%positive]} 2%positive [] [] [].

Definition supported_hedge_pair (symbol side : string) : bool :=
  (String.eqb symbol "BTC" && String.eqb side "SELL") ||
  (String.eqb symbol "ETH" && String.eqb side "BUY").

(** Four executions: successes of 150 ms, 50 ms and 2 h, and one failure. *)
Definition execEvents : list (bool * Z * GoTime) :=
  [(true, 150 * time_Millisecond, day1); (false, 0, day1);
   (true, 50 * time_Millisecond, day1); (true, 2 * time_Hour, day1)]%Z.

Definition execStats : ExecutionStats :=
  match run_updates execEvents NewExecutionStats with
  | Some st => st
  | None => NewExecutionStats
  end.

(** Both venues flat. *)
Definition flatWorld : World :=
  mkWorld (ledgerOf (lighterEP 0 ∅) (binanceEP 0 ∅)) ∅ ∅ 1%positive [] [] [].

(** Lighter long 0.5 BTC; Binance flat. *)
Definition lighterOnlyWorld : World :=
  mkWorld (ledgerOf (lighterEP 0 {["BTC" := mkPosition "BTC" 0.5 30000 0]}) (binanceEP 0 ∅))
          ∅ ∅ 1%positive [] [] [].

(** Lighter long 3000 USDT of BTC at leverage 2; Binance short 1000 USDC of
    BTC and long 500 of ETH at leverage 4. *)
Definition imbLighter : ExchangePositions := lighterEP 2 (posValued "BTC" 3000).

Definition imbBinance : ExchangePositions :=
  binanceEP 4 (<["BTC" := mkPosition "BTC" (-0.02) (-1000) 0]>
                 {["ETH" := mkPosition "ETH" 0.2 500 0]}).

Definition imbalancedWorld : World :=
  mkWorld (ledgerOf imbLighter imbBinance) ∅ ∅ 1%positive [] [] [].

(** The Binance positions of [closingWorldBTC]. *)
Definition closingBinanceBTC : ExchangePositions :=
  binanceEP 0 (<["BTC" := mkPosition "BTC" (-0.5) (-30000) 0]>
                 {["ETH" := mkPosition "ETH" 0.1 300 0]}).

Definition imbalancedStatus : HedgeBalanceStatus :=
  match fst (CheckHedgeBalance NewHedgeBalancer pmFix day1 imbalancedWorld) with
  | Ret st => st
  | _ => mkHedgeBalanceStatus true [] 0 day1 ""
  end.

(** A BTC hedge context: a Binance BTC sell of 1000 hedged by a Lighter buy. *)
Definition btcHedgeCtx : ExecutionContext :=
  mkExecutionContext "7" "BTC" "SELL" "BUY" 1000 60000 0 false "".

(** A strategy that recorded ten trades on day 1, and two later monitoring
    cycles (day 2 and a month later) on a flat book that would open. *)
Definition pauseCfg : StrategyConfig := mkStrategyConfig true 10 100000 0 riskCfg.

Definition pausedStrategy : StrategyState :=
  mkStrategyState tenTradesDay1 zeroTime zeroTime "OPENING".

Definition laterCycle (t : GoTime) : CycleEnv :=
  mkCycleEnv ∅ ∅ (ledgerOf (lighterEP 0 ∅) (binanceEP 0 ∅)) t t t t true true false.

Definition laterCycles : list CycleEnv :=
  [laterCycle day2; laterCycle (mkGoTime ((30 * 86400 + 3600) * 1000000000) 0)].

(** * Properties *)

(** ** Boolean comparisons on [Q] *)

Lemma Qlt_bool_iff (a b : Q) : Qlt_bool a b = true <-> a < b.
Proof.
  unfold Qlt_bool. rewrite negb_true_iff. split.
  - intros H. apply Qnot_le_lt. intros H'. apply Qle_bool_iff in H'. congruence.
  - intros H. destruct (Qle_bool b a) eqn:E; [|reflexivity].
    apply Qle_bool_iff in E. exfalso. apply (Qlt_not_le a b); assumption.
Qed.

Lemma Qle_bool_compat (a a' b b' : Q) :
  a == a' -> b == b' -> Qle_bool a b = Qle_bool a' b'.
Proof.
  intros Ha Hb. destruct (Qle_bool a' b') eqn:E.
  - apply Qle_bool_iff. apply Qle_bool_iff in E. rewrite Ha, Hb. exact E.
  - destruct (Qle_bool a b) eqn:E'; [|reflexivity].
    apply Qle_bool_iff in E'. rewrite Ha, Hb in E'. apply Qle_bool_iff in E'. congruence.
Qed.

Lemma Qlt_bool_compat (a a' b b' : Q) :
  a == a' -> b == b' -> Qlt_bool a b = Qlt_bool a' b'.
Proof. intros Ha Hb. unfold Qlt_bool. rewrite (Qle_bool_compat b b' a a'); auto. Qed.

(** ** Risk manager *)

Definition with_timestamp (s : RiskStatus) (t : GoTime) : RiskStatus :=
  mkRiskStatus (Action s) (LighterLeverage s) (BinanceLeverage s) (rs_MaxLeverage s)
    (Reason s) t.

Lemma CheckRisk_unfold rm pm h now lp bp :
  deref h (lighterPositions pm) = Some lp ->
  deref h (binancePositions pm) = Some bp ->
  CheckRisk rm pm h now =
    let m := go_max (ep_Leverage lp) (ep_Leverage bp) in
    let status a r := mkRiskStatus a (ep_Leverage lp) (ep_Leverage bp) m r now in
    if Qle_bool (EmergencyLeverage (rm_config rm)) m then
      Some (status RiskActionEmergencyClose "Leverage exceeded emergency threshold")
    else if Qle_bool (MaxLeverage (rm_config rm)) m then
      Some (status RiskActionStopOpening "Leverage exceeded max threshold")
    else
      match RiskManager_allPositionsZero pm h with
      | None => None
      | Some true => Some (status RiskActionContinueOpening
                             "All positions are zero, ready to open new positions")
      | Some false => Some (status RiskActionContinueOpening "Normal trading conditions")
      end.
Proof. intros Hl Hb. unfold CheckRisk, GetLighterPositions, GetBinancePositions. now rewrite Hl, Hb. Qed.

Lemma allPositionsZero_some pm h lp bp :
  deref h (lighterPositions pm) = Some lp ->
  deref h (binancePositions pm) = Some bp ->
  exists b, RiskManager_allPositionsZero pm h = Some b.
Proof.
  intros Hl Hb. unfold RiskManager_allPositionsZero, GetLighterPositions, GetBinancePositions.
  rewrite Hl, Hb. eauto.
Qed.

(** C3: with thresholds MaxLeverage = 3.0 and EmergencyLeverage = 5.0, a
    larger venue leverage of 2.9 gives CONTINUE_OPENING, 3.5 gives
    STOP_OPENING and 5.1 gives EMERGENCY_CLOSE; whatever the thresholds,
    reaching EmergencyLeverage returns the emergency status at once, before
    any other check. *)
Theorem CheckRisk_threshold_scenarios (rm : RiskManager) (pm : PositionManager)
    (h : pheap) (now : GoTime) (lp bp : ExchangePositions) :
  MaxLeverage (rm_config rm) == 3.0 ->
  EmergencyLeverage (rm_config rm) == 5.0 ->
  deref h (lighterPositions pm) = Some lp ->
  deref h (binancePositions pm) = Some bp ->
  let m := go_max (ep_Leverage lp) (ep_Leverage bp) in
  (m == 2.9 -> action_of (CheckRisk rm pm h now) = Some RiskActionContinueOpening) /\
  (m == 3.5 -> action_of (CheckRisk rm pm h now) = Some RiskActionStopOpening) /\
  (m == 5.1 -> action_of (CheckRisk rm pm h now) = Some RiskActionEmergencyClose) /\
  (forall rm' : RiskManager, Qle_bool (EmergencyLeverage (rm_config rm')) m = true ->
     CheckRisk rm' pm h now =
       Some (mkRiskStatus RiskActionEmergencyClose (ep_Leverage lp) (ep_Leverage bp) m
               "Leverage exceeded emergency threshold" now)).
Proof.
  intros Hmax Hem Hl Hb m.
  destruct (allPositionsZero_some pm h lp bp Hl Hb) as [z Hz].
  repeat split.
  - intros Hm. rewrite (CheckRisk_unfold rm pm h now lp bp Hl Hb). cbv zeta. fold m.
    rewrite (Qle_bool_compat _ 5.0 _ 2.9 Hem Hm).
    rewrite (Qle_bool_compat _ 3.0 _ 2.9 Hmax Hm). simpl.
    rewrite Hz. destruct z; reflexivity.
  - intros Hm. rewrite (CheckRisk_unfold rm pm h now lp bp Hl Hb). cbv zeta. fold m.
    rewrite (Qle_bool_compat _ 5.0 _ 3.5 Hem Hm).
    rewrite (Qle_bool_compat _ 3.0 _ 3.5 Hmax Hm). reflexivity.
  - intros Hm. rewrite (CheckRisk_unfold rm pm h now lp bp Hl Hb). cbv zeta. fold m.
    rewrite (Qle_bool_compat _ 5.0 _ 5.1 Hem Hm). reflexivity.
  - intros rm' He. rewrite (CheckRisk_unfold rm' pm h now lp bp Hl Hb). cbv zeta.
    fold m. rewrite He. reflexivity.
Qed.

Lemma CheckRisk_threshold_scenarios_witness :
  action_of (CheckRisk riskMgr pmFix (ledgerOf (lighterEP 2.9 ∅) (binanceEP 1.0 ∅)) epoch)
    = Some RiskActionContinueOpening /\
  action_of (CheckRisk riskMgr pmFix (ledgerOf (lighterEP 1.0 ∅) (binanceEP 3.5 ∅)) epoch)
    = Some RiskActionStopOpening /\
  action_of (CheckRisk riskMgr pmFix (ledgerOf (lighterEP 5.1 ∅) (binanceEP 0 ∅)) epoch)
    = Some RiskActionEmergencyClose.
Proof.
  split; [|split].
  - refine (proj1 (CheckRisk_threshold_scenarios riskMgr pmFix _ epoch
                     (lighterEP 2.9 ∅) (binanceEP 1.0 ∅) _ _ _ _) _);
      vm_compute; reflexivity.
  - refine (proj1 (proj2 (CheckRisk_threshold_scenarios riskMgr pmFix _ epoch
                     (lighterEP 1.0 ∅) (binanceEP 3.5 ∅) _ _ _ _)) _);
      vm_compute; reflexivity.
  - refine (proj1 (proj2 (proj2 (CheckRisk_threshold_scenarios riskMgr pmFix _ epoch
                     (lighterEP 5.1 ∅) (binanceEP 0 ∅) _ _ _ _))) _);
      vm_compute; reflexivity.
Defined.

(** C4: in the band MaxLeverage <= max leverage < EmergencyLeverage,
    [CheckRisk] always answers STOP_OPENING: [shouldStartClosing] is a
    placeholder returning false, so no elapsed stop duration escalates the
    action to START_CLOSING. *)
Theorem CheckRisk_stop_band_never_escalates (rm : RiskManager) (pm : PositionManager)
    (h : pheap) (now : GoTime) (lp bp : ExchangePositions) :
  deref h (lighterPositions pm) = Some lp ->
  deref h (binancePositions pm) = Some bp ->
  Qle_bool (MaxLeverage (rm_config rm)) (go_max (ep_Leverage lp) (ep_Leverage bp)) = true ->
  Qle_bool (EmergencyLeverage (rm_config rm)) (go_max (ep_Leverage lp) (ep_Leverage bp)) = false ->
  action_of (CheckRisk rm pm h now) = Some RiskActionStopOpening.
Proof.
  intros Hl Hb Hmax Hem. rewrite (CheckRisk_unfold rm pm h now lp bp Hl Hb). cbv zeta.
  rewrite Hem, Hmax. reflexivity.
Qed.

(** Opening stopped at time 0 with StopDuration = 600 s; 700 s later the
    leverage is still 3.5. *)
Lemma CheckRisk_stop_band_never_escalates_witness :
  action_of (CheckRisk riskMgr pmFix (ledgerOf (lighterEP 3.5 ∅) (binanceEP 1.0 ∅))
               (mkGoTime (700 * 1000000000) 0)) = Some RiskActionStopOpening.
Proof.
  apply (CheckRisk_stop_band_never_escalates riskMgr pmFix _ _ (lighterEP 3.5 ∅) (binanceEP 1.0 ∅));
    vm_compute; reflexivity.
Defined.

(** C9 fails as stated: the same ledger and thresholds, checked at two
    instants, give different [RiskStatus] values (their [Timestamp]). *)
Lemma CheckRisk_differs_between_calls :
  CheckRisk riskMgr pmFix (ledgerOf (lighterEP 1.0 ∅) (binanceEP 1.0 ∅)) epoch <>
  CheckRisk riskMgr pmFix (ledgerOf (lighterEP 1.0 ∅) (binanceEP 1.0 ∅)) (mkGoTime 1 0).
Proof. vm_compute. intros H. inversion H. Qed.

(** C9 (amended): [CheckRisk] reads only the two venue snapshots, the
    thresholds and the clock.  Two calls on heaps holding the same venue
    snapshots give the same status in every field but [Timestamp], which
    is the instant of the call. *)
Theorem CheckRisk_deterministic_up_to_timestamp (rm : RiskManager) (pm : PositionManager)
    (h h' : pheap) (t1 t2 : GoTime) :
  deref h (lighterPositions pm) = deref h' (lighterPositions pm) ->
  deref h (binancePositions pm) = deref h' (binancePositions pm) ->
  CheckRisk rm pm h' t2 = option_map (fun s => with_timestamp s t2) (CheckRisk rm pm h t1) /\
  (forall s, CheckRisk rm pm h t1 = Some s -> Timestamp s = t1).
Proof.
  intros Hl Hb.
  unfold CheckRisk, RiskManager_allPositionsZero, GetLighterPositions, GetBinancePositions.
  rewrite <- Hl, <- Hb.
  destruct (deref h (lighterPositions pm)) as [lp|], (deref h (binancePositions pm)) as [bp|];
    simpl; split; try discriminate; try reflexivity;
    repeat (match goal with
            | |- context [if ?c then _ else _] => destruct c
            end); simpl; try reflexivity;
    intros s Hs; inversion Hs; reflexivity.
Qed.

Lemma CheckRisk_deterministic_up_to_timestamp_witness :
  CheckRisk riskMgr pmFix (ledgerOf (lighterEP 3.5 ∅) (binanceEP 1.0 ∅)) (mkGoTime 5 0) =
  option_map (fun s => with_timestamp s (mkGoTime 5 0))
    (CheckRisk riskMgr pmFix (<[3%positive := binanceEP 7 ∅]>
                                (ledgerOf (lighterEP 3.5 ∅) (binanceEP 1.0 ∅))) epoch).
Proof.
  apply (CheckRisk_deterministic_up_to_timestamp riskMgr pmFix _ _ epoch (mkGoTime 5 0));
    vm_compute; reflexivity.
Defined.

(** ** Hedge balancer *)

Lemma Qdiv_by_zero (x y : Q) : y == 0 -> x / y == 0.
Proof. intros Hy. unfold Qdiv. rewrite Hy. apply Qmult_0_r. Qed.

Lemma expected_nonneg (a b : Q) : 0 <= (Qabs a + Qabs b) / 2.
Proof.
  apply Qle_shift_div_l; [reflexivity|].
  rewrite Qmult_0_l. apply (Qplus_le_compat 0 _ 0 _); apply Qabs_nonneg.
Qed.

(** C5: [checkSymbolBalance] computes expectedBalance = (|A|+|B|)/2,
    delta = |A|-|B|, imbalancePercent = |delta|/expectedBalance*100, needs
    an adjustment exactly when imbalancePercent > tolerancePercent and
    |delta| > minAdjustAmount, and then adjusts by |delta|/2; with
    A = 600, B = 400 and the default 5% / 50 it gives 500, 200, 40%, true
    and 100. *)
Theorem checkSymbolBalance_formulas (hb : HedgeBalancer) (symbol : string)
    (lp bp : ExchangePositions) :
  let A := getPositionValue lp symbol in
  let B := getPositionValue bp symbol in
  let r := checkSymbolBalance hb symbol lp bp in
  ExpectedBalance r = (Qabs A + Qabs B) / 2 /\
  ActualImbalance r = Qabs A - Qabs B /\
  ImbalancePercent r == Qabs (Qabs A - Qabs B) / ((Qabs A + Qabs B) / 2) * 100 /\
  NeedsAdjustment r =
    Qlt_bool (tolerancePercent hb) (Qabs (Qabs A - Qabs B) / ((Qabs A + Qabs B) / 2) * 100) &&
    Qlt_bool (minAdjustAmount hb) (Qabs (Qabs A - Qabs B)) /\
  (NeedsAdjustment r = true -> AdjustmentAmount r = Qabs (Qabs A - Qabs B) / 2) /\
  (let r0 := checkSymbolBalance NewHedgeBalancer "BTC"
               (lighterEP 0 (posValued "BTC" 600)) (binanceEP 0 (posValued "BTC" 400)) in
   ExpectedBalance r0 == 500 /\ ActualImbalance r0 == 200 /\ ImbalancePercent r0 == 40 /\
   NeedsAdjustment r0 = true /\ AdjustmentAmount r0 == 100).
Proof.
  intros A B r.
  assert (Hpct : (if Qlt_bool 0 ((Qabs A + Qabs B) / 2)
                  then Qabs (Qabs A - Qabs B) / ((Qabs A + Qabs B) / 2) * 100 else 0)
                 == Qabs (Qabs A - Qabs B) / ((Qabs A + Qabs B) / 2) * 100).
  { destruct (Qlt_bool 0 ((Qabs A + Qabs B) / 2)) eqn:E; [reflexivity|].
    assert (Hz : (Qabs A + Qabs B) / 2 == 0).
    { apply Qle_antisym; [|apply expected_nonneg].
      apply Qnot_lt_le. intros Hlt. apply Qlt_bool_iff in Hlt. congruence. }
    rewrite (Qdiv_by_zero _ _ Hz). reflexivity. }
  assert (Hneeds : forall x, x == Qabs (Qabs A - Qabs B) / ((Qabs A + Qabs B) / 2) * 100 ->
            Qlt_bool (tolerancePercent hb) x =
            Qlt_bool (tolerancePercent hb) (Qabs (Qabs A - Qabs B) / ((Qabs A + Qabs B) / 2) * 100)).
  { intros x Hx. apply Qlt_bool_compat; [reflexivity | exact Hx]. }
  unfold r, checkSymbolBalance. fold A B.
  destruct (Qlt_bool (tolerancePercent hb) _ && Qlt_bool (minAdjustAmount hb) _) eqn:N;
    simpl; (split; [reflexivity|]); (split; [reflexivity|]); (split; [exact Hpct|]);
    (split; [rewrite <- N; f_equal; apply Hneeds; exact Hpct|]);
    (split; [intros; try reflexivity; discriminate|]);
    vm_compute; repeat split; reflexivity.
Qed.

Lemma reachable_minAdjust_pos (hb : HedgeBalancer) :
  balancer_reachable hb -> 0 < minAdjustAmount hb.
Proof.
  induction 1 as [|hb t a _ IH].
  - reflexivity.
  - unfold configureBalancer.
    destruct (Qlt_bool 0 a) eqn:Ea.
    + apply Qlt_bool_iff in Ea. exact Ea.
    + destruct (Qlt_bool 0 t); exact IH.
Qed.

(** C10: for a symbol whose value is zero (or absent) on both venues,
    [checkSymbolBalance] reports ImbalancePercent 0 and no adjustment: the
    division by expectedBalance is skipped when it is 0. *)
Theorem checkSymbolBalance_flat_book (hb : HedgeBalancer) (symbol : string)
    (lp bp : ExchangePositions) :
  balancer_reachable hb ->
  getPositionValue lp symbol == 0 ->
  getPositionValue bp symbol == 0 ->
  ImbalancePercent (checkSymbolBalance hb symbol lp bp) = 0 /\
  NeedsAdjustment (checkSymbolBalance hb symbol lp bp) = false.
Proof.
  intros Hr HA HB.
  pose proof (reachable_minAdjust_pos hb Hr) as Hmin.
  unfold checkSymbolBalance.
  set (A := getPositionValue lp symbol) in *. set (B := getPositionValue bp symbol) in *.
  assert (HexpF : Qlt_bool 0 ((Qabs A + Qabs B) / 2) = false).
  { rewrite (Qlt_bool_compat 0 0 _ 0); [reflexivity|reflexivity|].
    rewrite HA, HB. reflexivity. }
  assert (HminF : Qlt_bool (minAdjustAmount hb) (Qabs (Qabs A - Qabs B)) = false).
  { destruct (Qlt_bool (minAdjustAmount hb) (Qabs (Qabs A - Qabs B))) eqn:E; [|reflexivity].
    apply Qlt_bool_iff in E. rewrite HA, HB in E. simpl in E.
    exfalso. apply (Qlt_irrefl 0). apply (Qlt_trans _ _ _ Hmin E). }
  rewrite HexpF, HminF, andb_false_r. split; reflexivity.
Qed.

Lemma checkSymbolBalance_flat_book_witness :
  ImbalancePercent (checkSymbolBalance NewHedgeBalancer "ETH"
                      (lighterEP 0 (posValued "ETH" 0)) (binanceEP 0 ∅)) = 0 /\
  NeedsAdjustment (checkSymbolBalance NewHedgeBalancer "ETH"
                      (lighterEP 0 (posValued "ETH" 0)) (binanceEP 0 ∅)) = false.
Proof.
  apply checkSymbolBalance_flat_book; [constructor | vm_compute; reflexivity | vm_compute; reflexivity].
Defined.

(** ** Ledger snapshots *)

(** C6: [GetLighterPositions] / [GetBinancePositions] return the manager's
    own pointer, so a later [UpdateLighterPosition] / [UpdateBinancePosition]
    is seen through a previously returned value. *)
Theorem GetPositions_returns_live_pointer (now : GoTime) (pm : PositionManager)
    (symbol : string) (position : Position) (h h1 h2 : pheap) :
  UpdateLighterPosition now pm symbol position h = Some h1 ->
  UpdateBinancePosition now pm symbol position h = Some h2 ->
  option_map (fun ep => Positions ep !! symbol) (deref h1 (GetLighterPositions pm))
    = Some (Some position) /\
  option_map (fun ep => Positions ep !! symbol) (deref h2 (GetBinancePositions pm))
    = Some (Some position).
Proof.
  unfold UpdateLighterPosition, UpdateBinancePosition, deref,
    GetLighterPositions, GetBinancePositions.
  destruct (h !! lighterPositions pm) as [el|]; [|discriminate].
  destruct (h !! binancePositions pm) as [eb|]; [|discriminate].
  intros H1 H2. injection H1 as <-. injection H2 as <-.
  rewrite !lookup_insert_eq. simpl. rewrite !lookup_insert_eq. split; reflexivity.
Qed.

(** The snapshot taken before the update has no BTC position; the same
    returned value, read after the update, has one. *)
Lemma GetPositions_returns_live_pointer_witness :
  let h := ledgerOf (lighterEP 0 ∅) (binanceEP 0 ∅) in
  let snapshot := GetLighterPositions pmFix in
  option_map (fun ep => Positions ep !! "BTC") (deref h snapshot) = Some None /\
  option_map (fun ep => Positions ep !! "BTC")
    (deref (<[1%positive := set_positions (lighterEP 0 ∅)
                               {["BTC" := mkPosition "BTC" 1 60000 3]} day1]> h) snapshot)
    = Some (Some (mkPosition "BTC" 1 60000 3)).
Proof.
  split; [vm_compute; reflexivity|].
  refine (proj1 (GetPositions_returns_live_pointer day1 pmFix "BTC" (mkPosition "BTC" 1 60000 3)
                   (ledgerOf (lighterEP 0 ∅) (binanceEP 0 ∅)) _
                   (<[2%positive := set_positions (binanceEP 0 ∅)
                                      {["BTC" := mkPosition "BTC" 1 60000 3]} day1]>
                      (ledgerOf (lighterEP 0 ∅) (binanceEP 0 ∅))) _ _)).
  - reflexivity.
  - reflexivity.
Defined.

(** ** Daily trade limit *)

Lemma CheckRisk_never_starts_closing (rm : RiskManager) (pm : PositionManager) (h : pheap)
    (now : GoTime) (rs : RiskStatus) :
  CheckRisk rm pm h now = Some rs -> Action rs <> RiskActionStartClosing.
Proof.
  unfold CheckRisk, shouldStartClosing.
  destruct (deref h (GetLighterPositions pm)), (deref h (GetBinancePositions pm));
    try discriminate.
  destruct (Qle_bool _ _); [intros [= <-]; discriminate|].
  destruct (Qle_bool _ _); [intros [= <-]; discriminate|].
  destruct (RiskManager_allPositionsZero pm h) as [[]|]; try discriminate;
    intros [= <-]; discriminate.
Qed.

Lemma canStartNewTrade_paused (tradingInterval maxDailyTrades : Z) (last now : GoTime)
    (orders : gmap string loc) (st : TradingStats) :
  (0 < maxDailyTrades)%Z -> ShouldPauseTradingForDay st maxDailyTrades = true ->
  canStartNewTrade tradingInterval maxDailyTrades last now orders st = false.
Proof.
  intros Hm Hp. unfold canStartNewTrade.
  destruct (_ && _); [reflexivity|]. destruct (_ <? _)%Z; [reflexivity|].
  replace (0 <? maxDailyTrades)%Z with true by (symmetry; apply Z.ltb_lt; exact Hm).
  rewrite Hp. reflexivity.
Qed.

Lemma executeCycle_paused (cfg : StrategyConfig) (rm : RiskManager) (pm : PositionManager)
    (env : CycleEnv) (s s' : StrategyState) :
  (0 < MaxDailyTrades cfg)%Z ->
  ShouldPauseTradingForDay (stats s) (MaxDailyTrades cfg) = true ->
  executeCycle cfg rm pm env s = Some s' ->
  DailyTrades (stats s') = DailyTrades (stats s) /\
  DailyStartTime (stats s') = DailyStartTime (stats s).
Proof.
  intros Hm Hp. unfold executeCycle.
  set (s1 := strategy_updateStats cfg (env_orders_stats env) s).
  assert (H1 : DailyTrades (stats s1) = DailyTrades (stats s) /\
               DailyStartTime (stats s1) = DailyStartTime (stats s)).
  { unfold s1, strategy_updateStats, UpdateVolumeProgress.
    destruct (Qlt_bool 0 (VolumeTarget cfg)); [destruct (Qlt_bool 100 _)|]; split; reflexivity. }
  destruct H1 as [Hd1 Hs1].
  destruct (ContinuousMode cfg && shouldPauseForDay cfg (stats s1)).
  { intros [= <-]. split; assumption. }
  destruct (CheckRisk rm pm (env_ledger env) (env_risk_time env)) as [rs|] eqn:Hrisk;
    [|discriminate].
  pose proof (CheckRisk_never_starts_closing _ _ _ _ _ Hrisk) as Hnc.
  destruct (Action rs); intros [= <-]; try (split; assumption).
  - unfold executeContinuousOpening.
    rewrite canStartNewTrade_paused by (try exact Hm; unfold ShouldPauseTradingForDay in *;
                                        rewrite Hd1; exact Hp).
    split; assumption.
  - congruence.
Qed.

(** C8 is contradicted by the code: the daily counter is only reset inside
    [RecordTrade], and once [ShouldPauseTradingForDay] holds no cycle of the
    monitoring loop reaches [RecordTrade] again: the opening path is refused by
    [canStartNewTrade], and [CheckRisk] never asks for the closing path.  So
    over any run of cycles, at any later times (later calendar days included),
    the daily counter and day start never change and trading stays paused. *)
Theorem executeCycle_daily_pause_never_lifts (cfg : StrategyConfig) (rm : RiskManager)
    (pm : PositionManager) (envs : list CycleEnv) (s s' : StrategyState) :
  (0 < MaxDailyTrades cfg)%Z ->
  ShouldPauseTradingForDay (stats s) (MaxDailyTrades cfg) = true ->
  run_cycles cfg rm pm envs s = Some s' ->
  DailyTrades (stats s') = DailyTrades (stats s) /\
  DailyStartTime (stats s') = DailyStartTime (stats s) /\
  ShouldPauseTradingForDay (stats s') (MaxDailyTrades cfg) = true.
Proof.
  intros Hm. revert s. induction envs as [|env rest IH]; intros s Hp Hrun.
  - injection Hrun as <-. split; [reflexivity|]. split; [reflexivity|exact Hp].
  - cbn [run_cycles] in Hrun.
    destruct (executeCycle cfg rm pm env s) as [s1|] eqn:Hc; [|discriminate].
    destruct (executeCycle_paused cfg rm pm env s s1 Hm Hp Hc) as [Hd1 Hs1].
    assert (Hp1 : ShouldPauseTradingForDay (stats s1) (MaxDailyTrades cfg) = true)
      by (unfold ShouldPauseTradingForDay in *; rewrite Hd1; exact Hp).
    destruct (IH s1 Hp1 Hrun) as (Hd & Hs & Hp').
    split; [congruence|]. split; [congruence|exact Hp'].
Qed.

Lemma executeCycle_daily_pause_never_lifts_witness :
  DailyTrades tenTradesDay1 = 10%Z /\
  isSameDay day2 (DailyStartTime tenTradesDay1) = false /\
  match run_cycles pauseCfg riskMgr pmFix laterCycles pausedStrategy with
  | Some s' => DailyTrades (stats s') = 10%Z /\
               ShouldPauseTradingForDay (stats s') (MaxDailyTrades pauseCfg) = true
  | None => False
  end.
Proof.
  split; [vm_compute; reflexivity|]. split; [vm_compute; reflexivity|].
  destruct (run_cycles pauseCfg riskMgr pmFix laterCycles pausedStrategy) as [s'|] eqn:Hrun;
    [|vm_compute in Hrun; discriminate].
  destruct (executeCycle_daily_pause_never_lifts pauseCfg riskMgr pmFix laterCycles
              pausedStrategy s' ltac:(vm_compute; reflexivity) ltac:(vm_compute; reflexivity) Hrun)
    as (Hd & _ & Hp).
  split; [rewrite Hd; vm_compute; reflexivity | exact Hp].
Defined.

(** ** Closing *)

(** C1 is contradicted by the code: a cycle that selects BTC from a short
    BTC position registers a BTC BUY order but sends an ETH buy
    ([PlaceETHLong]) to Binance; one that selects ETH from a long ETH
    position registers an ETH SELL order but sends a BTC sell. *)
Theorem ExecuteClosingLogic_sends_other_symbol :
  let r1 := ExecuteClosingLogic (fun _ => Some 42%Z) riskCfg pmFix day1 closingWorldBTC in
  let r2 := ExecuteClosingLogic (fun _ => Some 43%Z) riskCfg pmFix day1 closingWorldETH in
  fst r1 = Ret tt /\
  option_map (fun o => (ao_Symbol o, Side o, ao_Size o))
    (activeOrders (snd r1) !! "42" ≫= fun p => orderHeap (snd r1) !! p)
    = Some ("BTC", "BUY", 0.5) /\
  binanceLog (snd r1) = [PlaceETHLong 0.5 0.1] /\
  map binance_call_symbol (binanceLog (snd r1)) = ["ETH"] /\
  fst r2 = Ret tt /\
  option_map (fun o => (ao_Symbol o, Side o, ao_Size o))
    (activeOrders (snd r2) !! "43" ≫= fun p => orderHeap (snd r2) !! p)
    = Some ("ETH", "SELL", 2) /\
  binanceLog (snd r2) = [PlaceBTCShort 2 0.1] /\
  map binance_call_symbol (binanceLog (snd r2)) = ["BTC"].
Proof. vm_compute. repeat split. Qed.

(** ** Partial fills *)

(** C2 is contradicted by the code: order "7" was 0.3 filled and the venue
    now reports PARTIAL with 0.5 filled; the hedge placed is 0.5 (the
    cumulative fill), not the increment 0.2. *)
Theorem partial_fill_hedges_cumulative_size :
  let r := checkOrderStatus (fun _ => Some 60000%Z) (fun _ => None) (mkOrderMonitor None)
             (fun _ => Some ("PARTIAL", 0.5)) day2 1%positive partialWorld in
  fst r = Ret tt /\
  hedgeLog (snd r) = [mkHedgeCall "lighter" "BTC" "BUY" 0.5] /\
  ~ (hc_size (mkHedgeCall "lighter" "BTC" "BUY" 0.5) == 0.5 - 0.3).
Proof.
  split; [vm_compute; reflexivity|]. split; [vm_compute; reflexivity|].
  vm_compute. discriminate.
Qed.

(** ** Fast hedge on an unsupported pair *)

Lemma fem_executeLighterHedge_rejects (lighter_client : LighterCall -> option Z)
    (execCtx : ExecutionContext) (w : World) :
  ~ (ec_Symbol execCtx = "BTC" /\ HedgeSide execCtx = "BUY") ->
  ~ (ec_Symbol execCtx = "ETH" /\ HedgeSide execCtx = "SELL") ->
  exists e, fem_executeLighterHedge lighter_client execCtx w = (Fail e, w).
Proof.
  intros H1 H2. unfold fem_executeLighterHedge.
  destruct (String.eqb (ec_Symbol execCtx) "BTC" && String.eqb (HedgeSide execCtx) "BUY") eqn:E1.
  { apply andb_true_iff in E1 as [Ea Eb]. apply String.eqb_eq in Ea, Eb. tauto. }
  destruct (String.eqb (ec_Symbol execCtx) "ETH" && String.eqb (HedgeSide execCtx) "SELL") eqn:E2.
  { apply andb_true_iff in E2 as [Ea Eb]. apply String.eqb_eq in Ea, Eb. tauto. }
  eexists. reflexivity.
Qed.

Lemma retry_loop_rejects (lighter_client : LighterCall -> option Z) (ctx_done : Z -> option string) (maxAttempts attempt : Z)
    (fuel : nat) (execCtx : ExecutionContext) (lastErr : string) (w : World) :
  ~ (ec_Symbol execCtx = "BTC" /\ HedgeSide execCtx = "BUY") ->
  ~ (ec_Symbol execCtx = "ETH" /\ HedgeSide execCtx = "SELL") ->
  exists e, retry_loop lighter_client ctx_done maxAttempts attempt fuel execCtx lastErr w = (Fail e, w).
Proof.
  intros H1 H2. revert attempt lastErr.
  induction fuel as [|fuel IH]; intros attempt lastErr; simpl.
  - eexists. reflexivity.
  - unfold catch.
    destruct (fem_executeLighterHedge_rejects lighter_client execCtx w H1 H2) as [e He].
    rewrite He. destruct (attempt <? maxAttempts)%Z; [destruct (ctx_done attempt)|];
      [eexists; reflexivity | apply IH | apply IH].
Qed.

Lemma determineHedgeSide_unsupported (symbol side : string) :
  supported_hedge_pair symbol side = false -> determineHedgeSide symbol side = side.
Proof.
  unfold supported_hedge_pair, determineHedgeSide. intros H.
  apply orb_false_iff in H as [H1 H2]. now rewrite H1, H2.
Qed.

(** C7 fails as stated: a BUY fill on BTC, an unsupported pair, is hedged
    with a BTC long on Lighter and no error is returned. *)
Lemma ExecuteFastHedge_trades_on_unsupported_pair :
  supported_hedge_pair "BTC" "BUY" = false /\
  (exists execCtx,
     ExecuteFastHedge (fun _ => Some 60000%Z) (fun _ => None) NewDefaultFastExecutionConfig
       "o1" "BTC" "BUY" 1000 60000 emptyWorld
     = (Ret execCtx, log_lighter emptyWorld (PlaceBTCLong 1000 3))).
Proof. split; [reflexivity|]. eexists. vm_compute. reflexivity. Qed.

(** C7 (amended): on a pair other than BTC+SELL and ETH+BUY the hedge side
    defaults to the original side.  BTC+BUY and ETH+SELL are then hedged on
    Lighter in that same direction (a BTC long, an ETH short) and succeed
    when the venue accepts; every other unsupported pair places no order and
    returns an error. *)
Theorem ExecuteFastHedge_unsupported_pair (lighter_client : LighterCall -> option Z) (ctx_done : Z -> option string)
    (cfg : FastExecutionConfig) (orderID symbol side : string) (size price : Q) (w : World) :
  supported_hedge_pair symbol side = false ->
  determineHedgeSide symbol side = side /\
  (symbol = "BTC" -> side = "BUY" -> (1 <= MaxRetryAttempts cfg)%Z ->
   forall p, lighter_client (PlaceBTCLong (go_int64 size) 3) = Some p ->
   exists execCtx,
     ExecuteFastHedge lighter_client ctx_done cfg orderID symbol side size price w
       = (Ret execCtx, log_lighter w (PlaceBTCLong (go_int64 size) 3)) /\
     HedgeSide execCtx = "BUY") /\
  (symbol = "ETH" -> side = "SELL" -> (1 <= MaxRetryAttempts cfg)%Z ->
   forall p, lighter_client (PlaceETHShort (go_int64 size) 3) = Some p ->
   exists execCtx,
     ExecuteFastHedge lighter_client ctx_done cfg orderID symbol side size price w
       = (Ret execCtx, log_lighter w (PlaceETHShort (go_int64 size) 3)) /\
     HedgeSide execCtx = "SELL") /\
  (~ (symbol = "BTC" /\ side = "BUY") -> ~ (symbol = "ETH" /\ side = "SELL") ->
   exists e, ExecuteFastHedge lighter_client ctx_done cfg orderID symbol side size price w = (Fail e, w)).
Proof.
  intros Hsup. pose proof (determineHedgeSide_unsupported symbol side Hsup) as Hside.
  split; [exact Hside|]. split; [|split].
  - intros -> -> Hmax p Hp.
    unfold ExecuteFastHedge, executeHedgeWithRetry.
    destruct (Z.to_nat (MaxRetryAttempts cfg)) as [|fuel] eqn:Ef; [lia|].
    eexists. split.
    + destruct (EnablePriceProtection cfg);
        cbv [mbind M_bind validatePrice mret M_ret]; simpl;
        unfold catch, fem_executeLighterHedge, call_lighter, wrap_err, catch; simpl;
        rewrite Hp; reflexivity.
    + reflexivity.
  - intros -> -> Hmax p Hp.
    unfold ExecuteFastHedge, executeHedgeWithRetry.
    destruct (Z.to_nat (MaxRetryAttempts cfg)) as [|fuel] eqn:Ef; [lia|].
    eexists. split.
    + destruct (EnablePriceProtection cfg);
        cbv [mbind M_bind validatePrice mret M_ret]; simpl;
        unfold catch, fem_executeLighterHedge, call_lighter, wrap_err, catch; simpl;
        rewrite Hp; reflexivity.
    + reflexivity.
  - intros H1 H2.
    set (execCtx := mkExecutionContext orderID symbol side (determineHedgeSide symbol side)
                      size price 0 false "").
    destruct (retry_loop_rejects lighter_client ctx_done (MaxRetryAttempts cfg) 1
                (Z.to_nat (MaxRetryAttempts cfg)) execCtx "%!w(<nil>)" w)
      as [e He]; [unfold execCtx; simpl; rewrite Hside; exact H1
                  | unfold execCtx; simpl; rewrite Hside; exact H2 |].
    exists e. unfold ExecuteFastHedge, executeHedgeWithRetry. fold execCtx.
    destruct (EnablePriceProtection cfg);
      cbv [mbind M_bind validatePrice mret M_ret]; rewrite He; reflexivity.
Qed.

Lemma ExecuteFastHedge_unsupported_pair_witness :
  (exists execCtx,
     ExecuteFastHedge (fun _ => Some 60000%Z) (fun _ => None) NewDefaultFastExecutionConfig
       "o1" "BTC" "BUY" 1000 60000 emptyWorld
     = (Ret execCtx, log_lighter emptyWorld (PlaceBTCLong 1000 3))) /\
  (exists e,
     ExecuteFastHedge (fun _ => Some 60000%Z) (fun _ => None) NewDefaultFastExecutionConfig
       "o2" "BTC" "HOLD" 1000 60000 emptyWorld = (Fail e, emptyWorld)).
Proof.
  split.
  - destruct (ExecuteFastHedge_unsupported_pair (fun _ => Some 60000%Z) (fun _ => None)
                NewDefaultFastExecutionConfig "o1" "BTC" "BUY" 1000 60000 emptyWorld)
      as (_ & HB & _ & _); [reflexivity|].
    destruct (HB eq_refl eq_refl ltac:(vm_compute; discriminate) 60000%Z eq_refl)
      as [execCtx [Hr _]].
    exists execCtx. exact Hr.
  - destruct (ExecuteFastHedge_unsupported_pair (fun _ => Some 60000%Z) (fun _ => None)
                NewDefaultFastExecutionConfig "o2" "BTC" "HOLD" 1000 60000 emptyWorld)
      as (_ & _ & _ & HO); [reflexivity|].
    apply HO; intros [_ H]; discriminate.
Defined.

(** * Further properties of the code *)

Lemma wrap64_shift (x : Z) : exists k, wrap64 x = (x + 2 ^ 64 * k)%Z.
Proof.
  unfold wrap64. exists (- ((x + 2 ^ 63) / 2 ^ 64))%Z.
  rewrite Zmod_eq_full by (vm_compute; discriminate). ring.
Qed.

Lemma wrap64_cong (x y k : Z) : x = (y + 2 ^ 64 * k)%Z -> wrap64 x = wrap64 y.
Proof.
  intros ->. unfold wrap64. f_equal.
  replace (y + 2 ^ 64 * k + 2 ^ 63)%Z with ((y + 2 ^ 63) + k * 2 ^ 64)%Z by ring.
  rewrite Z.mod_add by (vm_compute; discriminate). reflexivity.
Qed.

Lemma wrap64_add_l (a b : Z) : wrap64 (wrap64 a + b) = wrap64 (a + b).
Proof. destruct (wrap64_shift a) as [k ->]. apply (wrap64_cong _ _ k). ring. Qed.

Lemma wrap64_add_r (a b : Z) : wrap64 (a + wrap64 b) = wrap64 (a + b).
Proof. destruct (wrap64_shift b) as [k ->]. apply (wrap64_cong _ _ k). ring. Qed.

Lemma wrap64_small (x : Z) :
  (-9223372036854775808 <= x < 9223372036854775808)%Z -> wrap64 x = x.
Proof.
  intros H. unfold wrap64.
  change (2 ^ 63)%Z with 9223372036854775808%Z. change (2 ^ 64)%Z with 18446744073709551616%Z.
  rewrite Z.mod_small by lia. lia.
Qed.

Lemma delay_bucket_cases (d : Z) :
  delay_bucket d = "<100ms" \/ delay_bucket d = "100-200ms" \/
  delay_bucket d = "200-500ms" \/ delay_bucket d = ">500ms".
Proof. unfold delay_bucket. repeat destruct (_ <? _)%Z; auto. Qed.

Lemma bucket_total_incr (st st' : ExecutionStats) (d : Z) :
  DelayBuckets st' = map_incr (DelayBuckets st) (delay_bucket d) ->
  wrap64 (bucket_total st') = wrap64 (bucket_total st + 1).
Proof.
  intros Hb. unfold bucket_total. rewrite Hb. unfold map_incr.
  destruct (delay_bucket_cases d) as [E|[E|[E|E]]]; rewrite E;
    rewrite ?lookup_insert_eq, ?lookup_insert_ne by discriminate; simpl;
    match goal with
    | |- context [wrap64 (?x + 1)%Z] =>
        destruct (wrap64_shift (x + 1)%Z) as [k Hk]; rewrite Hk; apply (wrap64_cong _ _ k); ring
    end.
Qed.

Lemma updateStats_inv (s : bool) (d : Z) (t : GoTime) (st st' : ExecutionStats) :
  stats_inv st -> updateStats s d t st = Some st' -> stats_inv st'.
Proof.
  intros [HT HB] Hu. unfold updateStats in Hu. destruct s.
  - destruct (wrap64 (SuccessfulExecutions st + 1) =? 1)%Z;
      [|destruct (wrap64 (SuccessfulExecutions st + 1) =? 0)%Z]; try discriminate;
      injection Hu as <-; split; simpl.
    + rewrite HT, wrap64_add_l, wrap64_add_l. f_equal. ring.
    + erewrite (bucket_total_incr st); [|reflexivity].
      rewrite <- HB, wrap64_add_l. reflexivity.
    + rewrite HT, wrap64_add_l, wrap64_add_l. f_equal. ring.
    + erewrite (bucket_total_incr st); [|reflexivity].
      rewrite <- HB, wrap64_add_l. reflexivity.
  - injection Hu as <-. split; simpl.
    + rewrite HT, wrap64_add_l, wrap64_add_r. f_equal. ring.
    + exact HB.
Qed.

Lemma run_updates_inv (evs : list (bool * Z * GoTime)) (st0 st : ExecutionStats) :
  stats_inv st0 -> run_updates evs st0 = Some st -> stats_inv st.
Proof.
  revert st0. induction evs as [|[[s d] t] evs IH]; simpl; intros st0 H0 Hr.
  - injection Hr as <-. exact H0.
  - destruct (updateStats s d t st0) as [st1|] eqn:E; [|discriminate].
    exact (IH st1 (updateStats_inv s d t st0 st1 H0 E) Hr).
Qed.



(** X1: After any sequence of executions recorded by [updateStats] from
    [NewExecutionStats], the total count equals successes plus failures and the
    delay buckets add up to the successes (all as int64). *)
Theorem updateStats_counters_consistent (evs : list (bool * Z * GoTime)) (st : ExecutionStats) :
  run_updates evs NewExecutionStats = Some st ->
  TotalExecutions st = wrap64 (SuccessfulExecutions st + FailedExecutions st) /\
  wrap64 (bucket_total st) = SuccessfulExecutions st.
Proof.
  intros Hr. apply (run_updates_inv evs NewExecutionStats st); [|exact Hr].
  split; vm_compute; reflexivity.
Qed.

Lemma run_updates_delays (evs : list (bool * Z * GoTime)) (st0 st : ExecutionStats) :
  run_updates evs st0 = Some st ->
  (MinDelay st <= MinDelay st0)%Z /\ (MaxDelay st0 <= MaxDelay st)%Z /\
  (forall s d t, In (s, d, t) evs -> s = true -> MinDelay st <= d <= MaxDelay st)%Z /\
  (Forall (fun '(s, d, _) => s = true -> MinDelay st0 <= d)%Z evs -> MinDelay st = MinDelay st0).
Proof.
  revert st0. induction evs as [|[[s d] t] evs IH]; simpl; intros st0 Hr.
  - injection Hr as <-. split; [lia|]. split; [lia|]. split; [tauto|]. reflexivity.
  - destruct (updateStats s d t st0) as [st1|] eqn:E; [|discriminate].
    destruct (IH st1 Hr) as (Hmin & Hmax & Hin & Hall).
    assert (Hstep : (MinDelay st1 <= MinDelay st0)%Z /\ (MaxDelay st0 <= MaxDelay st1)%Z /\
                    (s = true -> MinDelay st1 <= d <= MaxDelay st1)%Z /\
                    ((s = true -> MinDelay st0 <= d)%Z -> MinDelay st1 = MinDelay st0)).
    { unfold updateStats in E. destruct s.
      - destruct (wrap64 (SuccessfulExecutions st0 + 1) =? 1)%Z;
          [|destruct (wrap64 (SuccessfulExecutions st0 + 1) =? 0)%Z]; try discriminate;
          injection E as <-; simpl;
          destruct (d <? MinDelay st0)%Z eqn:E1, (MaxDelay st0 <? d)%Z eqn:E2;
          rewrite ?Z.ltb_lt, ?Z.ltb_ge in E1, E2; repeat split; try lia;
          intros H; specialize (H eq_refl); lia.
      - injection E as <-. simpl. repeat split; try lia; discriminate. }
    destruct Hstep as (H1 & H2 & H3 & H4).
    split; [lia|]. split; [lia|]. split.
    + intros s' d' t' [Heq|Hin'] Hs'.
      * injection Heq as -> -> ->. specialize (H3 Hs'). lia.
      * exact (Hin s' d' t' Hin' Hs').
    + intros HF. inversion HF as [|x l Hx HF']; subst.
      rewrite <- (H4 Hx). apply Hall. rewrite (H4 Hx). exact HF'.
Qed.

(** X2: After any sequence of executions recorded from [NewExecutionStats], MinDelay
    is at most one hour, MaxDelay is non-negative, every successful delay lies
    between them, and MinDelay keeps its initial one hour when no success is faster
    than one hour. *)
Theorem updateStats_delay_extremes (evs : list (bool * Z * GoTime)) (st : ExecutionStats) :
  run_updates evs NewExecutionStats = Some st ->
  (MinDelay st <= time_Hour)%Z /\ (0 <= MaxDelay st)%Z /\
  (forall s d t, In (s, d, t) evs -> s = true -> MinDelay st <= d <= MaxDelay st)%Z /\
  (Forall (fun '(s, d, _) => s = true -> time_Hour <= d)%Z evs -> MinDelay st = time_Hour).
Proof.
  intros Hr. destruct (run_updates_delays evs NewExecutionStats st Hr)
    as (Hmin & Hmax & Hin & Hall).
  cbn [MinDelay MaxDelay NewExecutionStats] in *.
  split; [exact Hmin|]. split; [exact Hmax|]. split; [exact Hin|]. exact Hall.
Qed.

(** X3: With a positive target, [UpdateVolumeProgress] only sets VolumeProgress, to
    a value at most 100, non-negative for a non-negative volume and equal to
    volume/target*100 up to the target; with a non-positive target it changes
    nothing. *)
Theorem UpdateVolumeProgress_capped (target : Q) (st : TradingStats) :
  (0 < target ->
     UpdateVolumeProgress target st =
       with_volume_progress st (VolumeProgress (UpdateVolumeProgress target st)) /\
     VolumeProgress (UpdateVolumeProgress target st) <= 100 /\
     (0 <= DailyVolume st -> 0 <= VolumeProgress (UpdateVolumeProgress target st)) /\
     (DailyVolume st <= target ->
        VolumeProgress (UpdateVolumeProgress target st) == DailyVolume st / target * 100)) /\
  (target <= 0 -> UpdateVolumeProgress target st = st).
Proof.
  split.
  - intros Ht. unfold UpdateVolumeProgress.
    replace (Qlt_bool 0 target) with true by (symmetry; apply Qlt_bool_iff; exact Ht).
    destruct (Qlt_bool 100 (DailyVolume st / target * 100)) eqn:E; simpl.
    + split; [reflexivity|]. split; [apply Qle_refl|]. split.
      * intros _. discriminate.
      * intros Hle. exfalso. apply Qlt_bool_iff in E.
        assert (H1 : DailyVolume st / target <= 1).
        { apply Qle_shift_div_r; [exact Ht|]. rewrite Qmult_1_l. exact Hle. }
        apply (Qlt_not_le _ _ E). rewrite <- (Qmult_1_l 100) at 2.
        apply Qmult_le_compat_r; [exact H1|discriminate].
    + split; [reflexivity|]. split.
      * apply Qnot_lt_le. intros Hlt. apply Qlt_bool_iff in Hlt. congruence.
      * split; [|intros _; reflexivity].
        intros Hv. apply Qmult_le_0_compat; [|discriminate].
        apply Qle_shift_div_l; [exact Ht|]. rewrite Qmult_0_l. exact Hv.
  - intros Ht. unfold UpdateVolumeProgress.
    replace (Qlt_bool 0 target) with false; [reflexivity|].
    symmetry. destruct (Qlt_bool 0 target) eqn:E; [|reflexivity].
    apply Qlt_bool_iff in E. exfalso. apply (Qlt_not_le _ _ E Ht).
Qed.

Lemma isSameDay_refl (t : GoTime) : isSameDay t t = true.
Proof.
  unfold isSameDay. destruct (Date t) as [[y m] d]. rewrite !Z.eqb_refl. reflexivity.
Qed.

(** X4: [RecordTrade] adds the volume to TotalVolume and one to TotalTrades, keeps
    StartTime, sets LastTradeTime, and leaves a daily window that starts on the
    trade's day. *)
Theorem RecordTrade_keeps_lifetime_totals (now : GoTime) (volume : Q) (tradeType : string)
    (st : TradingStats) :
  TotalVolume (RecordTrade now volume tradeType st) = TotalVolume st + volume /\
  TotalTrades (RecordTrade now volume tradeType st) = wrap64 (TotalTrades st + 1) /\
  StartTime (RecordTrade now volume tradeType st) = StartTime st /\
  LastTradeTime (RecordTrade now volume tradeType st) = now /\
  isSameDay now (DailyStartTime (RecordTrade now volume tradeType st)) = true.
Proof.
  unfold RecordTrade. destruct (isSameDay now (DailyStartTime st)) eqn:E; simpl.
  - repeat split. exact E.
  - repeat split. apply isSameDay_refl.
Qed.

Lemma RecordTrade_fold_same_day (tradeType : string) (trades : list (GoTime * Q))
    (st : TradingStats) :
  Forall (fun tv => isSameDay (fst tv) (DailyStartTime st) = true) trades ->
  (0 <= DailyTrades st)%Z -> (0 <= TotalTrades st)%Z ->
  (DailyTrades st + Z.of_nat (length trades) < 9223372036854775807)%Z ->
  (TotalTrades st + Z.of_nat (length trades) < 9223372036854775807)%Z ->
  let st' := fold_left (fun st tv => RecordTrade (fst tv) (snd tv) tradeType st) trades st in
  DailyTrades st' = (DailyTrades st + Z.of_nat (length trades))%Z /\
  TotalTrades st' = (TotalTrades st + Z.of_nat (length trades))%Z /\
  DailyStartTime st' = DailyStartTime st /\
  DailyVolume st' == DailyVolume st + fold_right Qplus 0 (map snd trades) /\
  TotalVolume st' == TotalVolume st + fold_right Qplus 0 (map snd trades) /\
  (trades <> [] -> AvgTradeSize st' == TotalVolume st' / inject_Z (TotalTrades st')).
Proof.
  revert st. induction trades as [|[t v] rest IH]; intros st Hday Hd0 Ht0 Hd Ht st'.
  - subst st'. cbn. repeat split; try ring; try lia. intros []; reflexivity.
  - inversion Hday as [|? ? Hhd Htl]; subst. cbn [fst] in Hhd.
    cbn [length] in Hd, Ht. rewrite Nat2Z.inj_succ in Hd, Ht.
    set (st1 := RecordTrade t v tradeType st).
    assert (Hs1 : DailyStartTime st1 = DailyStartTime st)
      by (unfold st1, RecordTrade; rewrite Hhd; reflexivity).
    assert (Hd1 : DailyTrades st1 = (DailyTrades st + 1)%Z)
      by (unfold st1, RecordTrade; rewrite Hhd; cbn; apply wrap64_small; lia).
    assert (Ht1 : TotalTrades st1 = (TotalTrades st + 1)%Z)
      by (unfold st1, RecordTrade; rewrite Hhd; cbn; apply wrap64_small; lia).
    assert (Hdv1 : DailyVolume st1 = DailyVolume st + v)
      by (unfold st1, RecordTrade; rewrite Hhd; reflexivity).
    assert (Htv1 : TotalVolume st1 = TotalVolume st + v)
      by (unfold st1, RecordTrade; rewrite Hhd; reflexivity).
    assert (Ha1 : AvgTradeSize st1 = TotalVolume st1 / inject_Z (TotalTrades st1)).
    { unfold st1, RecordTrade. rewrite Hhd. cbn -[wrap64].
      rewrite wrap64_small by lia.
      replace (0 <? TotalTrades st + 1)%Z with true by (symmetry; apply Z.ltb_lt; lia).
      reflexivity. }
    assert (Hday1 : Forall (fun tv => isSameDay (fst tv) (DailyStartTime st1) = true) rest)
      by (rewrite Hs1; exact Htl).
    destruct (IH st1 Hday1 ltac:(lia) ltac:(lia) ltac:(lia) ltac:(lia))
      as (IHd & IHt & IHs & IHdv & IHtv & IHa).
    subst st'. cbn [fold_left fst snd]. fold st1.
    cbn [length map fold_right snd]. rewrite Nat2Z.inj_succ.
    split; [rewrite IHd, Hd1; lia|]. split; [rewrite IHt, Ht1; lia|].
    split; [rewrite IHs; exact Hs1|].
    split; [rewrite IHdv, Hdv1; ring|]. split; [rewrite IHtv, Htv1; ring|].
    intros _. destruct rest as [|tv rest'].
    + cbn [fold_left]. exact (Qeq_refl _) || (rewrite Ha1; reflexivity).
    + apply IHa. discriminate.
Qed.

(** X5: Trades recorded, each at its own time and with its own volume, on the
    day the statistics were created give as many daily and total trades as
    there are trades, the sum of the volumes as daily and total volume, an
    unchanged daily start, and (when there is one) the mean volume as average
    trade size. *)
Theorem RecordTrade_same_day_accumulates (t0 : GoTime) (trades : list (GoTime * Q))
    (tradeType : string) :
  Forall (fun tv => isSameDay (fst tv) t0 = true) trades ->
  (Z.of_nat (length trades) < 9223372036854775807)%Z ->
  let st := fold_left (fun st tv => RecordTrade (fst tv) (snd tv) tradeType st) trades
              (NewTradingStats t0) in
  DailyTrades st = Z.of_nat (length trades) /\
  TotalTrades st = Z.of_nat (length trades) /\
  DailyStartTime st = t0 /\
  DailyVolume st == fold_right Qplus 0 (map snd trades) /\
  TotalVolume st == fold_right Qplus 0 (map snd trades) /\
  (trades <> [] ->
   AvgTradeSize st == fold_right Qplus 0 (map snd trades) / inject_Z (Z.of_nat (length trades))).
Proof.
  intros Hday Hn st.
  destruct (RecordTrade_fold_same_day tradeType trades (NewTradingStats t0) Hday
              ltac:(cbn; lia) ltac:(cbn; lia) ltac:(cbn; lia) ltac:(cbn; lia))
    as (Hd & Ht & Hs & Hdv & Htv & Ha).
  fold st in Hd, Ht, Hs, Hdv, Htv, Ha. cbn [DailyTrades TotalTrades DailyStartTime
    DailyVolume TotalVolume NewTradingStats] in Hd, Ht, Hs, Hdv, Htv.
  split; [exact Hd|]. split; [exact Ht|]. split; [exact Hs|].
  split; [rewrite Hdv; ring|]. split; [rewrite Htv; ring|].
  intros Hne. rewrite (Ha Hne), Htv, Ht. rewrite Qplus_0_l. reflexivity.
Qed.

Lemma UpdateOrderStatus_found (now : GoTime) (orderID status : string) (filledSize : Q)
    (w : World) (p : loc) (o : ActiveOrder) :
  activeOrders w !! orderID = Some p -> orderHeap w !! p = Some o ->
  UpdateOrderStatus now orderID status filledSize w =
    (Ret tt, set_orders w
               (<[p := {| ID := ID o; ao_Exchange := ao_Exchange o; ao_Symbol := ao_Symbol o;
                          Side := Side o; ao_Size := ao_Size o; Price := Price o;
                          Status := status; FilledSize := filledSize;
                          CreatedAt := CreatedAt o; ao_UpdatedAt := now |}]> (orderHeap w))
               (if String.eqb status "FILLED" || String.eqb status "CANCELLED"
                then delete orderID (activeOrders w) else activeOrders w)
               (nextLoc w)).
Proof. intros Ha Ho. unfold UpdateOrderStatus. rewrite Ha, Ho. reflexivity. Qed.

(** X6: [UpdateOrderStatus] ignores an unregistered id; for a registered one it
    updates status, filled size and update time in place, unregisters the order
    exactly when the new status is FILLED or CANCELLED, and touches no other id, the
    ledger or the hedge log. *)
Theorem UpdateOrderStatus_registry (now : GoTime) (orderID status : string) (filledSize : Q)
    (w : World) :
  (activeOrders w !! orderID = None ->
   UpdateOrderStatus now orderID status filledSize w = (Ret tt, w)) /\
  (forall p o, activeOrders w !! orderID = Some p -> orderHeap w !! p = Some o ->
   let '(r, w') := UpdateOrderStatus now orderID status filledSize w in
   r = Ret tt /\
   option_map (fun o' => (ID o', ao_Size o', Status o', FilledSize o', ao_UpdatedAt o'))
     (orderHeap w' !! p) = Some (ID o, ao_Size o, status, filledSize, now) /\
   activeOrders w' !! orderID =
     (if String.eqb status "FILLED" || String.eqb status "CANCELLED" then None else Some p) /\
   (forall id, id <> orderID -> activeOrders w' !! id = activeOrders w !! id) /\
   ledger w' = ledger w /\ hedgeLog w' = hedgeLog w /\ nextLoc w' = nextLoc w).
Proof.
  split.
  - intros Ha. unfold UpdateOrderStatus. rewrite Ha. reflexivity.
  - intros p o Ha Ho. rewrite (UpdateOrderStatus_found now orderID status filledSize w p o Ha Ho).
    simpl. split; [reflexivity|]. split; [rewrite lookup_insert_eq; reflexivity|].
    split; [|split; [|repeat split]].
    + destruct (String.eqb status "FILLED" || String.eqb status "CANCELLED");
        [apply lookup_delete_eq | exact Ha].
    + intros id Hid.
      destruct (String.eqb status "FILLED" || String.eqb status "CANCELLED");
        [apply lookup_delete_ne; congruence | reflexivity].
Qed.

Lemma AddOrder_run (order : ActiveOrder) (w : World) :
  AddOrder order w = (Ret (nextLoc w), set_orders w (<[nextLoc w := order]> (orderHeap w))
                                          (<[ID order := nextLoc w]> (activeOrders w))
                                          (Pos.succ (nextLoc w))).
Proof. reflexivity. Qed.

(** X7: On a well-formed registry [AddOrder] stores the order at a fresh address it
    returns, keeps the registry well formed, resolves the order's id to it and every
    other id to the order it had. *)
Theorem AddOrder_registers (order : ActiveOrder) (w : World) :
  orders_wf w ->
  let '(r, w') := AddOrder order w in
  r = Ret (nextLoc w) /\ orders_wf w' /\
  (activeOrders w' !! ID order ≫= fun p => orderHeap w' !! p) = Some order /\
  (forall id, id <> ID order ->
     (activeOrders w' !! id ≫= fun p => orderHeap w' !! p) =
     (activeOrders w !! id ≫= fun p => orderHeap w !! p)) /\
  ledger w' = ledger w /\ hedgeLog w' = hedgeLog w.
Proof.
  intros [Hlt Hreg]. rewrite AddOrder_run. simpl.
  split; [reflexivity|]. split; [|split; [|split; [|split; reflexivity]]].
  - split; simpl.
    + intros q Hq. destruct (decide (q = nextLoc w)) as [->|Hne]; [lia|].
      rewrite lookup_insert_ne in Hq by congruence. specialize (Hlt q Hq). lia.
    + intros id q Hq. destruct (decide (q = nextLoc w)) as [->|Hne].
      * rewrite lookup_insert_eq. eauto.
      * rewrite lookup_insert_ne by congruence.
        destruct (decide (id = ID order)) as [->|Hid].
        -- rewrite lookup_insert_eq in Hq. congruence.
        -- rewrite lookup_insert_ne in Hq by congruence. exact (Hreg id q Hq).
  - rewrite lookup_insert_eq. simpl. rewrite lookup_insert_eq. reflexivity.
  - intros id Hid. rewrite lookup_insert_ne by congruence.
    destruct (activeOrders w !! id) as [q|] eqn:Eq; simpl; [|reflexivity].
    assert (Hq : q <> nextLoc w).
    { intros ->. destruct (Hreg id (nextLoc w) Eq) as [x Hx].
      specialize (Hlt (nextLoc w) (ltac:(rewrite Hx; eauto))). lia. }
    rewrite lookup_insert_ne by congruence. reflexivity.
Qed.

Lemma same_but_refl (w : World) : same_but_order_fields w w.
Proof. repeat split; tauto. Qed.

Lemma same_but_trans (w1 w2 w3 : World) :
  same_but_order_fields w1 w2 -> same_but_order_fields w2 w3 -> same_but_order_fields w1 w3.
Proof.
  intros (A1 & B1 & C1 & D1 & E1 & F1 & G1) (A2 & B2 & C2 & D2 & E2 & F2 & G2).
  repeat split; try congruence; intros H; [apply G1, G2, H | apply G2, G1, H].
Qed.

Lemma same_but_wf (w w' : World) :
  same_but_order_fields w w' -> orders_wf w -> orders_wf w'.
Proof.
  intros (A & B & C & D & E & F & G) [Hlt Hreg]. split.
  - intros q Hq. rewrite C. apply Hlt, G, Hq.
  - intros id q Hq. apply G. rewrite B in Hq. exact (Hreg id q Hq).
Qed.

Lemma is_Some_insert_allocated {A} (m : gmap loc A) (q r : loc) (v : A) :
  is_Some (m !! q) -> (is_Some (<[q := v]> m !! r) <-> is_Some (m !! r)).
Proof.
  intros Hq. destruct (decide (r = q)) as [->|Hne].
  - rewrite lookup_insert_eq. split; [intros _; exact Hq | intros _; eauto].
  - rewrite lookup_insert_ne by congruence. tauto.
Qed.

Lemma checkOrderStatus_stub (lighter_client : LighterCall -> option Z) (ctx_done : Z -> option string) (om : OrderMonitor)
    (now : GoTime) (p : loc) (w : World) :
  orders_wf w -> is_Some (orderHeap w !! p) ->
  let '(r, w') := checkOrderStatus lighter_client ctx_done om stubOrderStatus now p w in
  (r = Ret tt \/ exists e, r = Fail e) /\ same_but_order_fields w w'.
Proof.
  intros [Hlt Hreg] [o Ho].
  unfold checkOrderStatus. cbv [mbind M_bind load_order]. rewrite Ho.
  destruct (String.eqb (ao_Exchange o) "binance" || String.eqb (ao_Exchange o) "lighter").
  2:{ split; [right; eexists; reflexivity|]. apply same_but_refl. }
  cbv [stubOrderStatus].
  destruct (negb (String.eqb "PENDING" (Status o)) || negb (Qeq_bool 0 (FilledSize o))).
  2:{ split; [left; reflexivity|]. apply same_but_refl. }
  unfold UpdateOrderStatus.
  destruct (activeOrders w !! ID o) as [q|] eqn:Eq.
  - destruct (Hreg _ _ Eq) as [o' Ho']. rewrite Ho'. simpl.
    split; [left; reflexivity|].
    repeat split; try reflexivity; intros H;
      [apply (is_Some_insert_allocated (orderHeap w) q) in H
      | apply (is_Some_insert_allocated (orderHeap w) q)]; eauto.
  - simpl. split; [left; reflexivity|]. apply same_but_refl.
Qed.

Lemma check_each_stub (lighter_client : LighterCall -> option Z) (ctx_done : Z -> option string) (om : OrderMonitor)
    (now : GoTime) (ps : list loc) (w : World) :
  orders_wf w -> Forall (fun p => is_Some (orderHeap w !! p)) ps ->
  let '(r, w') := check_each lighter_client ctx_done om stubOrderStatus now ps w in
  r = Ret tt /\ same_but_order_fields w w'.
Proof.
  revert w. induction ps as [|p ps IH]; intros w Hwf Hall.
  - split; [reflexivity|]. apply same_but_refl.
  - inversion Hall as [|x l Hp Hrest]; subst. simpl.
    cbv [mbind M_bind catch].
    pose proof (checkOrderStatus_stub lighter_client ctx_done om now p w Hwf Hp) as Hc.
    destruct (checkOrderStatus lighter_client ctx_done om stubOrderStatus now p w) as [r1 w1].
    cbv beta iota in Hc. destruct Hc as [Hr1 Hs1].
    assert (Hwf1 : orders_wf w1) by exact (same_but_wf w w1 Hs1 Hwf).
    assert (Hrest1 : Forall (fun p => is_Some (orderHeap w1 !! p)) ps).
    { eapply Forall_impl; [exact Hrest|]. intros q Hq. apply Hs1. exact Hq. }
    assert (Hstep : forall w2, same_but_order_fields w1 w2 -> same_but_order_fields w w2)
      by (intros w2; apply same_but_trans; exact Hs1).
    destruct Hr1 as [->|[e ->]]; cbv beta iota delta [mret M_ret];
      (pose proof (IH w1 Hwf1 Hrest1) as Hi;
       destruct (check_each lighter_client ctx_done om stubOrderStatus now ps w1) as [r2 w2];
       cbv beta iota in Hi; destruct Hi as [-> Hs2]; split; [reflexivity | exact (Hstep w2 Hs2)]).
Qed.

Lemma registered_allocated (w : World) :
  orders_wf w -> Forall (fun p => is_Some (orderHeap w !! p)) (map snd (map_to_list (activeOrders w))).
Proof.
  intros [_ Hreg]. apply Forall_forall. intros p Hin.
  apply list_elem_of_In, in_map_iff in Hin as [[id q] [Hq Hin]]. simpl in Hq. subst q.
  apply list_elem_of_In, elem_of_map_to_list in Hin. exact (Hreg id p Hin).
Qed.

Lemma checkActiveOrders_stub (lighter_client : LighterCall -> option Z) (ctx_done : Z -> option string) (om : OrderMonitor)
    (now : GoTime) (w : World) :
  orders_wf w ->
  let '(r, w') := checkActiveOrders lighter_client ctx_done om stubOrderStatus now w in
  r = Ret tt /\ same_but_order_fields w w'.
Proof.
  intros Hwf. unfold checkActiveOrders. cbv [mbind M_bind gets].
  exact (check_each_stub lighter_client ctx_done om now _ w Hwf (registered_allocated w Hwf)).
Qed.

(** X8: With the source's placeholder status queries, a pass of [checkActiveOrders]
    succeeds and changes neither the registry, the ledger nor any venue or hedge
    log. *)
Theorem checkActiveOrders_stub_places_nothing (lighter_client : LighterCall -> option Z) (ctx_done : Z -> option string)
    (om : OrderMonitor) (now : GoTime) (w : World) :
  orders_wf w ->
  let '(r, w') := checkActiveOrders lighter_client ctx_done om stubOrderStatus now w in
  r = Ret tt /\ orders_wf w' /\ activeOrders w' = activeOrders w /\ ledger w' = ledger w /\
  binanceLog w' = binanceLog w /\ lighterLog w' = lighterLog w /\ hedgeLog w' = hedgeLog w.
Proof.
  intros Hwf. pose proof (checkActiveOrders_stub lighter_client ctx_done om now w Hwf) as H.
  destruct (checkActiveOrders lighter_client ctx_done om stubOrderStatus now w) as [r w'].
  cbv beta iota in H. destruct H as [Hr Hs]. pose proof (same_but_wf w w' Hs Hwf) as Hwf'.
  destruct Hs as (A & B & C & D & E & F & G).
  split; [exact Hr|]. split; [exact Hwf'|]. repeat split; assumption.
Qed.

(** X9: With the placeholder status queries, once an order is registered it stays
    registered after [checkActiveOrders], so [canStartNewTrade] answers false. *)
Theorem registered_order_blocks_new_trades (lighter_client : LighterCall -> option Z) (ctx_done : Z -> option string)
    (om : OrderMonitor) (now : GoTime) (w : World) (tradingInterval maxDailyTrades : Z)
    (lastTradeTime now' : GoTime) (st : TradingStats) :
  orders_wf w -> activeOrders w <> ∅ ->
  canStartNewTrade tradingInterval maxDailyTrades lastTradeTime now'
    (activeOrders (snd (checkActiveOrders lighter_client ctx_done om stubOrderStatus now w))) st = false.
Proof.
  intros Hwf Hne. pose proof (checkActiveOrders_stub lighter_client ctx_done om now w Hwf) as H.
  destruct (checkActiveOrders lighter_client ctx_done om stubOrderStatus now w) as [r w'].
  cbv beta iota in H. destruct H as [_ (_ & Hao & _)]. simpl. rewrite Hao.
  unfold canStartNewTrade.
  destruct (negb (IsZero lastTradeTime) && _); [reflexivity|].
  replace (0 <? Z.of_nat (size (activeOrders w)))%Z with true; [reflexivity|].
  symmetry. apply Z.ltb_lt. destruct (size (activeOrders w)) eqn:Es; [|lia].
  exfalso. apply Hne. apply map_size_empty_iff. exact Es.
Qed.

(** X10: [executeHedgeTrade] always succeeds with one hedge on the other venue for
    the order's symbol and full size; its side is the opposite one for the supported
    pairs and empty otherwise. *)
Theorem executeHedgeTrade_other_venue (order : ActiveOrder) (w : World) :
  exists side,
    executeHedgeTrade order w =
      (Ret tt, log_hedge w (mkHedgeCall (hedge_venue (ao_Exchange order)) (ao_Symbol order)
                              side (ao_Size order))) /\
    (side = "" \/ (side = "BUY" /\ Side order = "SELL") \/ (side = "SELL" /\ Side order = "BUY")) /\
    (ao_Exchange order = "binance" ->
       side = "" <-> ~ ((ao_Symbol order = "BTC" /\ Side order = "SELL") \/
                        (ao_Symbol order = "ETH" /\ Side order = "BUY"))) /\
    (ao_Exchange order <> "binance" ->
       side = "" <-> ~ ((ao_Symbol order = "BTC" /\ Side order = "BUY") \/
                        (ao_Symbol order = "ETH" /\ Side order = "SELL"))).
Proof.
  unfold executeHedgeTrade, hedge_venue.
  destruct (String.eqb_spec (ao_Exchange order) "binance") as [Hx|Hx]; simpl.
  - destruct (String.eqb_spec (ao_Symbol order) "BTC") as [Hs|Hs];
      destruct (String.eqb_spec (Side order) "SELL") as [Hd|Hd];
      destruct (String.eqb_spec (ao_Symbol order) "ETH") as [Hs'|Hs'];
      destruct (String.eqb_spec (Side order) "BUY") as [Hd'|Hd']; simpl;
      eexists; (split; [reflexivity|]);
      (split; [ intuition congruence | split; [intros _; split; intros H; intuition congruence
                                             | intros H; congruence]]).
  - destruct (String.eqb_spec (ao_Symbol order) "BTC") as [Hs|Hs];
      destruct (String.eqb_spec (Side order) "BUY") as [Hd|Hd];
      destruct (String.eqb_spec (ao_Symbol order) "ETH") as [Hs'|Hs'];
      destruct (String.eqb_spec (Side order) "SELL") as [Hd'|Hd']; simpl;
      eexists; (split; [reflexivity|]);
      (split; [ intuition congruence | split; [intros H; congruence
                                             | intros _; split; intros H; intuition congruence]]).
Qed.

Lemma executeHedgeTrade_logs (order : ActiveOrder) (w : World) :
  exists side,
    executeHedgeTrade order w =
      (Ret tt, log_hedge w (mkHedgeCall (hedge_venue (ao_Exchange order)) (ao_Symbol order)
                              side (ao_Size order))).
Proof.
  unfold executeHedgeTrade, hedge_venue.
  destruct (String.eqb (ao_Exchange order) "binance"); simpl; eexists; reflexivity.
Qed.

(** X11: Without fast execution, an order seen FILLED is unregistered and hedged
    once for its full requested size, whatever was already filled, and no venue
    order or ledger change is made. *)
Theorem checkOrderStatus_filled_hedges_full_size (lighter_client : LighterCall -> option Z) (ctx_done : Z -> option string)
    (query : ActiveOrder -> option (string * Q)) (now : GoTime) (p : loc) (o : ActiveOrder)
    (filled : Q) (w : World) :
  orderHeap w !! p = Some o -> activeOrders w !! ID o = Some p ->
  (ao_Exchange o = "binance" \/ ao_Exchange o = "lighter") ->
  Status o <> "FILLED" -> query o = Some ("FILLED", filled) ->
  let '(r, w') := checkOrderStatus lighter_client ctx_done (mkOrderMonitor None) query now p w in
  r = Ret tt /\ activeOrders w' = delete (ID o) (activeOrders w) /\
  (exists side, hedgeLog w' = hedgeLog w ++ [mkHedgeCall (hedge_venue (ao_Exchange o))
                                                (ao_Symbol o) side (ao_Size o)])%list /\
  binanceLog w' = binanceLog w /\ lighterLog w' = lighterLog w /\ ledger w' = ledger w.
Proof.
  intros Ho Ha Hx Hs Hq.
  unfold checkOrderStatus. cbv [mbind M_bind load_order]. rewrite Ho.
  replace (String.eqb (ao_Exchange o) "binance" || String.eqb (ao_Exchange o) "lighter")
    with true by (destruct Hx as [-> | ->]; reflexivity).
  rewrite Hq.
  replace (negb (String.eqb "FILLED" (Status o)) || negb (Qeq_bool filled (FilledSize o)))
    with true by (destruct (String.eqb_spec "FILLED" (Status o)); [congruence | reflexivity]).
  rewrite (UpdateOrderStatus_found now (ID o) "FILLED" filled w p o Ha Ho).
  cbv [wrap_err catch handleOrderStatusChange handleOrderFilled load_order].
  simpl. cbv [mbind M_bind]. simpl. rewrite lookup_insert_eq.
  match goal with
  | |- context [executeHedgeTrade ?ord ?w1] =>
      destruct (executeHedgeTrade_logs ord w1) as [side Hside]; rewrite Hside
  end.
  simpl. split; [reflexivity|]. split; [reflexivity|]. split; [|repeat split].
  exists side. reflexivity.
Qed.

(** X12: An order seen CANCELLED is marked CANCELLED in place and unregistered, with
    no hedge, venue call or ledger change. *)
Theorem checkOrderStatus_cancelled_unregisters (lighter_client : LighterCall -> option Z) (ctx_done : Z -> option string)
    (om : OrderMonitor) (query : ActiveOrder -> option (string * Q)) (now : GoTime) (p : loc)
    (o : ActiveOrder) (filled : Q) (w : World) :
  orderHeap w !! p = Some o -> activeOrders w !! ID o = Some p ->
  (ao_Exchange o = "binance" \/ ao_Exchange o = "lighter") ->
  Status o <> "CANCELLED" -> query o = Some ("CANCELLED", filled) ->
  let '(r, w') := checkOrderStatus lighter_client ctx_done om query now p w in
  r = Ret tt /\ activeOrders w' = delete (ID o) (activeOrders w) /\
  option_map Status (orderHeap w' !! p) = Some "CANCELLED" /\
  hedgeLog w' = hedgeLog w /\ binanceLog w' = binanceLog w /\ lighterLog w' = lighterLog w /\
  ledger w' = ledger w.
Proof.
  intros Ho Ha Hx Hs Hq.
  unfold checkOrderStatus. cbv [mbind M_bind load_order]. rewrite Ho.
  replace (String.eqb (ao_Exchange o) "binance" || String.eqb (ao_Exchange o) "lighter")
    with true by (destruct Hx as [-> | ->]; reflexivity).
  rewrite Hq.
  replace (negb (String.eqb "CANCELLED" (Status o)) || negb (Qeq_bool filled (FilledSize o)))
    with true by (destruct (String.eqb_spec "CANCELLED" (Status o)); [congruence | reflexivity]).
  rewrite (UpdateOrderStatus_found now (ID o) "CANCELLED" filled w p o Ha Ho).
  cbv [wrap_err catch handleOrderStatusChange handleOrderCancelled load_order RemoveOrder modify].
  simpl. cbv [mbind M_bind]. simpl. rewrite lookup_insert_eq. simpl.
  split; [reflexivity|]. split; [apply delete_delete_eq|].
  rewrite lookup_insert_eq. repeat split.
Qed.

Lemma set_ledger_id (w : World) : set_ledger w (ledger w) = w.
Proof. destruct w; reflexivity. Qed.

Lemma ensurePosition_run (l : loc) (s : string) (w : World) (ep : ExchangePositions) :
  ledger w !! l = Some ep ->
  exists pos ep1,
    ensurePosition l s w = (Ret pos, set_ledger w (<[l := ep1]> (ledger w))) /\
    Positions ep1 !! s = Some pos /\
    (forall s', s' <> s -> Positions ep1 !! s' = Positions ep !! s') /\
    Exchange ep1 = Exchange ep /\ ep_Leverage ep1 = ep_Leverage ep /\
    UpdatedAt ep1 = UpdatedAt ep /\
    (Positions ep !! s = Some pos \/
     (Positions ep !! s = None /\ pos = mkPosition s 0 0 0)).
Proof.
  intros Hl. unfold ensurePosition. cbv [mbind M_bind load_positions]. rewrite Hl.
  destruct (Positions ep !! s) as [pos|] eqn:Hs.
  - exists pos, ep. rewrite insert_id by exact Hl. rewrite set_ledger_id.
    repeat split; auto.
  - exists (mkPosition s 0 0 0), (with_positions ep (<[s := mkPosition s 0 0 0]> (Positions ep))).
    split; [reflexivity|]. cbn [with_positions Positions Exchange ep_Leverage UpdatedAt].
    split; [apply lookup_insert_eq|]. split.
    + intros s' Hne. apply lookup_insert_ne. congruence.
    + repeat split; auto.
Qed.

Lemma ensurePosition_size (l : loc) (s : string) (w : World) (ep : ExchangePositions) :
  ledger w !! l = Some ep ->
  exists pos ep1,
    ensurePosition l s w = (Ret pos, set_ledger w (<[l := ep1]> (ledger w))) /\
    Size pos = size_of ep s /\ (forall s', size_of ep1 s' = size_of ep s').
Proof.
  intros Hl. destruct (ensurePosition_run l s w ep Hl)
    as (pos & ep1 & Hrun & H1 & H2 & _ & _ & _ & H3).
  exists pos, ep1. split; [exact Hrun|]. unfold size_of. split.
  - destruct H3 as [H3 | [H3 ->]]; rewrite H3; reflexivity.
  - intros s'. destruct (String.eqb_spec s' s) as [->|Hne].
    + rewrite H1. destruct H3 as [H3 | [H3 ->]]; rewrite H3; reflexivity.
    + rewrite H2 by exact Hne. reflexivity.
Qed.

Lemma forallb_perm {A} (f : A -> bool) (l1 l2 : list A) :
  l1 ≡ₚ l2 -> forallb f l1 = forallb f l2.
Proof.
  induction 1; simpl; try congruence.
  rewrite !andb_assoc, (andb_comm (f y)). reflexivity.
Qed.

Lemma sizes_all_zero_insert_zero (m : gmap string Position) (s : string) (pos : Position) :
  m !! s = None -> Size pos = 0 -> sizes_all_zero (<[s := pos]> m) = sizes_all_zero m.
Proof.
  intros Hn Hz. unfold sizes_all_zero.
  rewrite (forallb_perm _ _ _ (map_to_list_insert m s pos Hn)). simpl.
  rewrite Hz. reflexivity.
Qed.

(** X13: [ensurePosition] returns the symbol's position, inserting an empty one into
    the shared map when missing; it changes no other symbol or ledger entry, keeps
    the map's all-zero status, and a second call is a no-op. *)
Theorem ensurePosition_fills_missing_symbol (l : loc) (s : string) (w : World)
    (ep : ExchangePositions) :
  ledger w !! l = Some ep ->
  let '(r, w1) := ensurePosition l s w in
  exists pos, r = Ret pos /\
    (Positions ep !! s = Some pos \/
     (Positions ep !! s = None /\ pos = mkPosition s 0 0 0)) /\
    (forall s', option_map (fun ep' => Positions ep' !! s') (ledger w1 !! l) =
                Some (if String.eqb s' s then Some pos else Positions ep !! s')) /\
    (forall q, q <> l -> ledger w1 !! q = ledger w !! q) /\
    orderHeap w1 = orderHeap w /\ activeOrders w1 = activeOrders w /\
    binanceLog w1 = binanceLog w /\ lighterLog w1 = lighterLog w /\ hedgeLog w1 = hedgeLog w /\
    option_map (fun ep' => sizes_all_zero (Positions ep')) (ledger w1 !! l) =
      Some (sizes_all_zero (Positions ep)) /\
    ensurePosition l s w1 = (Ret pos, w1).
Proof.
  intros Hl. destruct (ensurePosition_run l s w ep Hl)
    as (pos & ep1 & Hrun & H1 & H2 & _ & _ & _ & H3).
  rewrite Hrun. exists pos. cbn [set_ledger ledger orderHeap activeOrders binanceLog
    lighterLog hedgeLog]. rewrite lookup_insert_eq. cbn [option_map].
  split; [reflexivity|]. split; [exact H3|]. split.
  { intros s'. destruct (String.eqb_spec s' s) as [->|Hne].
    - rewrite H1. reflexivity.
    - rewrite H2 by exact Hne. reflexivity. }
  split. { intros q Hq. apply lookup_insert_ne. congruence. }
  do 5 (split; [reflexivity|]). split.
  - f_equal. destruct H3 as [H3 | [H3 Hp]].
    + assert (Heq : Positions ep1 = Positions ep).
      { apply map_eq. intros s'. destruct (String.eqb_spec s' s) as [->|Hne].
        - rewrite H1, H3. reflexivity.
        - apply H2. exact Hne. }
      rewrite Heq. reflexivity.
    + assert (Heq : Positions ep1 = <[s := pos]> (Positions ep)).
      { apply map_eq. intros s'. destruct (String.eqb_spec s' s) as [->|Hne].
        - rewrite H1, lookup_insert_eq. reflexivity.
        - rewrite lookup_insert_ne by congruence. apply H2. exact Hne. }
      rewrite Heq. apply sizes_all_zero_insert_zero; [exact H3|]. rewrite Hp. reflexivity.
  - unfold ensurePosition. cbv [mbind M_bind load_positions].
    cbn [set_ledger ledger]. rewrite lookup_insert_eq, H1. reflexivity.
Qed.

Lemma ExecuteClosingLogic_run binance_client cfg pm now w bp lp :
  ledger w !! binancePositions pm = Some bp -> ledger w !! lighterPositions pm = Some lp ->
  closing_allPositionsZero bp lp = false ->
  let btcAbs := Qabs (size_of bp "BTC") in
  let ethAbs := Qabs (size_of bp "ETH") in
  let symbol := if Qle_bool ethAbs btcAbs then "BTC" else "ETH" in
  let side := if Qle_bool ethAbs btcAbs
              then (if Qlt_bool (size_of bp "BTC") 0 then "BUY" else "SELL")
              else (if Qlt_bool 0 (size_of bp "ETH") then "SELL" else "BUY") in
  let closeSize := go_min (go_abs (if Qle_bool ethAbs btcAbs then btcAbs else ethAbs))
                          (OrderSize cfg) in
  let c := if Qle_bool ethAbs btcAbs
           then (if Qlt_bool (size_of bp "BTC") 0 then PlaceETHLong closeSize (SpreadPercent cfg)
                 else PlaceBTCShort closeSize (SpreadPercent cfg))
           else (if Qlt_bool 0 (size_of bp "ETH") then PlaceBTCShort closeSize (SpreadPercent cfg)
                 else PlaceETHLong closeSize (SpreadPercent cfg)) in
  binance_call_amount c = closeSize /\
  exists ledger1,
    (forall s, option_map (fun ep => size_of ep s) (ledger1 !! binancePositions pm) =
               Some (size_of bp s)) /\
    (forall q, q <> binancePositions pm -> ledger1 !! q = ledger w !! q) /\
    ExecuteClosingLogic binance_client cfg pm now w =
      match binance_client c with
      | Some id =>
          (Ret tt, mkWorld ledger1
             (<[nextLoc w := mkActiveOrder (pretty id) "binance" symbol side closeSize 0
                               "PENDING" 0 now now]> (orderHeap w))
             (<[pretty id := nextLoc w]> (activeOrders w)) (Pos.succ (nextLoc w))
             (binanceLog w ++ [c]) (lighterLog w) (hedgeLog w))
      | None =>
          (Fail "failed to place Binance closing order: binance client error",
           mkWorld ledger1 (orderHeap w) (activeOrders w) (nextLoc w)
             (binanceLog w ++ [c]) (lighterLog w) (hedgeLog w))
      end.
Proof.
  intros Hb Hlp Hnz.
  destruct (ensurePosition_size (binancePositions pm) "BTC" w bp Hb)
    as (btc & ep1 & Hrun1 & Hs1 & Hsz1).
  set (w1 := set_ledger w (<[binancePositions pm := ep1]> (ledger w))) in *.
  assert (Hb1 : ledger w1 !! binancePositions pm = Some ep1)
    by (cbn [w1 set_ledger ledger]; apply lookup_insert_eq).
  destruct (ensurePosition_size (binancePositions pm) "ETH" w1 ep1 Hb1)
    as (eth & ep2 & Hrun2 & Hs2 & Hsz2).
  rewrite Hsz1 in Hs2.
  cbv zeta. unfold go_abs.
  set (closeSize := go_min _ (OrderSize cfg)).
  split.
  { destruct (Qle_bool _ _); [destruct (Qlt_bool (size_of bp "BTC") 0)|
                               destruct (Qlt_bool 0 (size_of bp "ETH"))]; reflexivity. }
  exists (<[binancePositions pm := ep2]> (ledger w)).
  split.
  { intros s. rewrite lookup_insert_eq. cbn [option_map]. rewrite Hsz2, Hsz1. reflexivity. }
  split.
  { intros q Hq. apply lookup_insert_ne. congruence. }
  unfold ExecuteClosingLogic, GetBinancePositions, GetLighterPositions.
  cbv [mbind M_bind load_positions]. rewrite Hb, Hlp, Hnz.
  rewrite Hrun1. fold w1. rewrite Hrun2.
  rewrite Hs1, Hs2. unfold go_abs.
  cbn [set_ledger ledger orderHeap activeOrders nextLoc binanceLog lighterLog hedgeLog w1].
  rewrite insert_insert_eq.
  unfold closeSize.
  destruct (Qle_bool (Qabs (size_of bp "ETH")) (Qabs (size_of bp "BTC")));
  [destruct (Qlt_bool (size_of bp "BTC") 0) | destruct (Qlt_bool 0 (size_of bp "ETH"))];
  cbn -[go_min go_abs Qabs pretty];
  unfold executeClosingSequence, placeBinanceClosingOrder, wrap_err, catch, call_binance,
    AddOrder;
  cbv [mbind M_bind mret M_ret]; cbn -[go_min go_abs Qabs pretty];
  destruct (binance_client _); reflexivity.
Qed.

Lemma go_min_compat (a a' b : Q) : a == a' -> go_min a b == go_min a' b.
Proof.
  intros H. unfold go_min. rewrite (Qlt_bool_compat a a' b b) by (auto; reflexivity).
  destruct (Qlt_bool a' b); [exact H | reflexivity].
Qed.

Lemma go_min_le_r (a b : Q) : go_min a b <= b.
Proof.
  unfold go_min. destruct (Qlt_bool a b) eqn:E.
  - apply Qlt_le_weak. apply Qlt_bool_iff. exact E.
  - apply Qle_refl.
Qed.

Lemma Qabs_Qabs (x : Q) : Qabs (Qabs x) == Qabs x.
Proof. apply Qabs_pos, Qabs_nonneg. Qed.

Lemma chosen_abs_max (btc eth : Q) :
  Qabs (if Qle_bool (Qabs eth) (Qabs btc) then Qabs btc else Qabs eth) ==
  Qmax (Qabs btc) (Qabs eth).
Proof.
  destruct (Qle_bool (Qabs eth) (Qabs btc)) eqn:E; rewrite !Qabs_Qabs.
  - apply Qle_bool_iff in E. rewrite Q.max_l by exact E. reflexivity.
  - assert (Hlt : Qabs btc < Qabs eth).
    { apply Qnot_le_lt. intros H. apply Qle_bool_iff in H. congruence. }
    rewrite Q.max_r by (apply Qlt_le_weak; exact Hlt). reflexivity.
Qed.

(** X14: When both venues' positions are all zero, [ExecuteClosingLogic] succeeds
    without changing anything. *)
Theorem ExecuteClosingLogic_flat_book_noop binance_client cfg pm now w bp lp :
  ledger w !! binancePositions pm = Some bp -> ledger w !! lighterPositions pm = Some lp ->
  closing_allPositionsZero bp lp = true ->
  ExecuteClosingLogic binance_client cfg pm now w = (Ret tt, w).
Proof.
  intros Hb Hl Hz. unfold ExecuteClosingLogic, GetBinancePositions, GetLighterPositions.
  cbv [mbind M_bind load_positions]. rewrite Hb, Hl, Hz. reflexivity.
Qed.

(** X15: Otherwise, with an accepting Binance client, it sends exactly one Binance
    order and registers one PENDING order at a fresh address, for BTC when |ETH| <=
    |BTC| and ETH otherwise, on the side that reduces that position, of size
    min(max(|BTC|,|ETH|), OrderSize), never above OrderSize.  The call sent has
    the registered side and size, but is a BTC sell for a SELL and an ETH buy for
    a BUY, whatever the registered symbol. *)
Theorem ExecuteClosingLogic_places_one_capped_order binance_client cfg pm now w bp lp :
  ledger w !! binancePositions pm = Some bp -> ledger w !! lighterPositions pm = Some lp ->
  closing_allPositionsZero bp lp = false ->
  (forall c, is_Some (binance_client c)) ->
  let '(r, w') := ExecuteClosingLogic binance_client cfg pm now w in
  r = Ret tt /\
  exists c o,
    binanceLog w' = (binanceLog w ++ [c])%list /\
    lighterLog w' = lighterLog w /\ hedgeLog w' = hedgeLog w /\
    nextLoc w' = Pos.succ (nextLoc w) /\
    orderHeap w' !! nextLoc w = Some o /\
    activeOrders w' !! ID o = Some (nextLoc w) /\
    (forall id, id <> ID o -> activeOrders w' !! id = activeOrders w !! id) /\
    ao_Exchange o = "binance" /\ Status o = "PENDING" /\
    ao_Symbol o = (if Qle_bool (Qabs (size_of bp "ETH")) (Qabs (size_of bp "BTC"))
                   then "BTC" else "ETH") /\
    ao_Size o = binance_call_amount c /\
    ao_Size o == go_min (Qmax (Qabs (size_of bp "BTC")) (Qabs (size_of bp "ETH")))
                        (OrderSize cfg) /\
    ao_Size o <= OrderSize cfg /\
    Side o = (if Qle_bool (Qabs (size_of bp "ETH")) (Qabs (size_of bp "BTC"))
              then (if Qlt_bool (size_of bp "BTC") 0 then "BUY" else "SELL")
              else (if Qlt_bool 0 (size_of bp "ETH") then "SELL" else "BUY")) /\
    binance_call_side c = Side o /\
    binance_call_symbol c = (if String.eqb (Side o) "SELL" then "BTC" else "ETH").
Proof.
  intros Hb Hl Hnz Hacc.
  destruct (ExecuteClosingLogic_run binance_client cfg pm now w bp lp Hb Hl Hnz)
    as (Hamt & ledger1 & _ & _ & Hrun).
  set (c := if Qle_bool _ _ then _ else _) in Hamt, Hrun.
  rewrite Hrun. destruct (Hacc c) as [id Hid]. rewrite Hid.
  split; [reflexivity|].
  eexists c, _. cbn [binanceLog lighterLog hedgeLog nextLoc orderHeap activeOrders].
  split; [reflexivity|]. split; [reflexivity|]. split; [reflexivity|].
  split; [reflexivity|]. split; [apply lookup_insert_eq|].
  cbn [ID ao_Exchange Status ao_Symbol ao_Size].
  split; [apply lookup_insert_eq|].
  split. { intros id' Hne. apply lookup_insert_ne. congruence. }
  split; [reflexivity|]. split; [reflexivity|].
  split; [reflexivity|]. split; [symmetry; exact Hamt|].
  split.
  { unfold go_abs. apply go_min_compat. apply chosen_abs_max. }
  split; [apply go_min_le_r|].
  split; [reflexivity|].
  unfold c. cbn [Side].
  destruct (Qle_bool _ _); [destruct (Qlt_bool (size_of bp "BTC") 0)|
                             destruct (Qlt_bool 0 (size_of bp "ETH"))];
    split; reflexivity.
Qed.

(** X16: When the Binance client rejects the order, [ExecuteClosingLogic] returns
    the wrapped client error, registers nothing, and leaves the Binance sizes as
    they were. *)
Theorem ExecuteClosingLogic_rejected_order_not_registered binance_client cfg pm now w bp lp :
  ledger w !! binancePositions pm = Some bp -> ledger w !! lighterPositions pm = Some lp ->
  closing_allPositionsZero bp lp = false ->
  (forall c, binance_client c = None) ->
  let '(r, w') := ExecuteClosingLogic binance_client cfg pm now w in
  r = Fail "failed to place Binance closing order: binance client error" /\
  orderHeap w' = orderHeap w /\ activeOrders w' = activeOrders w /\ nextLoc w' = nextLoc w /\
  (exists c, binanceLog w' = (binanceLog w ++ [c])%list) /\
  lighterLog w' = lighterLog w /\ hedgeLog w' = hedgeLog w /\
  (forall s, option_map (fun ep => size_of ep s) (ledger w' !! binancePositions pm) =
             Some (size_of bp s)) /\
  (forall q, q <> binancePositions pm -> ledger w' !! q = ledger w !! q).
Proof.
  intros Hb Hl Hnz Hrej.
  destruct (ExecuteClosingLogic_run binance_client cfg pm now w bp lp Hb Hl Hnz)
    as (_ & ledger1 & Hsz & Hother & Hrun).
  set (c := if Qle_bool _ _ then _ else _) in Hrun.
  rewrite Hrun, Hrej. cbn [orderHeap activeOrders nextLoc binanceLog lighterLog hedgeLog ledger].
  repeat split; auto. exists c. reflexivity.
Qed.

(** X17: When Binance is flat but Lighter is not, [ExecuteClosingLogic] still sends
    a BTC sell of size 0 to Binance and, if accepted, registers it. *)
Theorem ExecuteClosingLogic_flat_binance_sends_zero_btc_sell binance_client cfg pm now w bp lp :
  ledger w !! binancePositions pm = Some bp -> ledger w !! lighterPositions pm = Some lp ->
  size_of bp "BTC" == 0 -> size_of bp "ETH" == 0 -> 0 <= OrderSize cfg ->
  sizes_all_zero (Positions lp) = false ->
  exists sz,
    sz == 0 /\
    binanceLog (snd (ExecuteClosingLogic binance_client cfg pm now w)) =
      (binanceLog w ++ [PlaceBTCShort sz (SpreadPercent cfg)])%list /\
    (forall id, binance_client (PlaceBTCShort sz (SpreadPercent cfg)) = Some id ->
       fst (ExecuteClosingLogic binance_client cfg pm now w) = Ret tt /\
       orderHeap (snd (ExecuteClosingLogic binance_client cfg pm now w)) !! nextLoc w =
         Some (mkActiveOrder (pretty id) "binance" "BTC" "SELL" sz 0 "PENDING" 0 now now) /\
       activeOrders (snd (ExecuteClosingLogic binance_client cfg pm now w)) !! pretty id =
         Some (nextLoc w) /\
       (forall id', id' <> pretty id ->
          activeOrders (snd (ExecuteClosingLogic binance_client cfg pm now w)) !! id' =
            activeOrders w !! id')).
Proof.
  intros Hb Hl Hbtc Heth Hos Hlnz.
  assert (Hnz : closing_allPositionsZero bp lp = false)
    by (unfold closing_allPositionsZero; rewrite Hlnz; apply andb_false_r).
  destruct (ExecuteClosingLogic_run binance_client cfg pm now w bp lp Hb Hl Hnz)
    as (_ & ledger1 & _ & _ & Hrun).
  revert Hrun. cbv zeta.
  assert (Hle : Qle_bool (Qabs (size_of bp "ETH")) (Qabs (size_of bp "BTC")) = true).
  { apply Qle_bool_iff. rewrite Hbtc, Heth. apply Qle_refl. }
  assert (Hlt : Qlt_bool (size_of bp "BTC") 0 = false).
  { rewrite (Qlt_bool_compat _ 0 0 0) by (auto; reflexivity). reflexivity. }
  rewrite Hle, Hlt. intros Hrun.
  set (sz := go_min (go_abs (Qabs (size_of bp "BTC"))) (OrderSize cfg)) in *.
  assert (Hsz : sz == 0).
  { assert (H0 : Qabs (Qabs (size_of bp "BTC")) == 0) by (rewrite Qabs_Qabs, Hbtc; reflexivity).
    unfold sz, go_min, go_abs.
    rewrite (Qlt_bool_compat _ 0 (OrderSize cfg) (OrderSize cfg)) by (auto; reflexivity).
    destruct (Qlt_bool 0 (OrderSize cfg)) eqn:E; [exact H0|].
    apply Qle_antisym; [|exact Hos]. apply Qnot_lt_le. intros H.
    apply Qlt_bool_iff in H. congruence. }
  exists sz. split; [exact Hsz|]. rewrite Hrun.
  split.
  - destruct (binance_client _); reflexivity.
  - intros id Hid. rewrite Hid. cbn [fst snd orderHeap activeOrders].
    split; [reflexivity|]. split; [apply lookup_insert_eq|].
    split; [apply lookup_insert_eq|].
    intros id' Hne. apply lookup_insert_ne. congruence.
Qed.

Lemma checkSymbolBalance_side (hb : HedgeBalancer) (symbol : string)
    (lp bp : ExchangePositions) :
  let i := checkSymbolBalance hb symbol lp bp in
  pi_Symbol i = symbol /\
  (NeedsAdjustment i = true ->
   AdjustmentSide i =
     if binance_smaller i then
       (if String.eqb symbol "BTC" then "BINANCE_INCREASE_SHORT" else "BINANCE_INCREASE_LONG")
     else
       (if String.eqb symbol "BTC" then "LIGHTER_INCREASE_LONG" else "LIGHTER_INCREASE_SHORT")).
Proof.
  unfold checkSymbolBalance, binance_smaller. cbv zeta.
  destruct (_ && _); cbn [pi_Symbol NeedsAdjustment AdjustmentSide BinancePosition LighterPosition];
    (split; [reflexivity|]); [reflexivity | discriminate].
Qed.

Lemma adjustSymbolBalance_checked binance_client lighter_client config hb symbol lp bp w :
  (symbol = "BTC" \/ symbol = "ETH") ->
  let i := checkSymbolBalance hb symbol lp bp in
  NeedsAdjustment i = true ->
  (forall c, is_Some (binance_client c)) -> (forall c, is_Some (lighter_client c)) ->
  adjustSymbolBalance binance_client lighter_client config i w =
    (Ret tt,
     if binance_smaller i then
       log_binance w (if String.eqb symbol "BTC"
                      then PlaceBTCShort (AdjustmentAmount i) (SpreadPercent config)
                      else PlaceETHLong (AdjustmentAmount i) (SpreadPercent config))
     else
       log_lighter w (if String.eqb symbol "BTC"
                      then PlaceBTCLong (go_int64 (AdjustmentAmount i)) 3
                      else PlaceETHShort (go_int64 (AdjustmentAmount i)) 3)).
Proof.
  intros Hs i Hn Hb Hl.
  destruct (checkSymbolBalance_side hb symbol lp bp) as [Hsym Hside].
  fold i in Hsym, Hside. specialize (Hside Hn).
  unfold adjustSymbolBalance. rewrite Hside, Hsym.
  destruct Hs as [-> | ->]; destruct (binance_smaller i); cbn -[i];
  unfold increaseBinanceShort, increaseBinanceLong, increaseLighterLong, increaseLighterShort,
    call_binance, call_lighter; cbv [mbind M_bind mret M_ret]; cbn -[i];
  match goal with
  | |- context [binance_client ?c] => destruct (Hb c) as [x Hx]; rewrite Hx
  | |- context [lighter_client ?c] => destruct (Hl c) as [x Hx]; rewrite Hx
  end; reflexivity.
Qed.

Lemma adjust_each_checked binance_client lighter_client config hb lp bp
    (l : list PositionImbalance) (w : World) :
  Forall (checked_by hb lp bp) l ->
  (forall c, is_Some (binance_client c)) -> (forall c, is_Some (lighter_client c)) ->
  adjust_each binance_client lighter_client config l w =
    (Ret tt, mkWorld (ledger w) (orderHeap w) (activeOrders w) (nextLoc w)
       (binanceLog w ++
          map (fun i => if String.eqb (pi_Symbol i) "BTC"
                        then PlaceBTCShort (AdjustmentAmount i) (SpreadPercent config)
                        else PlaceETHLong (AdjustmentAmount i) (SpreadPercent config))
              (List.filter binance_smaller l))
       (lighterLog w ++
          map (fun i => if String.eqb (pi_Symbol i) "BTC"
                        then PlaceBTCLong (go_int64 (AdjustmentAmount i)) 3
                        else PlaceETHShort (go_int64 (AdjustmentAmount i)) 3)
              (List.filter (fun i => negb (binance_smaller i)) l))
       (hedgeLog w)).
Proof.
  intros Hall Hb Hl. revert w. induction Hall as [|i l Hi Hall IH]; intros w.
  - cbn. rewrite !app_nil_r. destruct w; reflexivity.
  - destruct Hi as (s & Hs & -> & Hn).
    destruct (checkSymbolBalance_side hb s lp bp) as [Hsym _].
    cbn [adjust_each]. unfold wrap_err, catch. cbv [mbind M_bind].
    rewrite (adjustSymbolBalance_checked binance_client lighter_client config hb s lp bp w Hs Hn Hb Hl).
    rewrite IH.
    cbn [List.filter]. destruct (binance_smaller (checkSymbolBalance hb s lp bp));
      cbn [map negb]; rewrite Hsym;
      cbn [log_binance log_lighter ledger orderHeap activeOrders nextLoc binanceLog
           lighterLog hedgeLog];
      rewrite <- !app_assoc; reflexivity.
Qed.

Lemma CheckHedgeBalance_run hb pm now w lp bp :
  ledger w !! lighterPositions pm = Some lp -> ledger w !! binancePositions pm = Some bp ->
  CheckHedgeBalance hb pm now w =
    (Ret (add_imbalance (add_imbalance (mkHedgeBalanceStatus true [] 0 now "")
                           (checkSymbolBalance hb "BTC" lp bp))
                        (checkSymbolBalance hb "ETH" lp bp)), w).
Proof.
  intros Hl Hb. unfold CheckHedgeBalance, GetLighterPositions, GetBinancePositions.
  cbv [mbind M_bind load_positions mret M_ret]. rewrite Hl, Hb. reflexivity.
Qed.

(** X18: [CheckHedgeBalance] changes nothing; its imbalances are the BTC then ETH
    results of [checkSymbolBalance] that need adjustment, it is balanced exactly
    when there are none, and the total is the sum of their absolute adjustment
    amounts. *)
Theorem CheckHedgeBalance_collects_imbalances hb pm now w lp bp :
  ledger w !! lighterPositions pm = Some lp -> ledger w !! binancePositions pm = Some bp ->
  exists st,
    CheckHedgeBalance hb pm now w = (Ret st, w) /\
    Imbalances st = List.filter NeedsAdjustment
                      [checkSymbolBalance hb "BTC" lp bp; checkSymbolBalance hb "ETH" lp bp] /\
    (IsBalanced st = true <-> Imbalances st = []) /\
    TotalImbalanceValue st ==
      fold_right (fun i acc => Qabs (AdjustmentAmount i) + acc) 0 (Imbalances st) /\
    CheckedAt st = now.
Proof.
  intros Hl Hb. eexists. split; [apply (CheckHedgeBalance_run hb pm now w lp bp Hl Hb)|].
  unfold add_imbalance. cbn [List.filter].
  destruct (NeedsAdjustment (checkSymbolBalance hb "BTC" lp bp));
  destruct (NeedsAdjustment (checkSymbolBalance hb "ETH" lp bp));
  cbn [Imbalances IsBalanced TotalImbalanceValue CheckedAt fold_right app];
  (split; [reflexivity|]);
  (split; [split; intros H; (reflexivity || discriminate) |]);
  (split; [ring | reflexivity]).
Qed.

Lemma CheckHedgeBalance_checked hb pm now w lp bp st :
  ledger w !! lighterPositions pm = Some lp -> ledger w !! binancePositions pm = Some bp ->
  fst (CheckHedgeBalance hb pm now w) = Ret st ->
  Forall (checked_by hb lp bp) (Imbalances st) /\ (IsBalanced st = true <-> Imbalances st = []).
Proof.
  intros Hl Hb Hst. rewrite (CheckHedgeBalance_run hb pm now w lp bp Hl Hb) in Hst.
  cbn [fst] in Hst. injection Hst as <-. unfold add_imbalance.
  destruct (NeedsAdjustment (checkSymbolBalance hb "BTC" lp bp)) eqn:E1;
  destruct (NeedsAdjustment (checkSymbolBalance hb "ETH" lp bp)) eqn:E2;
  cbn [Imbalances IsBalanced app];
  (split; [|split; intros H; (reflexivity || discriminate)]);
  repeat constructor;
  first [ exists "BTC"; split; [left; reflexivity | split; [reflexivity | exact E1]]
        | exists "ETH"; split; [right; reflexivity | split; [reflexivity | exact E2]] ].
Qed.

(** X19: With accepting clients, adjusting the status [CheckHedgeBalance] returns
    always succeeds: each imbalance gives one order, on Binance when its Binance
    value is the smaller (BTC short or ETH long), else on Lighter (BTC long or ETH
    short). *)
Theorem ExecuteBalanceAdjustment_after_check binance_client lighter_client config hb pm now
    w lp bp st :
  ledger w !! lighterPositions pm = Some lp -> ledger w !! binancePositions pm = Some bp ->
  fst (CheckHedgeBalance hb pm now w) = Ret st ->
  (forall c, is_Some (binance_client c)) -> (forall c, is_Some (lighter_client c)) ->
  ExecuteBalanceAdjustment binance_client lighter_client config st w =
    (Ret tt, mkWorld (ledger w) (orderHeap w) (activeOrders w) (nextLoc w)
       (binanceLog w ++
          map (fun i => if String.eqb (pi_Symbol i) "BTC"
                        then PlaceBTCShort (AdjustmentAmount i) (SpreadPercent config)
                        else PlaceETHLong (AdjustmentAmount i) (SpreadPercent config))
              (List.filter binance_smaller (Imbalances st)))
       (lighterLog w ++
          map (fun i => if String.eqb (pi_Symbol i) "BTC"
                        then PlaceBTCLong (go_int64 (AdjustmentAmount i)) 3
                        else PlaceETHShort (go_int64 (AdjustmentAmount i)) 3)
              (List.filter (fun i => negb (binance_smaller i)) (Imbalances st)))
       (hedgeLog w)).
Proof.
  intros Hl Hb Hst Hbc Hlc.
  destruct (CheckHedgeBalance_checked hb pm now w lp bp st Hl Hb Hst) as [Hall Hbal].
  unfold ExecuteBalanceAdjustment. destruct (IsBalanced st) eqn:E.
  - assert (Hnil : Imbalances st = []) by (apply Hbal; reflexivity).
    rewrite Hnil. cbn. rewrite !app_nil_r. destruct w; reflexivity.
  - apply adjust_each_checked with (hb := hb) (lp := lp) (bp := bp); assumption.
Qed.

Lemma fem_executeLighterHedge_supported lighter_client ctx w :
  (ec_Symbol ctx = "BTC" /\ HedgeSide ctx = "BUY" \/ ec_Symbol ctx = "ETH" /\ HedgeSide ctx = "SELL") ->
  fem_executeLighterHedge lighter_client ctx w =
    match lighter_client (lighter_hedge_call ctx) with
    | Some p => (Ret (inject_Z p), log_lighter w (lighter_hedge_call ctx))
    | None => (Fail (lighter_hedge_error ctx), log_lighter w (lighter_hedge_call ctx))
    end.
Proof.
  intros [[Hs Hd] | [Hs Hd]]; unfold fem_executeLighterHedge, lighter_hedge_call,
    lighter_hedge_error; rewrite Hs, Hd; cbn;
  unfold wrap_err, catch, call_lighter; cbv [mbind M_bind mret M_ret];
  destruct (lighter_client _); reflexivity.
Qed.

Lemma retry_loop_failing lighter_client ctx_done maxAttempts attempt n ctx e w :
  (ec_Symbol ctx = "BTC" /\ HedgeSide ctx = "BUY" \/ ec_Symbol ctx = "ETH" /\ HedgeSide ctx = "SELL") ->
  (forall c, lighter_client c = None) ->
  ((attempt + Z.of_nat n - 1 = maxAttempts)%Z \/ n = O) ->
  (forall k, (attempt <= k < maxAttempts)%Z -> ctx_done k = None) ->
  retry_loop lighter_client ctx_done maxAttempts attempt n ctx e w =
    (Fail ("hedge execution failed after " +:+ pretty maxAttempts +:+ " attempts: " +:+
           match n with O => e | S _ => lighter_hedge_error ctx end),
     mkWorld (ledger w) (orderHeap w) (activeOrders w) (nextLoc w) (binanceLog w)
             (lighterLog w ++ repeat (lighter_hedge_call ctx) n) (hedgeLog w)).
Proof.
  intros Hsup Hfail. revert attempt e w. induction n as [|n IH]; intros attempt e w Hn Hdone.
  - cbn. rewrite app_nil_r. destruct w; reflexivity.
  - cbn [retry_loop]. unfold catch.
    rewrite (fem_executeLighterHedge_supported lighter_client ctx w Hsup), Hfail.
    assert (Hn' : (attempt + 1 + Z.of_nat n - 1 = maxAttempts)%Z \/ n = O)
      by (destruct Hn as [Hn|Hn]; [left; lia | discriminate]).
    assert (Hdone' : forall k, (attempt + 1 <= k < maxAttempts)%Z -> ctx_done k = None)
      by (intros k Hk; apply Hdone; lia).
    destruct (Z.ltb_spec attempt maxAttempts) as [Hlt|Hge].
    + rewrite (Hdone attempt) by lia.
      rewrite (IH (attempt + 1)%Z _ _ Hn' Hdone').
      cbn [log_lighter ledger orderHeap activeOrders nextLoc binanceLog lighterLog hedgeLog].
      rewrite <- app_assoc. destruct n; reflexivity.
    + rewrite (IH (attempt + 1)%Z _ _ Hn' Hdone').
      cbn [log_lighter ledger orderHeap activeOrders nextLoc binanceLog lighterLog hedgeLog].
      rewrite <- app_assoc. destruct n; reflexivity.
Qed.

Lemma retry_loop_cancelled lighter_client ctx_done maxAttempts attempt n ctx e w k err :
  (ec_Symbol ctx = "BTC" /\ HedgeSide ctx = "BUY" \/ ec_Symbol ctx = "ETH" /\ HedgeSide ctx = "SELL") ->
  (forall c, lighter_client c = None) ->
  (attempt + Z.of_nat n - 1 = maxAttempts)%Z ->
  (attempt <= k < maxAttempts)%Z ->
  (forall j, (attempt <= j < k)%Z -> ctx_done j = None) ->
  ctx_done k = Some err ->
  retry_loop lighter_client ctx_done maxAttempts attempt n ctx e w =
    (Fail err,
     mkWorld (ledger w) (orderHeap w) (activeOrders w) (nextLoc w) (binanceLog w)
             (lighterLog w ++ repeat (lighter_hedge_call ctx) (Z.to_nat (k - attempt + 1)))
             (hedgeLog w)).
Proof.
  intros Hsup Hfail. revert attempt e w. induction n as [|n IH]; intros attempt e w Hn Hk Hbefore Hk_done.
  - lia.
  - cbn [retry_loop]. unfold catch.
    rewrite (fem_executeLighterHedge_supported lighter_client ctx w Hsup), Hfail.
    replace (attempt <? maxAttempts)%Z with true by (symmetry; apply Z.ltb_lt; lia).
    destruct (Z.eq_dec attempt k) as [->|Hne].
    + rewrite Hk_done. replace (Z.to_nat (k - k + 1)) with 1%nat by lia. reflexivity.
    + rewrite (Hbefore attempt) by lia.
      rewrite (IH (attempt + 1)%Z) by (lia || (intros j Hj; apply Hbefore; lia) || exact Hk_done).
      cbn [log_lighter ledger orderHeap activeOrders nextLoc binanceLog lighterLog hedgeLog].
      rewrite <- app_assoc.
      replace (Z.to_nat (k - attempt + 1)) with (S (Z.to_nat (k - (attempt + 1) + 1))) by lia.
      reflexivity.
Qed.

(** X20: With a Lighter client that always fails, on a supported pair: if the
    context is not cancelled during the back-off waits, [executeHedgeWithRetry]
    sends the same order MaxRetryAttempts times (none if it is not positive) and
    fails with the attempts error wrapping the last one; if the back-off
    [select] after attempt k takes [ctx.Done()] first, it has sent the order k
    times and returns [ctx.Err()]. *)
Theorem executeHedgeWithRetry_exhausts_attempts lighter_client ctx_done cfg ctx w :
  (ec_Symbol ctx = "BTC" /\ HedgeSide ctx = "BUY" \/ ec_Symbol ctx = "ETH" /\ HedgeSide ctx = "SELL") ->
  (forall c, lighter_client c = None) ->
  ((forall k, (1 <= k < MaxRetryAttempts cfg)%Z -> ctx_done k = None) ->
   executeHedgeWithRetry lighter_client ctx_done cfg ctx w =
     (Fail ("hedge execution failed after " +:+ pretty (MaxRetryAttempts cfg) +:+ " attempts: " +:+
            if Z.ltb 0 (MaxRetryAttempts cfg) then lighter_hedge_error ctx else "%!w(<nil>)"),
      mkWorld (ledger w) (orderHeap w) (activeOrders w) (nextLoc w) (binanceLog w)
              (lighterLog w ++ repeat (lighter_hedge_call ctx) (Z.to_nat (MaxRetryAttempts cfg)))
              (hedgeLog w))) /\
  (forall k err, (1 <= k < MaxRetryAttempts cfg)%Z ->
   (forall j, (1 <= j < k)%Z -> ctx_done j = None) ->
   ctx_done k = Some err ->
   executeHedgeWithRetry lighter_client ctx_done cfg ctx w =
     (Fail err,
      mkWorld (ledger w) (orderHeap w) (activeOrders w) (nextLoc w) (binanceLog w)
              (lighterLog w ++ repeat (lighter_hedge_call ctx) (Z.to_nat k))
              (hedgeLog w))).
Proof.
  intros Hsup Hfail. unfold executeHedgeWithRetry. split.
  - intros Hdone.
    rewrite (retry_loop_failing lighter_client ctx_done _ _ _ ctx _ w Hsup Hfail).
    + destruct (Z.ltb_spec 0 (MaxRetryAttempts cfg)) as [H|H].
      * destruct (Z.to_nat (MaxRetryAttempts cfg)) eqn:E; [lia|reflexivity].
      * rewrite (Z2Nat.nonpos _ H). reflexivity.
    + destruct (Z.ltb_spec 0 (MaxRetryAttempts cfg)) as [H|H]; [left; lia|].
      right. apply Z2Nat.nonpos. exact H.
    + exact Hdone.
  - intros k err Hk Hbefore Hkd.
    rewrite (retry_loop_cancelled lighter_client ctx_done _ _ _ ctx _ w k err Hsup Hfail)
      by (lia || exact Hbefore || exact Hkd).
    replace (Z.to_nat (k - 1 + 1)) with (Z.to_nat k) by lia. reflexivity.
Qed.

Lemma retry_loop_first_success lighter_client ctx_done maxAttempts attempt n ctx e w p :
  (ec_Symbol ctx = "BTC" /\ HedgeSide ctx = "BUY" \/ ec_Symbol ctx = "ETH" /\ HedgeSide ctx = "SELL") ->
  lighter_client (lighter_hedge_call ctx) = Some p ->
  retry_loop lighter_client ctx_done maxAttempts attempt (S n) ctx e w =
    (Ret (inject_Z p), log_lighter w (lighter_hedge_call ctx)).
Proof.
  intros Hsup Hp. cbn [retry_loop]. unfold catch.
  rewrite (fem_executeLighterHedge_supported lighter_client ctx w Hsup), Hp. reflexivity.
Qed.

(** X21: For a Binance BTC sell or ETH buy, [ExecuteFastHedge] with a positive retry
    count and an accepting client sends one Lighter BTC long or ETH short of the
    truncated size at 3x, and returns a successful context with the hedge side and
    the fill price. *)
Theorem ExecuteFastHedge_supported_pair lighter_client ctx_done cfg orderID symbol side size price w p :
  (symbol = "BTC" /\ side = "SELL" \/ symbol = "ETH" /\ side = "BUY") ->
  (0 < MaxRetryAttempts cfg)%Z ->
  lighter_client (if String.eqb symbol "BTC" then PlaceBTCLong (go_int64 size) 3
                  else PlaceETHShort (go_int64 size) 3) = Some p ->
  ExecuteFastHedge lighter_client ctx_done cfg orderID symbol side size price w =
    (Ret (mkExecutionContext orderID symbol side (determineHedgeSide symbol side) size price
            (inject_Z p) true ""),
     log_lighter w (if String.eqb symbol "BTC" then PlaceBTCLong (go_int64 size) 3
                    else PlaceETHShort (go_int64 size) 3)).
Proof.
  intros Hpair Hpos Hp.
  set (ctx := mkExecutionContext orderID symbol side (determineHedgeSide symbol side) size
                price 0 false "").
  assert (Hsup : ec_Symbol ctx = "BTC" /\ HedgeSide ctx = "BUY" \/
                 ec_Symbol ctx = "ETH" /\ HedgeSide ctx = "SELL")
    by (destruct Hpair as [[-> ->] | [-> ->]]; [left|right]; split; reflexivity).
  assert (Hc : lighter_hedge_call ctx =
               if String.eqb symbol "BTC" then PlaceBTCLong (go_int64 size) 3
               else PlaceETHShort (go_int64 size) 3) by reflexivity.
  unfold ExecuteFastHedge, executeHedgeWithRetry. fold ctx.
  destruct (Z.to_nat (MaxRetryAttempts cfg)) as [|n] eqn:E; [lia|].
  assert (Hv : (if EnablePriceProtection cfg then validatePrice symbol price else mret tt) w
               = (Ret tt, w)) by (destruct (EnablePriceProtection cfg); reflexivity).
  cbv [mbind M_bind]. rewrite Hv.
  rewrite (retry_loop_first_success lighter_client ctx_done _ _ n ctx _ w p Hsup) by (rewrite Hc; exact Hp).
  rewrite Hc. reflexivity.
Qed.

Lemma CheckRisk_max_leverage rm pm h now lp bp :
  h !! lighterPositions pm = Some lp -> h !! binancePositions pm = Some bp ->
  exists rs, CheckRisk rm pm h now = Some rs /\
             rs_MaxLeverage rs = go_max (ep_Leverage lp) (ep_Leverage bp) /\
             (Action rs = RiskActionEmergencyClose <->
              EmergencyLeverage (rm_config rm) <= go_max (ep_Leverage lp) (ep_Leverage bp)).
Proof.
  intros Hl Hb. rewrite (CheckRisk_unfold rm pm h now lp bp Hl Hb). cbv zeta.
  destruct (allPositionsZero_some pm h lp bp Hl Hb) as [z Hz].
  destruct (Qle_bool (EmergencyLeverage (rm_config rm)) _) eqn:E1.
  - eexists. split; [reflexivity|]. cbn. split; [reflexivity|].
    split; [intros _; apply Qle_bool_iff; exact E1 | reflexivity].
  - assert (Hn : ~ EmergencyLeverage (rm_config rm) <= go_max (ep_Leverage lp) (ep_Leverage bp))
      by (intros H; apply Qle_bool_iff in H; congruence).
    destruct (Qle_bool (MaxLeverage (rm_config rm)) _).
    + eexists. split; [reflexivity|]. cbn. split; [reflexivity|].
      split; [discriminate | intros H; contradiction].
    + rewrite Hz. destruct z; eexists; (split; [reflexivity|]); cbn;
        (split; [reflexivity | split; [discriminate | intros H; contradiction]]).
Qed.

(** X22: [CheckClosingConditions] asks to close exactly when the larger venue
    leverage reaches MaxLeverage or EmergencyLeverage; the emergency reason is given
    only below MaxLeverage, so never when MaxLeverage <= EmergencyLeverage. *)
Theorem CheckClosingConditions_reasons rm pm h now config lp bp :
  h !! lighterPositions pm = Some lp -> h !! binancePositions pm = Some bp ->
  let lev := go_max (ep_Leverage lp) (ep_Leverage bp) in
  exists b reason,
    CheckClosingConditions rm pm h now config = Some (b, reason) /\
    (b = true <-> MaxLeverage config <= lev \/ EmergencyLeverage config <= lev) /\
    (reason = "emergency leverage threshold exceeded" <->
       EmergencyLeverage config <= lev /\ lev < MaxLeverage config) /\
    (MaxLeverage config <= EmergencyLeverage config ->
       reason <> "emergency leverage threshold exceeded").
Proof.
  intros Hl Hb lev.
  destruct (CheckRisk_max_leverage rm pm h now lp bp Hl Hb) as (rs & Hrs & Hm & _).
  unfold CheckClosingConditions. rewrite Hrs, Hm. fold lev.
  destruct (Qle_bool (MaxLeverage config) lev) eqn:E1.
  - apply Qle_bool_iff in E1. eexists _, _. split; [reflexivity|].
    split; [split; [intros _; left; exact E1 | reflexivity]|].
    split; [split; [discriminate | intros [_ H]; exfalso; apply (Qlt_not_le _ _ H E1)]|].
    intros _; discriminate.
  - assert (Hlt : lev < MaxLeverage config)
      by (apply Qnot_le_lt; intros H; apply Qle_bool_iff in H; congruence).
    destruct (Qle_bool (EmergencyLeverage config) lev) eqn:E2.
    + apply Qle_bool_iff in E2. eexists _, _. split; [reflexivity|].
      split; [split; [intros _; right; exact E2 | reflexivity]|].
      split; [split; [intros _; split; assumption | reflexivity]|].
      intros Hme _. apply (Qlt_not_le _ _ Hlt). apply (Qle_trans _ _ _ Hme E2).
    + assert (Hn : ~ EmergencyLeverage config <= lev)
        by (intros H; apply Qle_bool_iff in H; congruence).
      eexists _, _. split; [reflexivity|].
      split; [split; [discriminate | intros [H|H]; exfalso;
                        [apply (Qlt_not_le _ _ Hlt H) | exact (Hn H)]]|].
      split; [split; [discriminate | intros [H _]; contradiction]|].
      intros _; discriminate.
Qed.

(** X23: [CalculateTotalLeverage] sets each venue's leverage to its total absolute
    position value / 1000, keeps the positions and other entries, and [CheckRisk]
    then calls for an emergency close exactly when the larger ratio reaches
    EmergencyLeverage. *)
Theorem CalculateTotalLeverage_value_ratio rm pm h now lp bp :
  h !! lighterPositions pm = Some lp -> h !! binancePositions pm = Some bp ->
  exists h',
    CalculateTotalLeverage pm h = Some h' /\
    GetTotalPositionValue pm h' = GetTotalPositionValue pm h /\
    (exists lp' bp',
       h' !! lighterPositions pm = Some lp' /\ h' !! binancePositions pm = Some bp' /\
       ep_Leverage lp' = sum_abs_values (Positions lp) / 1000 /\
       ep_Leverage bp' = sum_abs_values (Positions bp) / 1000) /\
    (forall q, q <> lighterPositions pm -> q <> binancePositions pm -> h' !! q = h !! q) /\
    (action_of (CheckRisk rm pm h' now) = Some RiskActionEmergencyClose <->
     EmergencyLeverage (rm_config rm) <=
       go_max (sum_abs_values (Positions lp) / 1000) (sum_abs_values (Positions bp) / 1000)).
Proof.
  intros Hl Hb. unfold CalculateTotalLeverage. rewrite Hl.
  set (l := lighterPositions pm) in *. set (b := binancePositions pm) in *.
  set (lp1 := with_leverage lp (sum_abs_values (Positions lp) / 1000)).
  set (h1 := <[l := lp1]> h).
  assert (Hb1 : exists bp1, h1 !! b = Some bp1 /\ Positions bp1 = Positions bp /\
                            ep_Leverage (with_leverage bp1 (sum_abs_values (Positions bp1) / 1000))
                            = sum_abs_values (Positions bp) / 1000).
  { destruct (decide (b = l)) as [Heq|Hne].
    - exists lp1. unfold h1. rewrite Heq, lookup_insert_eq. rewrite Heq in Hb.
      rewrite Hl in Hb. injection Hb as <-. repeat split.
    - exists bp. unfold h1. rewrite lookup_insert_ne by congruence. split; [exact Hb|].
      repeat split. }
  destruct Hb1 as (bp1 & Hb1 & Hpos & Hlev). rewrite Hb1.
  set (bp2 := with_leverage bp1 (sum_abs_values (Positions bp1) / 1000)).
  set (h' := <[b := bp2]> h1).
  assert (Hl' : exists lp', h' !! l = Some lp' /\ Positions lp' = Positions lp /\
                            ep_Leverage lp' = sum_abs_values (Positions lp) / 1000).
  { destruct (decide (b = l)) as [Heq|Hne].
    - exists bp2. unfold h'. rewrite Heq, lookup_insert_eq. split; [reflexivity|].
      unfold bp2. cbn [with_leverage Positions ep_Leverage]. rewrite Hpos.
      rewrite Heq in Hb. rewrite Hl in Hb. injection Hb as ->. split; reflexivity.
    - exists lp1. unfold h', h1. rewrite lookup_insert_ne by congruence.
      rewrite lookup_insert_eq. repeat split. }
  destruct Hl' as (lp' & Hl' & Hposl & Hlevl).
  assert (Hb' : h' !! b = Some bp2) by apply lookup_insert_eq.
  exists h'. split; [reflexivity|].
  split.
  { unfold GetTotalPositionValue, GetBinancePositions, GetLighterPositions, deref.
    fold l b. rewrite Hl', Hb', Hl, Hb. unfold bp2. cbn [with_leverage Positions].
    rewrite Hpos, Hposl. reflexivity. }
  split.
  { exists lp', bp2. split; [exact Hl'|]. split; [exact Hb'|]. split; [exact Hlevl|].
    exact Hlev. }
  split.
  { intros q Hq1 Hq2. unfold h', h1. rewrite !lookup_insert_ne by congruence. reflexivity. }
  destruct (CheckRisk_max_leverage rm pm h' now lp' bp2 Hl' Hb') as (rs & Hrs & _ & Hact).
  rewrite Hrs. cbn [action_of option_map]. unfold bp2 in Hact. rewrite Hlevl, Hlev in Hact.
  split.
  - intros H. injection H as H. apply Hact. exact H.
  - intros H. f_equal. apply Hact. exact H.
Qed.

(** ** Witnesses of the further properties *)

Lemma partialWorld_wf : orders_wf partialWorld.
Proof.
  split.
  - intros p Hp. cbn in Hp. destruct (decide (p = 1%positive)) as [->|Hne]; [reflexivity|].
    rewrite lookup_singleton_ne in Hp by congruence. destruct Hp as [? Hp]; discriminate.
  - intros id p Hp. cbn in Hp. destruct (String.eqb_spec id "7") as [->|Hne].
    + rewrite lookup_singleton_eq in Hp. injection Hp as <-. cbn.
      rewrite lookup_singleton_eq. eexists; reflexivity.
    + rewrite lookup_singleton_ne in Hp by congruence. discriminate.
Qed.

Lemma updateStats_counters_consistent_witness :
  run_updates execEvents NewExecutionStats = Some execStats /\
  TotalExecutions execStats = wrap64 (SuccessfulExecutions execStats + FailedExecutions execStats) /\
  wrap64 (bucket_total execStats) = SuccessfulExecutions execStats.
Proof.
  split; [vm_compute; reflexivity|].
  apply (updateStats_counters_consistent execEvents execStats). vm_compute. reflexivity.
Defined.

Lemma updateStats_delay_extremes_witness :
  run_updates execEvents NewExecutionStats = Some execStats /\
  (MinDelay execStats <= time_Hour)%Z /\ (0 <= MaxDelay execStats)%Z /\
  (forall s d t, In (s, d, t) execEvents -> s = true ->
                 MinDelay execStats <= d <= MaxDelay execStats)%Z /\
  (Forall (fun '(s, d, _) => s = true -> time_Hour <= d)%Z execEvents ->
   MinDelay execStats = time_Hour).
Proof.
  split; [vm_compute; reflexivity|].
  apply (updateStats_delay_extremes execEvents execStats). vm_compute. reflexivity.
Defined.

Lemma RecordTrade_same_day_accumulates_witness :
  let trades := [(day1, 1000); (mkGoTime (5 * 3600 * 1000000000) 0, 500);
                 (mkGoTime (20 * 3600 * 1000000000) 0, 3000)] in
  let st := fold_left (fun st tv => RecordTrade (fst tv) (snd tv) "OPENING" st) trades
              (NewTradingStats day1) in
  DailyTrades st = 3%Z /\ DailyVolume st == 4500 /\ AvgTradeSize st == 1500.
Proof.
  intros trades st.
  destruct (RecordTrade_same_day_accumulates day1 trades "OPENING")
    as (Hd & _ & _ & Hdv & _ & Ha).
  - repeat constructor.
  - simpl; lia.
  - split; [exact Hd|]. split.
    + eapply Qeq_trans; [exact Hdv | vm_compute; reflexivity].
    + eapply Qeq_trans; [exact (Ha ltac:(discriminate)) | vm_compute; reflexivity].
Defined.

Lemma AddOrder_registers_witness :
  orders_wf partialWorld /\
  (let '(r, w') := AddOrder partialOrder partialWorld in
   r = Ret (nextLoc partialWorld) /\ orders_wf w' /\
   (activeOrders w' !! ID partialOrder ≫= fun p => orderHeap w' !! p) = Some partialOrder /\
   (forall id, id <> ID partialOrder ->
      (activeOrders w' !! id ≫= fun p => orderHeap w' !! p) =
      (activeOrders partialWorld !! id ≫= fun p => orderHeap partialWorld !! p)) /\
   ledger w' = ledger partialWorld /\ hedgeLog w' = hedgeLog partialWorld).
Proof.
  split; [exact partialWorld_wf|].
  apply (AddOrder_registers partialOrder partialWorld). exact partialWorld_wf.
Defined.

Lemma checkActiveOrders_stub_places_nothing_witness :
  orders_wf partialWorld /\
  (let '(r, w') := checkActiveOrders (fun _ => None) (fun _ => None) (mkOrderMonitor None) stubOrderStatus day2
                     partialWorld in
   r = Ret tt /\ orders_wf w' /\ activeOrders w' = activeOrders partialWorld /\
   ledger w' = ledger partialWorld /\ binanceLog w' = binanceLog partialWorld /\
   lighterLog w' = lighterLog partialWorld /\ hedgeLog w' = hedgeLog partialWorld).
Proof.
  split; [exact partialWorld_wf|].
  apply (checkActiveOrders_stub_places_nothing (fun _ => None) (fun _ => None) (mkOrderMonitor None) day2
           partialWorld).
  exact partialWorld_wf.
Defined.

Lemma registered_order_blocks_new_trades_witness :
  orders_wf partialWorld /\ activeOrders partialWorld <> ∅ /\
  canStartNewTrade 0 0 zeroTime day2
    (activeOrders (snd (checkActiveOrders (fun _ => None) (fun _ => None) (mkOrderMonitor None)
                          stubOrderStatus day2 partialWorld)))
    tenTradesDay1 = false.
Proof.
  split; [exact partialWorld_wf|]. split; [apply map_non_empty_singleton|].
  apply (registered_order_blocks_new_trades (fun _ => None) (fun _ => None) (mkOrderMonitor None) day2
           partialWorld 0 0 zeroTime day2 tenTradesDay1).
  - exact partialWorld_wf.
  - apply map_non_empty_singleton.
Defined.

Lemma checkOrderStatus_filled_hedges_full_size_witness :
  orderHeap partialWorld !! 1%positive = Some partialOrder /\
  activeOrders partialWorld !! ID partialOrder = Some 1%positive /\
  (let '(r, w') := checkOrderStatus (fun _ => None) (fun _ => None) (mkOrderMonitor None)
                     (fun _ => Some ("FILLED", 1)) day2 1%positive partialWorld in
   r = Ret tt /\ activeOrders w' = delete (ID partialOrder) (activeOrders partialWorld) /\
   (exists side, hedgeLog w' = hedgeLog partialWorld ++
                   [mkHedgeCall (hedge_venue (ao_Exchange partialOrder))
                      (ao_Symbol partialOrder) side (ao_Size partialOrder)])%list /\
   binanceLog w' = binanceLog partialWorld /\ lighterLog w' = lighterLog partialWorld /\
   ledger w' = ledger partialWorld).
Proof.
  split; [vm_compute; reflexivity|]. split; [vm_compute; reflexivity|].
  apply (checkOrderStatus_filled_hedges_full_size (fun _ => None) (fun _ => None) (fun _ => Some ("FILLED", 1))
           day2 1%positive partialOrder 1 partialWorld).
  - vm_compute; reflexivity.
  - vm_compute; reflexivity.
  - left; reflexivity.
  - cbn; discriminate.
  - reflexivity.
Defined.

Lemma checkOrderStatus_cancelled_unregisters_witness :
  orderHeap partialWorld !! 1%positive = Some partialOrder /\
  activeOrders partialWorld !! ID partialOrder = Some 1%positive /\
  (let '(r, w') := checkOrderStatus (fun _ => None) (fun _ => None) (mkOrderMonitor None)
                     (fun _ => Some ("CANCELLED", 0.3)) day2 1%positive partialWorld in
   r = Ret tt /\ activeOrders w' = delete (ID partialOrder) (activeOrders partialWorld) /\
   option_map Status (orderHeap w' !! 1%positive) = Some "CANCELLED" /\
   hedgeLog w' = hedgeLog partialWorld /\ binanceLog w' = binanceLog partialWorld /\
   lighterLog w' = lighterLog partialWorld /\ ledger w' = ledger partialWorld).
Proof.
  split; [vm_compute; reflexivity|]. split; [vm_compute; reflexivity|].
  apply (checkOrderStatus_cancelled_unregisters (fun _ => None) (fun _ => None) (mkOrderMonitor None)
           (fun _ => Some ("CANCELLED", 0.3)) day2 1%positive partialOrder 0.3 partialWorld).
  - vm_compute; reflexivity.
  - vm_compute; reflexivity.
  - left; reflexivity.
  - cbn; discriminate.
  - reflexivity.
Defined.

Lemma ensurePosition_fills_missing_symbol_witness :
  ledger closingWorldBTC !! 1%positive = Some (lighterEP 0 ∅) /\
  (let '(r, w1) := ensurePosition 1%positive "BTC" closingWorldBTC in
   exists pos, r = Ret pos /\
     (Positions (lighterEP 0 ∅) !! "BTC" = Some pos \/
      (Positions (lighterEP 0 ∅) !! "BTC" = None /\ pos = mkPosition "BTC" 0 0 0)) /\
     (forall s', option_map (fun ep' => Positions ep' !! s') (ledger w1 !! 1%positive) =
                 Some (if String.eqb s' "BTC" then Some pos
                       else Positions (lighterEP 0 ∅) !! s')) /\
     (forall q, q <> 1%positive -> ledger w1 !! q = ledger closingWorldBTC !! q) /\
     orderHeap w1 = orderHeap closingWorldBTC /\ activeOrders w1 = activeOrders closingWorldBTC /\
     binanceLog w1 = binanceLog closingWorldBTC /\ lighterLog w1 = lighterLog closingWorldBTC /\
     hedgeLog w1 = hedgeLog closingWorldBTC /\
     option_map (fun ep' => sizes_all_zero (Positions ep')) (ledger w1 !! 1%positive) =
       Some (sizes_all_zero (Positions (lighterEP 0 ∅))) /\
     ensurePosition 1%positive "BTC" w1 = (Ret pos, w1)).
Proof.
  split; [vm_compute; reflexivity|].
  apply (ensurePosition_fills_missing_symbol 1%positive "BTC" closingWorldBTC (lighterEP 0 ∅)).
  vm_compute; reflexivity.
Defined.

Lemma ExecuteClosingLogic_flat_book_noop_witness :
  closing_allPositionsZero (binanceEP 0 ∅) (lighterEP 0 ∅) = true /\
  ExecuteClosingLogic (fun _ => Some 1%Z) riskCfg pmFix day1 flatWorld = (Ret tt, flatWorld).
Proof.
  split; [vm_compute; reflexivity|].
  apply (ExecuteClosingLogic_flat_book_noop (fun _ => Some 1%Z) riskCfg pmFix day1 flatWorld
           (binanceEP 0 ∅) (lighterEP 0 ∅)); vm_compute; reflexivity.
Defined.

Lemma ExecuteClosingLogic_places_one_capped_order_witness :
  closing_allPositionsZero closingBinanceBTC (lighterEP 0 ∅) = false /\
  (let '(r, w') := ExecuteClosingLogic (fun _ => Some 42%Z) riskCfg pmFix day1 closingWorldBTC in
   r = Ret tt /\
   exists c o,
     binanceLog w' = (binanceLog closingWorldBTC ++ [c])%list /\
     lighterLog w' = lighterLog closingWorldBTC /\ hedgeLog w' = hedgeLog closingWorldBTC /\
     nextLoc w' = Pos.succ (nextLoc closingWorldBTC) /\
     orderHeap w' !! nextLoc closingWorldBTC = Some o /\
     activeOrders w' !! ID o = Some (nextLoc closingWorldBTC) /\
     (forall id, id <> ID o -> activeOrders w' !! id = activeOrders closingWorldBTC !! id) /\
     ao_Exchange o = "binance" /\ Status o = "PENDING" /\
     ao_Symbol o = (if Qle_bool (Qabs (size_of closingBinanceBTC "ETH"))
                                (Qabs (size_of closingBinanceBTC "BTC"))
                    then "BTC" else "ETH") /\
     ao_Size o = binance_call_amount c /\
     ao_Size o == go_min (Qmax (Qabs (size_of closingBinanceBTC "BTC"))
                               (Qabs (size_of closingBinanceBTC "ETH")))
                         (OrderSize riskCfg) /\
     ao_Size o <= OrderSize riskCfg /\
     Side o = (if Qle_bool (Qabs (size_of closingBinanceBTC "ETH"))
                           (Qabs (size_of closingBinanceBTC "BTC"))
               then (if Qlt_bool (size_of closingBinanceBTC "BTC") 0 then "BUY" else "SELL")
               else (if Qlt_bool 0 (size_of closingBinanceBTC "ETH") then "SELL" else "BUY")) /\
     binance_call_side c = Side o /\
     binance_call_symbol c = (if String.eqb (Side o) "SELL" then "BTC" else "ETH")).
Proof.
  split; [vm_compute; reflexivity|].
  apply (ExecuteClosingLogic_places_one_capped_order (fun _ => Some 42%Z) riskCfg pmFix day1
           closingWorldBTC closingBinanceBTC (lighterEP 0 ∅)).
  - vm_compute; reflexivity.
  - vm_compute; reflexivity.
  - vm_compute; reflexivity.
  - intros c. eexists; reflexivity.
Defined.

Lemma ExecuteClosingLogic_rejected_order_not_registered_witness :
  closing_allPositionsZero closingBinanceBTC (lighterEP 0 ∅) = false /\
  (let '(r, w') := ExecuteClosingLogic (fun _ => None) riskCfg pmFix day1 closingWorldBTC in
   r = Fail "failed to place Binance closing order: binance client error" /\
   orderHeap w' = orderHeap closingWorldBTC /\ activeOrders w' = activeOrders closingWorldBTC /\
   nextLoc w' = nextLoc closingWorldBTC /\
   (exists c, binanceLog w' = (binanceLog closingWorldBTC ++ [c])%list) /\
   lighterLog w' = lighterLog closingWorldBTC /\ hedgeLog w' = hedgeLog closingWorldBTC /\
   (forall s, option_map (fun ep => size_of ep s) (ledger w' !! binancePositions pmFix) =
              Some (size_of closingBinanceBTC s)) /\
   (forall q, q <> binancePositions pmFix -> ledger w' !! q = ledger closingWorldBTC !! q)).
Proof.
  split; [vm_compute; reflexivity|].
  apply (ExecuteClosingLogic_rejected_order_not_registered (fun _ => None) riskCfg pmFix day1
           closingWorldBTC closingBinanceBTC (lighterEP 0 ∅)).
  - vm_compute; reflexivity.
  - vm_compute; reflexivity.
  - vm_compute; reflexivity.
  - intros c. reflexivity.
Defined.

Lemma ExecuteClosingLogic_flat_binance_sends_zero_btc_sell_witness :
  size_of (binanceEP 0 ∅) "BTC" == 0 /\
  sizes_all_zero (Positions (lighterEP 0 {["BTC" := mkPosition "BTC" 0.5 30000 0]})) = false /\
  exists sz,
    sz == 0 /\
    binanceLog (snd (ExecuteClosingLogic (fun _ => Some 5%Z) riskCfg pmFix day1 lighterOnlyWorld)) =
      (binanceLog lighterOnlyWorld ++ [PlaceBTCShort sz (SpreadPercent riskCfg)])%list /\
    activeOrders (snd (ExecuteClosingLogic (fun _ => Some 5%Z) riskCfg pmFix day1
                         lighterOnlyWorld)) !! "5" = Some (nextLoc lighterOnlyWorld).
Proof.
  split; [vm_compute; reflexivity|]. split; [vm_compute; reflexivity|].
  destruct (ExecuteClosingLogic_flat_binance_sends_zero_btc_sell (fun _ => Some 5%Z) riskCfg pmFix
              day1 lighterOnlyWorld (binanceEP 0 ∅)
              (lighterEP 0 {["BTC" := mkPosition "BTC" 0.5 30000 0]}))
    as (sz & Hsz & Hlog & Hreg).
  - vm_compute; reflexivity.
  - vm_compute; reflexivity.
  - vm_compute; reflexivity.
  - vm_compute; reflexivity.
  - apply Qle_bool_iff. vm_compute. reflexivity.
  - vm_compute; reflexivity.
  - exists sz. split; [exact Hsz|]. split; [exact Hlog|].
    destruct (Hreg 5%Z eq_refl) as (_ & _ & Hact & _). exact Hact.
Defined.

Lemma CheckHedgeBalance_collects_imbalances_witness :
  ledger imbalancedWorld !! lighterPositions pmFix = Some imbLighter /\
  ledger imbalancedWorld !! binancePositions pmFix = Some imbBinance /\
  exists st,
    CheckHedgeBalance NewHedgeBalancer pmFix day1 imbalancedWorld = (Ret st, imbalancedWorld) /\
    Imbalances st = List.filter NeedsAdjustment
                      [checkSymbolBalance NewHedgeBalancer "BTC" imbLighter imbBinance;
                       checkSymbolBalance NewHedgeBalancer "ETH" imbLighter imbBinance] /\
    (IsBalanced st = true <-> Imbalances st = []) /\
    TotalImbalanceValue st ==
      fold_right (fun i acc => Qabs (AdjustmentAmount i) + acc) 0 (Imbalances st) /\
    CheckedAt st = day1.
Proof.
  split; [vm_compute; reflexivity|]. split; [vm_compute; reflexivity|].
  apply (CheckHedgeBalance_collects_imbalances NewHedgeBalancer pmFix day1 imbalancedWorld
           imbLighter imbBinance); vm_compute; reflexivity.
Defined.

Lemma ExecuteBalanceAdjustment_after_check_witness :
  fst (CheckHedgeBalance NewHedgeBalancer pmFix day1 imbalancedWorld) = Ret imbalancedStatus /\
  ExecuteBalanceAdjustment (fun _ => Some 1%Z) (fun _ => Some 1%Z) riskCfg imbalancedStatus
    imbalancedWorld =
    (Ret tt, mkWorld (ledger imbalancedWorld) (orderHeap imbalancedWorld)
       (activeOrders imbalancedWorld) (nextLoc imbalancedWorld)
       (binanceLog imbalancedWorld ++
          map (fun i => if String.eqb (pi_Symbol i) "BTC"
                        then PlaceBTCShort (AdjustmentAmount i) (SpreadPercent riskCfg)
                        else PlaceETHLong (AdjustmentAmount i) (SpreadPercent riskCfg))
              (List.filter binance_smaller (Imbalances imbalancedStatus)))
       (lighterLog imbalancedWorld ++
          map (fun i => if String.eqb (pi_Symbol i) "BTC"
                        then PlaceBTCLong (go_int64 (AdjustmentAmount i)) 3
                        else PlaceETHShort (go_int64 (AdjustmentAmount i)) 3)
              (List.filter (fun i => negb (binance_smaller i)) (Imbalances imbalancedStatus)))
       (hedgeLog imbalancedWorld)).
Proof.
  split; [vm_compute; reflexivity|].
  apply (ExecuteBalanceAdjustment_after_check (fun _ => Some 1%Z) (fun _ => Some 1%Z) riskCfg
           NewHedgeBalancer pmFix day1 imbalancedWorld imbLighter imbBinance imbalancedStatus).
  - vm_compute; reflexivity.
  - vm_compute; reflexivity.
  - vm_compute; reflexivity.
  - intros c. eexists; reflexivity.
  - intros c. eexists; reflexivity.
Defined.

Lemma executeHedgeWithRetry_exhausts_attempts_witness :
  executeHedgeWithRetry (fun _ => None) (fun _ => None) NewDefaultFastExecutionConfig
    btcHedgeCtx emptyWorld =
    (Fail ("hedge execution failed after 3 attempts: " +:+ lighter_hedge_error btcHedgeCtx),
     mkWorld ∅ ∅ ∅ 1%positive [] (repeat (PlaceBTCLong 1000 3) 3) []) /\
  executeHedgeWithRetry (fun _ => None)
    (fun k => if (k =? 2)%Z then Some "context canceled" else None)
    NewDefaultFastExecutionConfig btcHedgeCtx emptyWorld =
    (Fail "context canceled",
     mkWorld ∅ ∅ ∅ 1%positive [] (repeat (PlaceBTCLong 1000 3) 2) []).
Proof.
  split.
  - apply (proj1 (executeHedgeWithRetry_exhausts_attempts (fun _ => None) (fun _ => None)
                    NewDefaultFastExecutionConfig btcHedgeCtx emptyWorld
                    ltac:(left; split; reflexivity) (fun _ => eq_refl)) (fun _ _ => eq_refl)).
  - apply (proj2 (executeHedgeWithRetry_exhausts_attempts (fun _ => None)
                    (fun k => if (k =? 2)%Z then Some "context canceled" else None)
                    NewDefaultFastExecutionConfig btcHedgeCtx emptyWorld
                    ltac:(left; split; reflexivity) (fun _ => eq_refl))
             2%Z "context canceled").
    + simpl; lia.
    + intros j Hj. assert (j = 1%Z) as -> by lia. reflexivity.
    + reflexivity.
Defined.

Lemma ExecuteFastHedge_supported_pair_witness :
  (0 < MaxRetryAttempts NewDefaultFastExecutionConfig)%Z /\
  ExecuteFastHedge (fun _ => Some 60000%Z) (fun _ => None) NewDefaultFastExecutionConfig "7" "BTC" "SELL" 1000 60000
    emptyWorld =
    (Ret (mkExecutionContext "7" "BTC" "SELL" (determineHedgeSide "BTC" "SELL") 1000 60000
            (inject_Z 60000) true ""),
     log_lighter emptyWorld (if String.eqb "BTC" "BTC" then PlaceBTCLong (go_int64 1000) 3
                             else PlaceETHShort (go_int64 1000) 3)).
Proof.
  split; [vm_compute; reflexivity|].
  apply (ExecuteFastHedge_supported_pair (fun _ => Some 60000%Z) (fun _ => None) NewDefaultFastExecutionConfig
           "7" "BTC" "SELL" 1000 60000 emptyWorld 60000).
  - left; split; reflexivity.
  - vm_compute; reflexivity.
  - reflexivity.
Defined.

Lemma CheckClosingConditions_reasons_witness :
  ledger imbalancedWorld !! lighterPositions pmFix = Some imbLighter /\
  ledger imbalancedWorld !! binancePositions pmFix = Some imbBinance /\
  (let lev := go_max (ep_Leverage imbLighter) (ep_Leverage imbBinance) in
   exists b reason,
     CheckClosingConditions riskMgr pmFix (ledger imbalancedWorld) day1 riskCfg =
       Some (b, reason) /\
     (b = true <-> MaxLeverage riskCfg <= lev \/ EmergencyLeverage riskCfg <= lev) /\
     (reason = "emergency leverage threshold exceeded" <->
        EmergencyLeverage riskCfg <= lev /\ lev < MaxLeverage riskCfg) /\
     (MaxLeverage riskCfg <= EmergencyLeverage riskCfg ->
        reason <> "emergency leverage threshold exceeded")).
Proof.
  split; [vm_compute; reflexivity|]. split; [vm_compute; reflexivity|].
  apply (CheckClosingConditions_reasons riskMgr pmFix (ledger imbalancedWorld) day1 riskCfg
           imbLighter imbBinance); vm_compute; reflexivity.
Defined.

Lemma CalculateTotalLeverage_value_ratio_witness :
  ledger imbalancedWorld !! lighterPositions pmFix = Some imbLighter /\
  ledger imbalancedWorld !! binancePositions pmFix = Some imbBinance /\
  exists h',
    CalculateTotalLeverage pmFix (ledger imbalancedWorld) = Some h' /\
    GetTotalPositionValue pmFix h' = GetTotalPositionValue pmFix (ledger imbalancedWorld) /\
    (exists lp' bp',
       h' !! lighterPositions pmFix = Some lp' /\ h' !! binancePositions pmFix = Some bp' /\
       ep_Leverage lp' = sum_abs_values (Positions imbLighter) / 1000 /\
       ep_Leverage bp' = sum_abs_values (Positions imbBinance) / 1000) /\
    (forall q, q <> lighterPositions pmFix -> q <> binancePositions pmFix ->
               h' !! q = ledger imbalancedWorld !! q) /\
    (action_of (CheckRisk riskMgr pmFix h' day1) = Some RiskActionEmergencyClose <->
     EmergencyLeverage (rm_config riskMgr) <=
       go_max (sum_abs_values (Positions imbLighter) / 1000)
              (sum_abs_values (Positions imbBinance) / 1000)).
Proof.
  split; [vm_compute; reflexivity|]. split; [vm_compute; reflexivity|].
  apply (CalculateTotalLeverage_value_ratio riskMgr pmFix (ledger imbalancedWorld) day1
           imbLighter imbBinance); vm_compute; reflexivity.
Defined.
